(** * License lifecycle service: a shallow embedding of [license_server.py]
    and of the offline key generators, with the properties of its
    specification stated and settled against the code.

    The embedding follows the Python source function by function.  The
    SQLite table [licenses] has a [UNIQUE NOT NULL] column [license_key]
    and is modelled as a finite map from that column to the remaining
    columns; the table [activation_logs] is an append-only list.  The
    columns that SQLite fills by default and that no modelled handler reads
    ([id], [created_at], the log's [timestamp]) are left out.  A [datetime]
    is an integer number of microseconds since 0001-01-01T00:00:00; the
    text the database stores for it ([isoformat] / [fromisoformat]) is
    identified with that number.  Every call of [datetime.now()] is an
    explicit argument of the function that makes it, in the order of the
    calls.  The body of a request to the client API is any JSON value, as
    [request.json] hands it to the handler, and an uncaught exception is an
    outcome of the handler like an answer.  The handlers that only read ([list_command], [info_command],
    [stats_command], [start_command]) are not part of the development. *)

From Stdlib Require Import ZArith Lia Ascii String List DecimalString.
From stdpp Require Import base option strings list gmap fin_maps.

Local Open Scope string_scope.
Local Open Scope Z_scope.

(** ** Python strings *)

Module PyStr.

(** [str.upper()] on the ASCII range; other bytes are left as they are. *)
Definition upper_char (c : ascii) : ascii :=
  let n := nat_of_ascii c in
  if ((97 <=? n)%nat && (n <=? 122)%nat)%bool then ascii_of_nat (n - 32) else c.

Fixpoint upper (s : string) : string :=
  match s with
  | EmptyString => EmptyString
  | String c s' => String (upper_char c) (upper s')
  end.

(** Truth value of a string: [not s] holds exactly for the empty one. *)
Definition truthy (s : string) : bool :=
  match s with EmptyString => false | String _ _ => true end.

(** [sep.join(parts)] *)
Fixpoint join (sep : string) (parts : list string) : string :=
  match parts with
  | [] => ""
  | [p] => p
  | p :: rest => p ++ sep ++ join sep rest
  end.

(** [''.join(chars)] for a list of characters *)
Definition of_chars (cs : list ascii) : string := string_of_list_ascii cs.

(** [s.split(sep)] for a one-character separator *)
Fixpoint split_aux (sep : ascii) (cur : string) (s : string) : list string :=
  match s with
  | EmptyString => [cur]
  | String c s' =>
      if Ascii.eqb c sep then cur :: split_aux sep "" s'
      else split_aux sep (cur ++ String c "") s'
  end.
Definition split (sep : ascii) (s : string) : list string := split_aux sep "" s.

(** [s.startswith(p)] *)
Definition startswith (p s : string) : bool := String.prefix p s.

(** [s.replace(old, '')] for a non-empty [old]: every occurrence, scanning
    left to right, is removed.  [skip] counts the characters of a matched
    occurrence that are still to be dropped. *)
Fixpoint remove_all_aux (old : string) (skip : nat) (s : string) : string :=
  match s with
  | EmptyString => EmptyString
  | String c s' =>
      match skip with
      | S k => remove_all_aux old k s'
      | O =>
          if String.prefix old s
          then remove_all_aux old (String.length old - 1) s'
          else String c (remove_all_aux old 0 s')
      end
  end.
Definition remove_all (old s : string) : string := remove_all_aux old 0 s.

Definition is_digit (c : ascii) : bool :=
  let n := nat_of_ascii c in ((48 <=? n)%nat && (n <=? 57)%nat)%bool.

(** [s.isascii()] *)
Definition isascii (s : string) : bool :=
  forallb (fun c => (nat_of_ascii c <? 128)%nat) (list_ascii_of_string s).

(** [s.isdigit()] on ASCII text: non-empty and digits only. *)
Definition isdigit (s : string) : bool :=
  truthy s && forallb is_digit (list_ascii_of_string s).

Definition digit_value (c : ascii) : Z := Z.of_nat (nat_of_ascii c) - 48.

Fixpoint digits_value (acc : Z) (s : string) : Z :=
  match s with
  | EmptyString => acc
  | String c s' => digits_value (10 * acc + digit_value c) s'
  end.

(** [int(s)] for a plain decimal literal with an optional sign; [None]
    stands for the [ValueError] Python raises on other text.  (Python also
    accepts underscores between digits and non-ASCII digits; such
    arguments are outside this model.) *)
Definition int (s : string) : option Z :=
  match s with
  | String "-" d => if isdigit d then Some (- digits_value 0 d) else None
  | String "+" d => if isdigit d then Some (digits_value 0 d) else None
  | _ => if isdigit s then Some (digits_value 0 s) else None
  end.

End PyStr.

(** ** [datetime] and [timedelta] *)

Module DateTime.

Definition usec_per_day : Z := 86400000000.

(** [datetime.min] and [datetime.max] (year 1 to year 9999). *)
Definition dt_min : Z := 0.
Definition dt_max : Z := 3652059 * usec_per_day - 1.

Definition max_delta_days : Z := 999999999.

(** [timedelta(days=d)]: [None] is the [OverflowError] raised when the
    magnitude of [d] exceeds 999999999 days. *)
Definition timedelta_days (d : Z) : option Z :=
  if (Z.abs d <=? max_delta_days) then Some (d * usec_per_day) else None.

(** [t + delta]: [None] is the [OverflowError] raised when the sum leaves
    the range of [datetime]. *)
Definition add (t delta : Z) : option Z :=
  let r := t + delta in
  if (dt_min <=? r) && (r <=? dt_max) then Some r else None.

(** [t + timedelta(days=d)] *)
Definition add_days (t d : Z) : option Z :=
  match timedelta_days d with
  | Some delta => add t delta
  | None => None
  end.

End DateTime.

(** ** Key generators *)

(** The random source: [random.choices] draws one index per character; the
    [n]-th draw of a run is [draw n], reduced to the size of the
    population. *)
Record Rng := { draw : nat -> nat; pos : nat }.

Definition random_index (n : nat) (g : Rng) : nat * Rng :=
  ((draw g (pos g) mod n)%nat, {| draw := draw g; pos := S (pos g) |}).

(** [random.choices(population, k=k)] *)
Fixpoint random_choices (population : list ascii) (k : nat) (g : Rng)
  : list ascii * Rng :=
  match k with
  | O => ([], g)
  | S k' =>
      let '(i, g1) := random_index (length population) g in
      let '(rest, g2) := random_choices population k' g1 in
      (nth i population "?"%char :: rest, g2)
  end.

(** The loop [for _ in range(n): parts.append(''.join(random.choices(chars, k=4)))] *)
Fixpoint random_segments (chars : list ascii) (n : nat) (g : Rng)
  : list string * Rng :=
  match n with
  | O => ([], g)
  | S n' =>
      let '(seg, g1) := random_choices chars 4 g in
      let '(rest, g2) := random_segments chars n' g1 in
      (PyStr.of_chars seg :: rest, g2)
  end.

Definition ascii_uppercase : string := "ABCDEFGHIJKLMNOPQRSTUVWXYZ".
Definition digits : string := "0123456789".

(** [license_server.py]: [generate_license_code] *)
Definition chars : string := "ABCDEFGHJKLMNPQRSTUVWXYZ23456789".

Definition generate_license_code (g : Rng) : string * Rng :=
  let '(segments, g') := random_segments (list_ascii_of_string chars) 3 g in
  ("GNP-" ++ PyStr.join "-" segments, g').

(** [generate_codes.py]: [generate_code] *)
Module generate_codes.
Definition generate_code (g : Rng) : string * Rng :=
  let chars := ascii_uppercase ++ digits in
  let '(parts, g') := random_segments (list_ascii_of_string chars) 3 g in
  ("GNP-" ++ PyStr.join "-" parts, g').
End generate_codes.

(** [generate_3days_codes.py]: [generate_code] *)
Module generate_3days_codes.
Definition generate_code (g : Rng) : string * Rng :=
  let chars := ascii_uppercase ++ digits in
  let '(parts, g') := random_segments (list_ascii_of_string chars) 3 g in
  ("GNP-" ++ PyStr.join "-" parts, g').
End generate_3days_codes.

(** [generate_lifetime_codes.py]: [generate_code], with [range(4)] *)
Module generate_lifetime_codes.
Definition generate_code (g : Rng) : string * Rng :=
  let '(parts, g') :=
    random_segments (list_ascii_of_string (ascii_uppercase ++ digits)) 4 g in
  ("GNP-" ++ PyStr.join "-" parts, g').
End generate_lifetime_codes.

(** [generate_5days_codes.py]: [generate_code], with [range(4)] *)
Module generate_5days_codes.
Definition generate_code (g : Rng) : string * Rng :=
  let '(parts, g') :=
    random_segments (list_ascii_of_string (ascii_uppercase ++ digits)) 4 g in
  ("GNP-" ++ PyStr.join "-" parts, g').
End generate_5days_codes.

(** [generate_all_codes_4parts.py]: [generate_code_4parts], with [range(3)] *)
Module generate_all_codes_4parts.
Definition generate_code_4parts (g : Rng) : string * Rng :=
  let '(parts, g') :=
    random_segments (list_ascii_of_string (ascii_uppercase ++ digits)) 3 g in
  ("GNP-" ++ PyStr.join "-" parts, g').
End generate_all_codes_4parts.

(** The key format [PREFIX-XXXX-XXXX-XXXX] of the specification, stated
    without reference to the generators' alphabets. *)
Definition is_upper_alnum (c : ascii) : bool :=
  let n := nat_of_ascii c in
  (((65 <=? n)%nat && (n <=? 90)%nat) || ((48 <=? n)%nat && (n <=? 57)%nat))%bool.

Definition confusable (c : ascii) : bool :=
  existsb (Ascii.eqb c) (list_ascii_of_string "0O1I").

Definition unambiguous (c : ascii) : bool :=
  (is_upper_alnum c && negb (confusable c))%bool.

(** A segment: exactly four characters, each accepted by [ok]. *)
Definition is_segment (ok : ascii -> bool) (s : string) : Prop :=
  String.length s = 4%nat /\ Forall (fun c => ok c = true) (list_ascii_of_string s).

(** [PREFIX-] followed by [n] segments separated by [-]. *)
Definition key_format (ok : ascii -> bool) (n : nat) (key : string) : Prop :=
  exists segs : list string,
    key = "GNP-" ++ PyStr.join "-" segs /\
    length segs = n /\ Forall (is_segment ok) segs.

(** ** The store: tables [licenses] and [activation_logs] *)

(** A row of [licenses], without its key column. [NULL] is [None]. *)
Record LicenseRow := {
  device_id : option string;
  user_name : option string;
  telegram_user_id : option Z;
  plan : string;
  activated_at : option Z;
  expires_at : Z;
  is_active : bool;
  is_used : bool;
  notes : option string
}.

Inductive action := act_activate | act_verify | act_deactivate.

(** A row of [activation_logs]. *)
Record LogRow := {
  log_license_key : string;
  log_device_id : option string;
  log_action : action;
  log_ip_address : string
}.

Record DB := {
  licenses : gmap string LicenseRow;
  activation_logs : list LogRow
}.

(** [init_database] on a fresh file: both tables exist and are empty. *)
Definition init_database : DB := {| licenses := ∅; activation_logs := [] |}.

Inductive exn :=
| OverflowError | IntegrityError | ValueError | IndexError
| AttributeError | UnicodeEncodeError | ProgrammingError.

Inductive outcome (A : Type) :=
| Returned (a : A)
| Raised (e : exn).
Arguments Returned {A} a.
Arguments Raised {A} e.

(** ** The values of a request body

    [request.json] is whatever [json.loads] makes of the body: the handlers
    do not look at its type before they use it. *)

(** A Python [str]: its text, as the bytes of its UTF-8 encoding, or a
    string that holds a lone surrogate (as the escape [\ud800] decodes),
    which has no UTF-8 encoding.  Such a string is not empty, [upper()]
    leaves it such a string, it equals no text read from the database, and
    SQLite cannot bind it. *)
Inductive pystr := Text (s : string) | Unencodable.

(** A Python [float]: [nan], or a number, of which the handlers can see
    whether it is zero (its truth value) and the text SQLite stores for it
    in a [TEXT] column ([1.5] as ['1.5'], [inf] as ['Inf']). *)
Inductive pyfloat := FNaN | FNum (nonzero : bool) (text : string).

(** A JSON value as [json.loads] returns it; the members of an object in
    the order of the document.  (A member whose name holds a lone surrogate
    is neither [license_key] nor [device_id] and is left out.) *)
#[warnings="-register-all"]
Inductive json :=
| JNull
| JBool (b : bool)
| JInt (n : Z)
| JFloat (x : pyfloat)
| JStr (s : pystr)
| JArray (items : list json)
| JObject (members : list (string * json)).

Module Py.

(** Truth value: [not v] is its negation. *)
Definition str_truthy (s : pystr) : bool :=
  match s with Text s => PyStr.truthy s | Unencodable => true end.

Definition truthy (v : json) : bool :=
  match v with
  | JNull => false
  | JBool b => b
  | JInt n => negb (n =? 0)
  | JFloat FNaN => true
  | JFloat (FNum nonzero _) => nonzero
  | JStr s => str_truthy s
  | JArray items => match items with [] => false | _ => true end
  | JObject members => match members with [] => false | _ => true end
  end.

(** The value of a member in the [dict] built from an object: of two
    members of one name, the later one stays. *)
Fixpoint member (members : list (string * json)) (name : string) : option json :=
  match members with
  | [] => None
  | (n, v) :: rest =>
      match member rest name with
      | Some v' => Some v'
      | None => if String.eqb n name then Some v else None
      end
  end.

(** [data.get(name, default)]: only a [dict] has the method. *)
Definition get (data : json) (name : string) (default : json) : outcome json :=
  match data with
  | JObject members =>
      Returned (match member members name with Some v => v | None => default end)
  | _ => Raised AttributeError
  end.

(** [v.upper()]: only a [str] has the method. *)
Definition upper (v : json) : outcome pystr :=
  match v with
  | JStr (Text s) => Returned (Text (PyStr.upper s))
  | JStr Unencodable => Returned Unencodable
  | _ => Raised AttributeError
  end.

(** [a != b] for a column read from the database ([None] or a text) and a
    value of the request: values of different types are not equal. *)
Definition ne (col : option string) (v : json) : bool :=
  match col, v with
  | None, JNull => false
  | Some a, JStr (Text b) => negb (String.eqb a b)
  | _, _ => true
  end.

End Py.

Module Sql.

(** [SELECT * FROM licenses WHERE license_key = ?] then [fetchone()] *)
Definition select_license (db : DB) (key : string) : option LicenseRow :=
  licenses db !! key.

(** A parameter of a statement, as SQLite takes it for a [TEXT] column:
    [None] and [nan] are [NULL]; a number is turned into its text, a
    [bool] being the integer 1 or 0; an integer outside 64 bits, a string
    with a lone surrogate, a list and a dict cannot be bound
    ([ProgrammingError] is [InterfaceError] before Python 3.11). *)
Definition bind_str (s : pystr) : outcome string :=
  match s with
  | Text s => Returned s
  | Unencodable => Raised UnicodeEncodeError
  end.

Definition bind (v : json) : outcome (option string) :=
  match v with
  | JNull => Returned None
  | JBool b => Returned (Some (if b then "1" else "0"))
  | JInt n =>
      if (- 2 ^ 63 <=? n) && (n <? 2 ^ 63)
      then Returned (Some (NilZero.string_of_int (Z.to_int n)))
      else Raised OverflowError
  | JFloat FNaN => Returned None
  | JFloat (FNum _ text) => Returned (Some text)
  | JStr (Text s) => Returned (Some s)
  | JStr Unencodable => Raised UnicodeEncodeError
  | JArray _ | JObject _ => Raised ProgrammingError
  end.

(** SQL equality of a column with a bound parameter: never true when
    either side is [NULL]. *)
Definition eq_text (col param : option string) : bool :=
  match col, param with
  | Some a, Some b => String.eqb a b
  | _, _ => false
  end.

Definition set_binding (dev : option string) (used : bool) (at_ : option Z)
  (r : LicenseRow) : LicenseRow :=
  {| device_id := dev; user_name := user_name r;
     telegram_user_id := telegram_user_id r; plan := plan r;
     activated_at := at_; expires_at := expires_at r;
     is_active := is_active r; is_used := used; notes := notes r |}.

Definition set_is_active (b : bool) (r : LicenseRow) : LicenseRow :=
  {| device_id := device_id r; user_name := user_name r;
     telegram_user_id := telegram_user_id r; plan := plan r;
     activated_at := activated_at r; expires_at := expires_at r;
     is_active := b; is_used := is_used r; notes := notes r |}.

Definition set_expires_at (t : Z) (r : LicenseRow) : LicenseRow :=
  {| device_id := device_id r; user_name := user_name r;
     telegram_user_id := telegram_user_id r; plan := plan r;
     activated_at := activated_at r; expires_at := t;
     is_active := is_active r; is_used := is_used r; notes := notes r |}.

Definition with_licenses (db : DB) (m : gmap string LicenseRow) : DB :=
  {| licenses := m; activation_logs := activation_logs db |}.

(** [UPDATE licenses SET device_id = ?, is_used = 1, activated_at = ?
     WHERE license_key = ?] *)
Definition update_activate (db : DB) (dev : option string) (now : Z)
  (key : string) : DB :=
  with_licenses db (alter (set_binding dev true (Some now)) key (licenses db)).

(** [UPDATE licenses SET device_id = NULL, is_used = 0
     WHERE license_key = ? AND device_id = ?] *)
Definition update_deactivate (db : DB) (key : string) (dev : option string) : DB :=
  with_licenses db
    (alter (fun r => if eq_text (device_id r) dev
                     then set_binding None false (activated_at r) r
                     else r) key (licenses db)).

(** [UPDATE licenses SET is_active = ? WHERE license_key = ?], with the
    cursor's [rowcount] *)
Definition update_is_active (db : DB) (b : bool) (key : string) : DB * nat :=
  (with_licenses db (alter (set_is_active b) key (licenses db)),
   match licenses db !! key with Some _ => 1%nat | None => 0%nat end).

(** [UPDATE licenses SET expires_at = ? WHERE license_key = ?] *)
Definition update_expires_at (db : DB) (t : Z) (key : string) : DB :=
  with_licenses db (alter (set_expires_at t) key (licenses db)).

(** [INSERT INTO licenses (license_key, plan, expires_at, user_name,
     telegram_user_id, notes) VALUES (...)]; the other columns take their
    defaults.  [None] is the [IntegrityError] of the [UNIQUE] constraint. *)
Definition insert_license (db : DB) (key plan_ : string) (expires : Z)
  (user : option string) (tg : option Z) (notes_ : option string) : option DB :=
  match licenses db !! key with
  | Some _ => None
  | None =>
      Some (with_licenses db
              (<[key := {| device_id := None; user_name := user;
                           telegram_user_id := tg; plan := plan_;
                           activated_at := None; expires_at := expires;
                           is_active := true; is_used := false;
                           notes := notes_ |}]> (licenses db)))
  end.

(** [INSERT INTO activation_logs (license_key, device_id, action,
     ip_address) VALUES (?, ?, action, ?)] *)
Definition insert_log (db : DB) (key : string) (dev : option string)
  (a : action) (ip : string) : DB :=
  {| licenses := licenses db;
     activation_logs := activation_logs db ++
       [{| log_license_key := key; log_device_id := dev;
           log_action := a; log_ip_address := ip |}] |}.

End Sql.

(** The dictionary [create_license] returns. *)
Record created := {
  c_license_key : string;
  c_plan : string;
  c_expires_at : Z;
  c_days : Z
}.

(** [create_license]; [now] is its one reading of the clock.  An exception
    leaves the transaction uncommitted, hence the store as it was. *)
Definition create_license (db : DB) (g : Rng) (plan_ : string) (days : Z)
  (user : option string) (tg : option Z) (notes_ : option string) (now : Z)
  : DB * Rng * outcome created :=
  let '(license_key, g') := generate_license_code g in
  match DateTime.add_days now days with
  | None => (db, g', Raised OverflowError)
  | Some expires =>
      match Sql.insert_license db license_key plan_ expires user tg notes_ with
      | None => (db, g', Raised IntegrityError)
      | Some db' =>
          (db', g', Returned {| c_license_key := license_key; c_plan := plan_;
                                c_expires_at := expires; c_days := days |})
      end
  end.

(** ** The client API (Flask handlers) *)

(** The first lines of each handler:
    [data = request.json],
    [license_key = data.get('license_key', '').upper()],
    [device_id = data.get('device_id')]. *)
Definition read_request (data : json) : outcome (pystr * json) :=
  match Py.get data "license_key" (JStr (Text "")) with
  | Raised e => Raised e
  | Returned v =>
      match Py.upper v with
      | Raised e => Raised e
      | Returned license_key =>
          match Py.get data "device_id" JNull with
          | Raised e => Raised e
          | Returned device => Returned (license_key, device)
          end
      end
  end.

(** The literal messages of the handlers (Arabic text in the source). *)
Inductive message :=
| msg_missing_data        (* activate: fields missing *)
| msg_invalid_code        (* activate: no such key *)
| msg_suspended           (* activate: stopped by the administration *)
| msg_expired             (* activate: validity ended *)
| msg_other_device        (* activate: used on another device *)
| msg_activated           (* activate: done *)
| msg_not_found           (* verify: no such key *)
| msg_device_not_allowed  (* verify: device not authorised *)
| msg_stopped             (* verify: key stopped *)
| msg_validity_ended.     (* verify: validity ended *)

Inductive json_body :=
| activate_failure (m : message)
    (* {'success': False, 'message': m} *)
| activate_success (m : message) (expires : Z) (plan_ : string) (user : option string)
    (* {'success': True, 'message': m, 'expires_at', 'plan', 'user_name'} *)
| verify_inactive (m : message)
    (* {'is_active': False, 'message': m} *)
| verify_active (expires : Z) (plan_ : string)
    (* {'is_active': True, 'expires_at', 'plan'} *)
| deactivate_success.
    (* {'success': True} *)

Record response := { status : Z; body : json_body }.

(** [jsonify(b)] answers with status 200, [jsonify(b), code] with [code]. *)
Definition jsonify (b : json_body) : outcome response :=
  Returned {| status := 200; body := b |}.
Definition jsonify_status (b : json_body) (code : Z) : outcome response :=
  Returned {| status := code; body := b |}.

(** The status the client sees: an uncaught exception is a 500. *)
Definition http_status (o : outcome response) : Z :=
  match o with Returned r => status r | Raised _ => 500 end.

(** [activate_license], lines 147-179: the request is read and checked
    against the row returned by the [SELECT]; nothing is written.  [now] is
    the clock reading compared with [expires_at]. *)
Inductive checked :=
| Reject (o : outcome response)
| Accept (license_key : string) (device : json) (license_row : LicenseRow).

Definition activate_check (db : DB) (data : json) (now : Z) : checked :=
  match read_request data with
  | Raised e => Reject (Raised e)
  | Returned (license_key, device) =>
      if negb (Py.str_truthy license_key) || negb (Py.truthy device) then
        Reject (jsonify_status (activate_failure msg_missing_data) 400)
      else
        match Sql.bind_str license_key with
        | Raised e => Reject (Raised e)
        | Returned license_key =>
            match Sql.select_license db license_key with
            | None => Reject (jsonify_status (activate_failure msg_invalid_code) 400)
            | Some license_row =>
                if negb (is_active license_row) then
                  Reject (jsonify_status (activate_failure msg_suspended) 423)
                else if now >? expires_at license_row then
                  Reject (jsonify_status (activate_failure msg_expired) 410)
                else if is_used license_row
                        && Py.ne (device_id license_row) device then
                  Reject (jsonify_status (activate_failure msg_other_device) 403)
                else Accept license_key device license_row
            end
        end
  end.

(** [activate_license], lines 181-203: the [UPDATE], the log row and the
    commit, one transaction; the answer is built from the row read
    before.  [now] is the clock reading stored in [activated_at].  A
    device that cannot be bound stops the [UPDATE] before anything is
    written. *)
Definition activate_commit (db : DB) (license_key : string)
  (device : json) (license_row : LicenseRow)
  (remote_addr : string) (now : Z) : DB * outcome response :=
  match Sql.bind device with
  | Raised e => (db, Raised e)
  | Returned dev =>
      let db1 := Sql.update_activate db dev now license_key in
      let db2 := Sql.insert_log db1 license_key dev act_activate remote_addr in
      (db2, jsonify (activate_success msg_activated (expires_at license_row)
                       (plan license_row) (user_name license_row)))
  end.

(** [activate_license] run without interruption. *)
Definition activate_license (db : DB) (data : json)
  (remote_addr : string) (now_check now_write : Z) : DB * outcome response :=
  match activate_check db data now_check with
  | Reject o => (db, o)
  | Accept license_key device license_row =>
      activate_commit db license_key device license_row remote_addr now_write
  end.

(** [verify_license] *)
Definition verify_license (db : DB) (data : json)
  (remote_addr : string) (now : Z) : DB * outcome response :=
  match read_request data with
  | Raised e => (db, Raised e)
  | Returned (license_key, device) =>
      match Sql.bind_str license_key with
      | Raised e => (db, Raised e)
      | Returned license_key =>
          match Sql.select_license db license_key with
          | None => (db, jsonify (verify_inactive msg_not_found))
          | Some license_row =>
              if Py.ne (device_id license_row) device then
                (db, jsonify (verify_inactive msg_device_not_allowed))
              else if negb (is_active license_row) then
                (db, jsonify (verify_inactive msg_stopped))
              else if now >? expires_at license_row then
                (db, jsonify (verify_inactive msg_validity_ended))
              else
                match Sql.bind device with
                | Raised e => (db, Raised e)
                | Returned dev =>
                    (Sql.insert_log db license_key dev act_verify remote_addr,
                     jsonify (verify_active (expires_at license_row)
                                (plan license_row)))
                end
          end
      end
  end.

(** [deactivate_license]; the parameters of the [UPDATE] are bound in
    their order, the key before the device, and an exception leaves the
    transaction uncommitted. *)
Definition deactivate_license (db : DB) (data : json)
  (remote_addr : string) : DB * outcome response :=
  match read_request data with
  | Raised e => (db, Raised e)
  | Returned (license_key, device) =>
      match Sql.bind_str license_key with
      | Raised e => (db, Raised e)
      | Returned license_key =>
          match Sql.bind device with
          | Raised e => (db, Raised e)
          | Returned dev =>
              let db1 := Sql.update_deactivate db license_key dev in
              let db2 := Sql.insert_log db1 license_key dev act_deactivate
                           remote_addr in
              (db2, jsonify deactivate_success)
          end
      end
  end.

(** ** The administrator's bot (Telegram handlers) *)

Definition ADMIN_IDS : list Z := [590918137].

(** What a handler sends back: [reply_*] for [reply_text], [edit_*] for
    [edit_message_text]. *)
Inductive reply :=
| reply_unauthorized
| reply_created (key : string) (days : Z) (plan_ : string) (expires : Z)
    (user : option string)
| reply_usage
| reply_not_found
| reply_stopped (key : string)
| reply_resumed (key : string)
| reply_extended (key : string) (new_expiry : Z)
| edit_unauthorized
| edit_created (key : string)
| edit_use_list
| edit_use_stats
| edit_toggled (new_status : bool)
| edit_choose_extension (key : string)
| edit_extended (days : Z) (new_expiry : Z).

(** A handler's effect: the store (and the random source) after it, and
    the message it sent, if any, or the exception it raised. *)
Definition handled (S : Type) : Type := S * outcome (option reply).

(** The decorator [admin_only] *)
Definition admin_only {S : Type} (func : S -> handled S) (user_id : Z) (s : S)
  : handled S :=
  if bool_decide (user_id ∉ ADMIN_IDS)
  then (s, Returned (Some reply_unauthorized))
  else func s.

Definition plan_of_days (days : Z) : string :=
  if days <=? 7 then "trial"
  else if days <=? 30 then "monthly"
  else if days <=? 90 then "quarterly"
  else if days <=? 365 then "yearly"
  else "lifetime".

(** [generate_command] *)
Definition generate_command (user_id : Z) (args : list string) (now : Z)
  : DB * Rng -> handled (DB * Rng) :=
  admin_only (fun '(db, g) =>
    let days :=
      match args with
      | a0 :: _ => if PyStr.isdigit a0 then PyStr.digits_value 0 a0 else 30
      | [] => 30
      end in
    let user :=
      match args with
      | _ :: ((_ :: _) as rest) => Some (PyStr.join " " rest)
      | _ => None
      end in
    let plan_ := plan_of_days days in
    match create_license db g plan_ days user (Some user_id) None now with
    | (db', g', Returned result) =>
        ((db', g'),
         Returned (Some (reply_created (c_license_key result) days plan_
                           (c_expires_at result) user)))
    | (db', g', Raised e) => ((db', g'), Raised e)
    end) user_id.

(** [stop_command] *)
Definition stop_command (user_id : Z) (args : list string) : DB -> handled DB :=
  admin_only (fun db =>
    match args with
    | [] => (db, Returned (Some reply_usage))
    | a0 :: _ =>
        let license_key := PyStr.upper a0 in
        let '(db', rowcount) := Sql.update_is_active db false license_key in
        if (0 <? rowcount)%nat
        then (db', Returned (Some (reply_stopped license_key)))
        else (db, Returned (Some reply_not_found))
    end) user_id.

(** [activate_command]: resumes a stopped key *)
Definition activate_command (user_id : Z) (args : list string) : DB -> handled DB :=
  admin_only (fun db =>
    match args with
    | [] => (db, Returned (Some reply_usage))
    | a0 :: _ =>
        let license_key := PyStr.upper a0 in
        let '(db', rowcount) := Sql.update_is_active db true license_key in
        if (0 <? rowcount)%nat
        then (db', Returned (Some (reply_resumed license_key)))
        else (db, Returned (Some reply_not_found))
    end) user_id.

(** [extend_command]; [now_test] is the clock reading compared with the
    stored expiry, [now_base] the one taken when that test succeeds. *)
Definition extend_command (user_id : Z) (args : list string)
  (now_test now_base : Z) : DB -> handled DB :=
  admin_only (fun db =>
    match args with
    | a0 :: a1 :: _ =>
        let license_key := PyStr.upper a0 in
        match PyStr.int a1 with
        | None => (db, Raised ValueError)
        | Some days =>
            match Sql.select_license db license_key with
            | None => (db, Returned (Some reply_not_found))
            | Some row =>
                let current_expiry := expires_at row in
                let current_expiry :=
                  if current_expiry <? now_test then now_base else current_expiry in
                match DateTime.add_days current_expiry days with
                | None => (db, Raised OverflowError)
                | Some new_expiry =>
                    (Sql.update_expires_at db new_expiry license_key,
                     Returned (Some (reply_extended license_key new_expiry)))
                end
            end
        end
    | _ => (db, Returned (Some reply_usage))
    end) user_id.

(** [button_callback]; the clock readings are those of the branch taken:
    [now_test] also serves [create_license] in the branch [gen_monthly]. *)
Definition button_callback (user_id : Z) (data : string) (now_test now_base : Z)
  (s : DB * Rng) : handled (DB * Rng) :=
  let '(db, g) := s in
  if bool_decide (user_id ∉ ADMIN_IDS) then (s, Returned (Some edit_unauthorized))
  else if String.eqb data "gen_monthly" then
    match create_license db g "monthly" 30 None None None now_test with
    | (db', g', Returned result) =>
        ((db', g'), Returned (Some (edit_created (c_license_key result))))
    | (db', g', Raised e) => ((db', g'), Raised e)
    end
  else if String.eqb data "list_codes" then (s, Returned (Some edit_use_list))
  else if String.eqb data "stats" then (s, Returned (Some edit_use_stats))
  else if PyStr.startswith "toggle_" data then
    let license_key := PyStr.remove_all "toggle_" data in
    match Sql.select_license db license_key with
    | Some row =>
        let new_status := if is_active row then false else true in
        ((fst (Sql.update_is_active db new_status license_key), g),
         Returned (Some (edit_toggled new_status)))
    | None => (s, Returned None)
    end
  else if PyStr.startswith "extend_" data then
    (s, Returned (Some (edit_choose_extension (PyStr.remove_all "extend_" data))))
  else if PyStr.startswith "ext" data then
    let parts := PyStr.split "_" data in
    match PyStr.int (PyStr.remove_all "ext" (nth 0 parts "")) with
    | None => (s, Raised ValueError)
    | Some days =>
        match parts !! 1%nat with
        | None => (s, Raised IndexError)
        | Some license_key =>
            match Sql.select_license db license_key with
            | Some row =>
                let current := expires_at row in
                let current := if current <? now_test then now_base else current in
                match DateTime.add_days current days with
                | None => (s, Raised OverflowError)
                | Some new_expiry =>
                    ((Sql.update_expires_at db new_expiry license_key, g),
                     Returned (Some (edit_extended days new_expiry)))
                end
            | None => (s, Returned None)
            end
        end
    end
  else (s, Returned None).

(** ** Requests served side by side

    Flask runs with [threaded=True]: each request has its own thread and
    its own connection.  [activate_license] touches the database twice:
    once to read the row ([SELECT], outside any transaction) and once to
    write ([UPDATE] and [INSERT], committed together).  Between the two,
    other requests may run.  A thread of the pool is a request at one of
    these points.  A writer that finds the database locked waits for the
    other's commit; the run in which that wait times out is not modelled. *)
Module Threads.

Inductive thread :=
| Waiting (data : json) (remote_addr : string)
| Checked (license_key : string) (device : json)
    (license_row : LicenseRow) (remote_addr : string)
| Finished (o : outcome response).

(** One database access of a thread; [now] is the clock reading it takes. *)
Definition step (db : DB) (th : thread) (now : Z) : DB * thread :=
  match th with
  | Waiting data remote_addr =>
      match activate_check db data now with
      | Reject o => (db, Finished o)
      | Accept k d r => (db, Checked k d r remote_addr)
      end
  | Checked k d r remote_addr =>
      let '(db', o) := activate_commit db k d r remote_addr now in
      (db', Finished o)
  | Finished o => (db, th)
  end.

Record system := { store : DB; pool : list thread }.

(** A schedule names, step by step, the thread that runs and the time. *)
Definition sched_step (s : system) (ev : nat * Z) : system :=
  match pool s !! fst ev with
  | None => s
  | Some th =>
      let '(db', th') := step (store s) th (snd ev) in
      {| store := db'; pool := <[fst ev := th']> (pool s) |}
  end.

Definition run (s : system) (sched : list (nat * Z)) : system :=
  foldl sched_step s sched.

Definition result_of (s : system) (i : nat) : option (outcome response) :=
  match pool s !! i with
  | Some (Finished o) => Some o
  | _ => None
  end.

(** Two requests that have arrived and not yet touched the database. *)
Definition two_requests (db : DB) (a : json) (addr_a : string)
  (b : json) (addr_b : string) : system :=
  {| store := db; pool := [Waiting a addr_a; Waiting b addr_b] |}.

(** The schedules of two requests of two accesses each: every thread is
    named exactly twice.  (A request refused at its first access has
    nothing left to do at its second.) *)
Definition complete (sched : list (nat * Z)) : Prop :=
  map fst sched ≡ₚ [0; 0; 1; 1]%nat.

(** A thread whose device is not [nan]: its write, if it comes to it,
    stores a device. *)
Definition carries_device (th : thread) : Prop :=
  match th with
  | Waiting data _ => Py.get data "device_id" JNull <> Returned (JFloat FNaN)
  | Checked _ dev _ _ => Py.truthy dev = true /\ dev <> JFloat FNaN
  | Finished _ => True
  end.

(** The requests do not overlap: one has finished before the other starts. *)
Definition serial (sched : list (nat * Z)) : Prop :=
  map fst sched = [0; 0; 1; 1]%nat \/ map fst sched = [1; 1; 0; 0]%nat.

End Threads.

(** ** Sequences of operations *)

Inductive op :=
| op_create (g : Rng) (plan_ : string) (days : Z) (user : option string)
    (tg : option Z) (notes_ : option string) (now : Z)
| op_activate (data : json) (remote_addr : string) (now_check now_write : Z)
| op_verify (data : json) (remote_addr : string) (now : Z)
| op_deactivate (data : json) (remote_addr : string)
| op_generate_command (g : Rng) (user_id : Z) (args : list string) (now : Z)
| op_stop_command (user_id : Z) (args : list string)
| op_activate_command (user_id : Z) (args : list string)
| op_extend_command (user_id : Z) (args : list string) (now_test now_base : Z)
| op_button_callback (g : Rng) (user_id : Z) (data : string) (now_test now_base : Z).

Definition apply_op (db : DB) (o : op) : DB :=
  match o with
  | op_create g p d u tg n now => fst (fst (create_license db g p d u tg n now))
  | op_activate data addr t1 t2 => fst (activate_license db data addr t1 t2)
  | op_verify data addr t => fst (verify_license db data addr t)
  | op_deactivate data addr => fst (deactivate_license db data addr)
  | op_generate_command g u args now => fst (fst (generate_command u args now (db, g)))
  | op_stop_command u args => fst (stop_command u args db)
  | op_activate_command u args => fst (activate_command u args db)
  | op_extend_command u args t1 t2 => fst (extend_command u args t1 t2 db)
  | op_button_callback g u data t1 t2 => fst (fst (button_callback u data t1 t2 (db, g)))
  end.

Definition run_ops (db : DB) (ops : list op) : DB := foldl apply_op db ops.

(** The stores the service can be in: those reached from the empty
    database by some sequence of operations. *)
Definition reachable (db : DB) : Prop :=
  exists ops : list op, db = run_ops init_database ops.

(** The record invariant: [is_used] holds exactly when a device is bound. *)
Definition binding_consistent (r : LicenseRow) : Prop :=
  is_used r = true <-> device_id r <> None.

(** The validity predicate of the specification (section 3): active, not
    yet at [expires_at], and unused or bound to the requesting device. *)
Definition valid_for_use (r : LicenseRow) (device : option string) (now : Z) : bool :=
  is_active r && (now <? expires_at r) &&
  (negb (is_used r) || bool_decide (device_id r = device)).

(** A sequence of [verify] calls, each with its address and clock reading. *)
Definition run_verifies (db : DB) (calls : list (json * string * Z)) : DB :=
  foldl (fun d '(data, addr, now) => fst (verify_license d data addr now)) db calls.

(** The request of the client API carrying a key and a device. *)
Definition request (key device : string) : json :=
  JObject [("license_key", JStr (Text key)); ("device_id", JStr (Text device))].

(** An operation whose activation, if it is one, comes with a device
    that [okv] admits; in particular, with one that is not [nan]. *)
Definition devices_admitted (okv : json -> Prop) (o : op) : Prop :=
  match o with
  | op_activate data _ _ _ =>
      forall v, Py.get data "device_id" JNull = Returned v -> okv v
  | _ => True
  end.

Definition device_not_nan (o : op) : Prop :=
  devices_admitted (fun v => v <> JFloat FNaN) o.

(** A property of the columns [device_id] and [is_used] that every record
    of the store has. *)
Definition columns_hold (Q : option string -> bool -> Prop) (db : DB) : Prop :=
  map_Forall (fun _ r => Q (device_id r) (is_used r)) (licenses db).

(** The row after a successful activation by [device] at time [now]. *)
Definition bound_to (device : string) (now : Z) (r : LicenseRow) : LicenseRow :=
  Sql.set_binding (Some device) true (Some now) r.

(** The row after its device has been released. *)
Definition released (r : LicenseRow) : LicenseRow :=
  Sql.set_binding None false (activated_at r) r.

Definition log_entry (key : string) (device : option string) (a : action)
  (ip : string) : LogRow :=
  {| log_license_key := key; log_device_id := device;
     log_action := a; log_ip_address := ip |}.

(** The administrator of [ADMIN_IDS]. *)
Definition admin : Z := 590918137.

(** A random source whose [n]-th draw is [n + k]. *)
Definition rng_from (k : nat) : Rng := {| draw := fun n => (n + k)%nat; pos := 0 |}.

(** ** Concrete stores, used to run the handlers *)

(** 2025-01-01T00:00:00, and durations in microseconds. *)
Definition t0 : Z := 739251 * DateTime.usec_per_day.
Definition second : Z := 1000000.
Definition day : Z := DateTime.usec_per_day.

Definition key0 : string := "GNP-ABCD-EFGH-JKLM".

(** One key, created at [t0] for 30 days and never activated. *)
Definition db_fresh : DB :=
  fst (fst (create_license init_database (rng_from 0) "monthly" 30 None None None t0)).

(** The same key after its activation by [device-A], one second later. *)
Definition db_bound : DB :=
  fst (activate_license db_fresh (request key0 "device-A") "10.0.0.1"
         (t0 + second) (t0 + second)).

(** Every record of the store satisfies the record invariant. *)
Definition store_consistent (db : DB) : Prop :=
  map_Forall (fun _ r => binding_consistent r) (licenses db).

(** The expiry the specification asks of [extend]:
    [max(now, currentExpiresAt) + additionalDays]. *)
Definition spec_extended_expiry (now current days : Z) : Z :=
  Z.max now current + days * DateTime.usec_per_day.

(** The clock reading an extension goes by: the handlers read the clock
    once to test the stored expiry and, when it lies in the past, once more
    to restart from; the last reading taken is the [now] of the call. *)
Definition extension_clock (current now_test now_base : Z) : Z :=
  if current <? now_test then now_base else now_test.

(** ** The buttons the bot offers

    The callback data of the inline keyboards, as the handlers build them:
    [info_command] (lines 456-465) under the card of a key, with the key in
    upper case, and the branch [extend_] of [button_callback] (lines
    657-666), each button with the number of days its label names. *)
Definition info_keyboard (license_key : string) : list (list string) :=
  [["toggle_" ++ license_key; "extend_" ++ license_key];
   ["delete_" ++ license_key]].

Definition extend_keyboard (license_key : string) : list (list (Z * string)) :=
  [[(7, "ext7_" ++ license_key); (30, "ext30_" ++ license_key)];
   [(90, "ext90_" ++ license_key); (365, "ext365_" ++ license_key)]].

(** ** Columns of a record, compared between two states of it *)

(** The columns written at creation only. *)
Definition same_label (r r' : LicenseRow) : Prop :=
  plan r' = plan r /\ user_name r' = user_name r /\
  telegram_user_id r' = telegram_user_id r /\ notes r' = notes r.

(** The columns the administrator controls. *)
Definition same_terms (r r' : LicenseRow) : Prop :=
  is_active r' = is_active r /\ expires_at r' = expires_at r.

(** The columns of the device binding. *)
Definition same_binding (r r' : LicenseRow) : Prop :=
  device_id r' = device_id r /\ is_used r' = is_used r /\
  activated_at r' = activated_at r.

(** ** How a handler may change the table [licenses]

    The client API rewrites the binding of one record at most; the bot
    rewrites [is_active] or [expires_at] of one record, or inserts a record
    under a freshly generated key. *)
Definition client_change (m m' : gmap string LicenseRow) : Prop :=
  m' = m \/
  exists (f : LicenseRow -> LicenseRow) (k : string),
    m' = alter f k m /\
    forall r, f r = r \/ exists d u a, f r = Sql.set_binding d u a r.

Definition admin_change (m m' : gmap string LicenseRow) : Prop :=
  m' = m \/
  (exists (f : LicenseRow -> LicenseRow) (k : string),
     m' = alter f k m /\
     forall r, (exists b, f r = Sql.set_is_active b r) \/
               (exists t, f r = Sql.set_expires_at t r)) \/
  (exists (g : Rng) (row : LicenseRow),
     m !! fst (generate_license_code g) = None /\
     m' = <[fst (generate_license_code g) := row]> m).

(** ** The offline utilities: batches of codes *)

(** An entry of the JSON file a utility writes; [ce_type] is the optional
    field [type]. *)
Record code_entry := {
  ce_code : string;
  ce_days : Z;
  ce_expiry_date : Z;
  ce_status : string;
  ce_created_at : Z;
  ce_type : option string
}.

(** [for _ in range(n): codes.append(body())] *)
Fixpoint for_range {A : Type} (n : nat) (body : Rng -> A * Rng) (g : Rng)
  : list A * Rng :=
  match n with
  | O => ([], g)
  | S n' =>
      let '(x, g1) := body g in
      let '(rest, g2) := for_range n' body g1 in
      (x :: rest, g2)
  end.

(** [generate_lifetime_codes.py]: [generate_lifetime_codes]; [now] is its
    one reading of the clock. *)
Module generate_lifetime_codes_main.
Definition generate_lifetime_codes (count : Z) (now : Z) (g : Rng)
  : outcome (list code_entry) * Rng :=
  match DateTime.add_days now 36500 with
  | None => (Raised OverflowError, g)
  | Some expiry =>
      let '(codes, g') :=
        for_range (Z.to_nat count)
          (fun g0 =>
             let '(c, g1) := generate_lifetime_codes.generate_code g0 in
             ({| ce_code := c; ce_days := 36500; ce_expiry_date := expiry;
                 ce_status := "active"; ce_created_at := now;
                 ce_type := Some "lifetime" |}, g1)) g in
      (Returned codes, g')
  end.
End generate_lifetime_codes_main.

(** [generate_5days_codes.py]: [generate_codes] *)
Module generate_5days_codes_main.
Definition generate_codes (count days : Z) (now : Z) (g : Rng)
  : outcome (list code_entry) * Rng :=
  match DateTime.add_days now days with
  | None => (Raised OverflowError, g)
  | Some expiry =>
      let '(codes, g') :=
        for_range (Z.to_nat count)
          (fun g0 =>
             let '(c, g1) := generate_5days_codes.generate_code g0 in
             ({| ce_code := c; ce_days := days; ce_expiry_date := expiry;
                 ce_status := "active"; ce_created_at := now;
                 ce_type := None |}, g1)) g in
      (Returned codes, g')
  end.
End generate_5days_codes_main.

(** [generate_all_codes_4parts.py]: [generate_codes] *)
Module generate_all_codes_4parts_main.
Definition generate_codes (count days : Z) (code_type : string) (now : Z) (g : Rng)
  : outcome (list code_entry) * Rng :=
  match DateTime.add_days now days with
  | None => (Raised OverflowError, g)
  | Some expiry =>
      let '(codes, g') :=
        for_range (Z.to_nat count)
          (fun g0 =>
             let '(c, g1) := generate_all_codes_4parts.generate_code_4parts g0 in
             ({| ce_code := c; ce_days := days; ce_expiry_date := expiry;
                 ce_status := "active"; ce_created_at := now;
                 ce_type := if String.eqb code_type "lifetime"
                            then Some "lifetime" else None |}, g1)) g in
      (Returned codes, g')
  end.
End generate_all_codes_4parts_main.

(** The loop of [generate_codes.py] and of [generate_3days_codes.py], which
    differ in the number of days only:
    [while len(codes) < count: code = generate_code(); if code not in
    used_codes: used_codes.add(code); codes.append(...)].
    The loop has no bound of its own; [fuel] bounds the number of
    iterations run, and [None] says they did not suffice.  [clock k] is the
    [k]-th reading of the clock of the run: reading 0 gives the expiry,
    and each appended entry takes the next one. *)
Fixpoint unique_codes_loop (generate_code : Rng -> string * Rng) (days expiry : Z)
  (clock : nat -> Z) (count : Z) (fuel : nat)
  (codes : list code_entry) (used_codes : gset string) (g : Rng)
  : option (list code_entry * Rng) :=
  if Z.of_nat (length codes) <? count then
    match fuel with
    | O => None
    | S fuel' =>
        let '(code, g') := generate_code g in
        if bool_decide (code ∈ used_codes) then
          unique_codes_loop generate_code days expiry clock count fuel'
            codes used_codes g'
        else
          unique_codes_loop generate_code days expiry clock count fuel'
            (codes ++ [{| ce_code := code; ce_days := days;
                          ce_expiry_date := expiry; ce_status := "active";
                          ce_created_at := clock (S (length codes));
                          ce_type := None |}])
            ({[code]} ∪ used_codes) g'
    end
  else Some (codes, g).

(** [generate_codes.py]: [generate_codes] *)
Module generate_codes_main.
Definition generate_codes (count : Z) (clock : nat -> Z) (fuel : nat) (g : Rng)
  : outcome (option (list code_entry * Rng)) :=
  match DateTime.add_days (clock 0%nat) 30 with
  | None => Raised OverflowError
  | Some expiry =>
      Returned (unique_codes_loop generate_codes.generate_code 30 expiry clock
                  count fuel [] ∅ g)
  end.
End generate_codes_main.

(** [generate_3days_codes.py]: [generate_3days_codes] *)
Module generate_3days_codes_main.
Definition generate_3days_codes (count : Z) (clock : nat -> Z) (fuel : nat) (g : Rng)
  : outcome (option (list code_entry * Rng)) :=
  match DateTime.add_days (clock 0%nat) 3 with
  | None => Raised OverflowError
  | Some expiry =>
      Returned (unique_codes_loop generate_3days_codes.generate_code 3 expiry clock
                  count fuel [] ∅ g)
  end.
End generate_3days_codes_main.

(** The first [n] codes a generator yields from [g]. *)
Fixpoint first_codes (generate_code : Rng -> string * Rng) (n : nat) (g : Rng)
  : list string :=
  match n with
  | O => []
  | S n' =>
      let '(c, g') := generate_code g in
      c :: first_codes generate_code n' g'
  end.

(** A random source stuck on one value. *)
Definition rng_stuck (v : nat) : Rng := {| draw := fun _ => v; pos := 0 |}.

(** What an entry appended by the [while] loop of the batch scripts looks
    like: the batch's days and expiry, status active, and a code the
    generator returned. *)
Definition loop_entry (generate_code : Rng -> string * Rng) (days expiry : Z)
    (x : code_entry) : Prop :=
  ce_days x = days /\ ce_expiry_date x = expiry /\ ce_status x = "active" /\
  ce_type x = None /\ exists g0, ce_code x = fst (generate_code g0).

(** * Properties *)

(** ** The key generators *)

Section Generators.

Lemma random_choices_length pop k g :
  length (fst (random_choices pop k g)) = k.
Proof.
  revert g; induction k as [|k IH]; intros g; simpl; [reflexivity|].
  unfold random_index.
  set (g1 := {| draw := draw g; pos := S (pos g) |}).
  specialize (IH g1). destruct (random_choices pop k g1) as [rest g2].
  simpl in *. now rewrite IH.
Qed.

Lemma random_choices_from pop k g :
  pop <> [] -> Forall (fun c => In c pop) (fst (random_choices pop k g)).
Proof.
  intros Hne. revert g; induction k as [|k IH]; intros g; simpl; [constructor|].
  unfold random_index.
  set (g1 := {| draw := draw g; pos := S (pos g) |}).
  specialize (IH g1). destruct (random_choices pop k g1) as [rest g2].
  simpl in *. constructor; [|exact IH].
  apply nth_In. apply Nat.mod_upper_bound.
  destruct pop; [congruence | simpl; lia].
Qed.

(** Drawing [k] characters consumes exactly [k] draws. *)
Lemma random_choices_rng pop k g :
  draw (snd (random_choices pop k g)) = draw g /\
  pos (snd (random_choices pop k g)) = (pos g + k)%nat.
Proof.
  revert g; induction k as [|k IH]; intros g; simpl.
  - split; [reflexivity | lia].
  - unfold random_index.
    set (g1 := {| draw := draw g; pos := S (pos g) |}).
    specialize (IH g1). destruct (random_choices pop k g1) as [rest g2].
    simpl in *. destruct IH as [-> ->]. split; [reflexivity | lia].
Qed.

Lemma random_segments_rng pop n g :
  draw (snd (random_segments pop n g)) = draw g /\
  pos (snd (random_segments pop n g)) = (pos g + 4 * n)%nat.
Proof.
  revert g; induction n as [|n IH]; intros g.
  - simpl. split; [reflexivity | lia].
  - cbn [random_segments].
    pose proof (random_choices_rng pop 4 g) as [Hd Hp].
    destruct (random_choices pop 4 g) as [seg g1].
    specialize (IH g1). destruct (random_segments pop n g1) as [rest g2].
    simpl in *. destruct IH as [-> ->]. rewrite Hd, Hp. split; [reflexivity | lia].
Qed.

Lemma length_of_chars cs : String.length (PyStr.of_chars cs) = length cs.
Proof. induction cs; simpl; congruence. Qed.

Lemma random_segments_shape (ok : ascii -> bool) pop n g :
  pop <> [] -> forallb ok pop = true ->
  length (fst (random_segments pop n g)) = n /\
  Forall (is_segment ok) (fst (random_segments pop n g)).
Proof.
  intros Hne Hok. rewrite forallb_forall in Hok.
  revert g; induction n as [|n IH]; intros g.
  - simpl. split; [reflexivity | constructor].
  - cbn [random_segments].
    pose proof (random_choices_length pop 4 g) as Hlen.
    pose proof (random_choices_from pop 4 g Hne) as Hfrom.
    destruct (random_choices pop 4 g) as [seg g1].
    specialize (IH g1). destruct (random_segments pop n g1) as [rest g2].
    simpl in *. destruct IH as [IHl IHf]. split; [now rewrite IHl|].
    constructor; [|exact IHf]. split.
    + now rewrite length_of_chars.
    + unfold PyStr.of_chars. rewrite list_ascii_of_string_of_list_ascii.
      eapply Forall_impl; [exact Hfrom|]. intros c Hc. now apply Hok.
Qed.

Lemma prefixed_key_format (ok : ascii -> bool) pop n g :
  pop <> [] -> forallb ok pop = true ->
  key_format ok n ("GNP-" ++ PyStr.join "-" (fst (random_segments pop n g))).
Proof.
  intros Hne Hok. destruct (random_segments_shape ok pop n g Hne Hok) as [Hl Hf].
  exists (fst (random_segments pop n g)). auto.
Qed.

(** A key in the three-segment format, spelled out. *)
Lemma key_format_3 ok key :
  key_format ok 3 key <->
  exists a b c, key = "GNP-" ++ a ++ "-" ++ b ++ "-" ++ c /\
                is_segment ok a /\ is_segment ok b /\ is_segment ok c.
Proof.
  split.
  - intros (segs & -> & Hl & Hf).
    destruct segs as [|a [|b [|c [|? ?]]]]; try discriminate.
    exists a, b, c. inversion Hf as [|? ? Ha Hf1]; subst.
    inversion Hf1 as [|? ? Hb Hf2]; subst. inversion Hf2; subst. auto.
  - intros (a & b & c & -> & Ha & Hb & Hc).
    exists [a; b; c]. repeat split; auto.
Qed.

(** A formatted key begins with a segment character accepted by [ok]. *)
Lemma key_format_first_char ok n key :
  key_format ok (S n) key ->
  exists c rest, key = "GNP-" ++ String c rest /\ ok c = true.
Proof.
  intros (segs & -> & Hl & Hf).
  destruct segs as [|a segs]; [discriminate|].
  inversion Hf as [|? ? [Ha1 Ha2] _]; subst.
  destruct a as [|c a]; [discriminate|].
  inversion Ha2; subst.
  exists c. destruct segs; simpl; eauto.
Qed.

End Generators.

(** C8 (as amended).  The server's generator yields keys of the format
    GNP-XXXX-XXXX-XXXX whose segments avoid the characters 0, O, 1 and I.
    The offline utilities yield the prefix GNP- followed by four-character
    segments over all uppercase letters and all digits: three segments for
    [generate_codes], [generate_3days_codes] and
    [generate_all_codes_4parts]; for [generate_lifetime_codes] and
    [generate_5days_codes] only the shape of the segments is stated. *)
Theorem generated_keys_format :
  (forall g, key_format unambiguous 3 (fst (generate_license_code g))) /\
  (forall g, key_format is_upper_alnum 3 (fst (generate_codes.generate_code g))) /\
  (forall g, key_format is_upper_alnum 3 (fst (generate_3days_codes.generate_code g))) /\
  (forall g, key_format is_upper_alnum 3
               (fst (generate_all_codes_4parts.generate_code_4parts g))) /\
  (forall g, exists n, key_format is_upper_alnum n
               (fst (generate_lifetime_codes.generate_code g))) /\
  (forall g, exists n, key_format is_upper_alnum n
               (fst (generate_5days_codes.generate_code g))).
Proof.
  repeat split; intros g; try (exists 4%nat);
    unfold generate_license_code, generate_codes.generate_code,
      generate_3days_codes.generate_code,
      generate_all_codes_4parts.generate_code_4parts,
      generate_lifetime_codes.generate_code, generate_5days_codes.generate_code;
    match goal with
    | |- key_format ?ok _ (fst (let '(_, _) := random_segments ?pop ?n g in _)) =>
        pose proof (prefixed_key_format ok pop n g) as H;
        destruct (random_segments pop n g) as [segs g']
    end; apply H; solve [discriminate | vm_compute; reflexivity].
Qed.

(** C8 (as stated) fails for the offline utilities: with the draws 26, 27,
    ... [generate_codes] yields GNP-0123-4567-89AB, and
    [generate_lifetime_codes] yields GNP-0123-4567-89AB-CDEF; both begin
    their first segment with the confusable character 0. *)
Lemma bulk_keys_use_confusable_characters :
  fst (generate_codes.generate_code (rng_from 26)) = "GNP-0123-4567-89AB" /\
  ~ key_format unambiguous 3 (fst (generate_codes.generate_code (rng_from 26))) /\
  fst (generate_lifetime_codes.generate_code (rng_from 26)) = "GNP-0123-4567-89AB-CDEF" /\
  ~ key_format unambiguous 3 (fst (generate_lifetime_codes.generate_code (rng_from 26))).
Proof.
  repeat split; try reflexivity;
    intros H; apply key_format_first_char in H as (c & rest & Heq & Hc);
    vm_compute in Heq; injection Heq as <- _; discriminate Hc.
Qed.

(** ** The store and the client API *)

Section Api.

Implicit Types (db : DB) (row r : LicenseRow) (k d key addr : string).

Lemma upper_truthy s : PyStr.truthy (PyStr.upper s) = PyStr.truthy s.
Proof. destruct s; reflexivity. Qed.

Lemma truthy_nonempty s : s <> "" -> PyStr.truthy s = true.
Proof. destruct s; [congruence | reflexivity]. Qed.

Lemma alter_present (f : LicenseRow -> LicenseRow) (m : gmap string LicenseRow) key row :
  m !! key = Some row -> alter f key m = <[key := f row]> m.
Proof.
  intros Hm. apply map_eq. intros j.
  destruct (decide (key = j)) as [<-|Hne].
  - now rewrite lookup_alter_eq, lookup_insert_eq, Hm.
  - now rewrite lookup_alter_ne, lookup_insert_ne.
Qed.

Lemma alter_absent (f : LicenseRow -> LicenseRow) (m : gmap string LicenseRow) key :
  m !! key = None -> alter f key m = m.
Proof.
  intros Hm. apply map_eq. intros j.
  destruct (decide (key = j)) as [<-|Hne].
  - now rewrite lookup_alter_eq, Hm.
  - now rewrite lookup_alter_ne.
Qed.

Lemma py_ne_same d : Py.ne (Some d) (JStr (Text d)) = false.
Proof. cbn. now rewrite String.eqb_refl. Qed.

Lemma py_ne_other (a : option string) d :
  a <> Some d -> Py.ne a (JStr (Text d)) = true.
Proof.
  destruct a as [a|]; cbn; [|reflexivity]. intros H.
  destruct (String.eqb_spec a d); [congruence | reflexivity].
Qed.

(** A value passes the comparison with the stored column only when it is
    that column: [None] for [NULL], the same text otherwise. *)
Lemma py_ne_false (a : option string) (v : json) :
  Py.ne a v = false ->
  (a = None /\ v = JNull) \/ (exists d, a = Some d /\ v = JStr (Text d)).
Proof.
  destruct a as [a|], v as [| | | |[b|]| |]; cbn; try discriminate; [|auto].
  destruct (String.eqb_spec a b) as [->|]; [eauto | discriminate].
Qed.

(** What the handlers read of a request that carries a key and a device. *)
Lemma read_request_request k d :
  read_request (request k d) = Returned (Text (PyStr.upper k), JStr (Text d)).
Proof. reflexivity. Qed.

Lemma read_request_device (data : json) (license_key : pystr) (device : json) :
  read_request data = Returned (license_key, device) ->
  Py.get data "device_id" JNull = Returned device.
Proof.
  unfold read_request. destruct (Py.get data "license_key" _) as [v|]; [|discriminate].
  destruct (Py.upper v); [|discriminate].
  destruct (Py.get data "device_id" JNull); [|discriminate]. now intros [= _ ->].
Qed.

(** The requests the handlers cannot read raise [AttributeError]: a body
    that is not an object, and a [license_key] that is not a string. *)
Lemma read_request_cases (data : json) :
  match read_request data with
  | Returned (license_key, device) =>
      exists members, data = JObject members /\
        Py.get data "device_id" JNull = Returned device /\
        (exists v, Py.get data "license_key" (JStr (Text "")) = Returned v /\
                   Py.upper v = Returned license_key)
  | Raised e =>
      e = AttributeError /\
      ((forall members, data <> JObject members) \/
       exists members v, data = JObject members /\
         Py.member members "license_key" = Some v /\ forall s, v <> JStr s)
  end.
Proof.
  unfold read_request.
  destruct data as [| | | | | |members]; cbn [Py.get];
    try (split; [reflexivity|]; left; intros; discriminate).
  destruct (Py.member members "license_key") as [v|] eqn:Hv.
  - destruct v as [| | | |[s|]| |]; cbn [Py.upper].
    all: first
      [ exists members; split; [reflexivity|]; split; [reflexivity|];
        eexists; split; reflexivity
      | split; [reflexivity|]; right; exists members; eexists;
        split; [reflexivity|]; split; [exact Hv|]; intros; discriminate ].
  - cbn [Py.upper]. exists members. split; [reflexivity|]. split; [reflexivity|].
    eexists; split; reflexivity.
Qed.

(** What [activate_check] does with a request that carries a key and a
    device: the four tests, in the order of the source. *)
Lemma activate_check_request db k d now :
  k <> "" -> d <> "" ->
  activate_check db (request k d) now =
  match licenses db !! PyStr.upper k with
  | None => Reject (jsonify_status (activate_failure msg_invalid_code) 400)
  | Some row =>
      if negb (is_active row) then
        Reject (jsonify_status (activate_failure msg_suspended) 423)
      else if now >? expires_at row then
        Reject (jsonify_status (activate_failure msg_expired) 410)
      else if is_used row && Py.ne (device_id row) (JStr (Text d)) then
        Reject (jsonify_status (activate_failure msg_other_device) 403)
      else Accept (PyStr.upper k) (JStr (Text d)) row
  end.
Proof.
  intros Hk Hd. unfold activate_check. rewrite read_request_request.
  cbn [Py.str_truthy Py.truthy Sql.bind_str].
  now rewrite upper_truthy, (truthy_nonempty k Hk), (truthy_nonempty d Hd).
Qed.

(** Only a request with a key and a device that counts as true passes the
    checks, and its key is in the store. *)
Lemma activate_check_accept db data now key dev row :
  activate_check db data now = Accept key dev row ->
  read_request data = Returned (Text key, dev) /\ Py.truthy dev = true /\
  licenses db !! key = Some row.
Proof.
  unfold activate_check, Sql.select_license.
  destruct (read_request data) as [[[s|] v]|e]; [| |discriminate].
  - cbn [Py.str_truthy Sql.bind_str].
    destruct (PyStr.truthy s); cbn [negb orb]; [|discriminate].
    destruct (Py.truthy v) eqn:Hv; cbn [negb]; [|discriminate].
    destruct (licenses db !! s) as [r|] eqn:Hr; [|discriminate].
    repeat (match goal with |- context [if ?b then _ else _] => destruct b end;
            try discriminate).
    intros [= <- <- <-]. auto.
  - cbn [Py.str_truthy Sql.bind_str negb orb].
    destruct (Py.truthy v); discriminate.
Qed.

(** The device of a request that is not [nan] and counts as true is stored
    as a text. *)
Lemma bind_truthy (v : json) (dev : option string) :
  Py.truthy v = true -> v <> JFloat FNaN -> Sql.bind v = Returned dev -> dev <> None.
Proof.
  destruct v as [|b|n|[|nz t]|[s|]|l|l]; cbn; try discriminate; try congruence.
  intros _ _. destruct (_ && _); [congruence | discriminate].
Qed.

Lemma activate_commit_bound db key v dev row addr now :
  Sql.bind v = Returned dev ->
  activate_commit db key v row addr now =
  ({| licenses := alter (Sql.set_binding dev true (Some now)) key (licenses db);
      activation_logs := activation_logs db ++ [log_entry key dev act_activate addr] |},
   Returned {| status := 200;
               body := activate_success msg_activated (expires_at row)
                         (plan row) (user_name row) |}).
Proof. intros H. unfold activate_commit. now rewrite H. Qed.

Lemma activate_commit_raised db key v e row addr now :
  Sql.bind v = Raised e -> activate_commit db key v row addr now = (db, Raised e).
Proof. intros H. unfold activate_commit. now rewrite H. Qed.

Lemma activate_commit_store db key d row addr now :
  fst (activate_commit db key (JStr (Text d)) row addr now) =
  {| licenses := alter (Sql.set_binding (Some d) true (Some now)) key (licenses db);
     activation_logs := activation_logs db ++ [log_entry key (Some d) act_activate addr] |}.
Proof. reflexivity. Qed.

Lemma verify_frame db data addr now :
  licenses (fst (verify_license db data addr now)) = licenses db.
Proof.
  unfold verify_license. destruct (read_request data) as [[lk dev]|e]; [|reflexivity].
  destruct (Sql.bind_str lk); [|reflexivity].
  destruct (Sql.select_license db _); [|reflexivity].
  repeat (match goal with |- context [if ?b then _ else _] => destruct b end);
    try reflexivity.
  destruct (Sql.bind dev); reflexivity.
Qed.

Lemma verify_response_store db db' data addr now :
  licenses db = licenses db' ->
  snd (verify_license db data addr now) = snd (verify_license db' data addr now).
Proof.
  intros H. unfold verify_license, Sql.select_license. rewrite H.
  destruct (read_request data) as [[lk dev]|e]; [|reflexivity].
  destruct (Sql.bind_str lk); [|reflexivity].
  destruct (licenses db' !! _); [|reflexivity].
  repeat (match goal with |- context [if ?b then _ else _] => destruct b end);
    try reflexivity.
  destruct (Sql.bind dev); reflexivity.
Qed.

Lemma run_verifies_frame db calls : licenses (run_verifies db calls) = licenses db.
Proof.
  revert db. induction calls as [|[[data addr] now] calls IH]; intros db.
  - reflexivity.
  - unfold run_verifies in *. simpl. rewrite IH. apply verify_frame.
Qed.

(** What the handlers read of a body whose key is a text. *)
Lemma read_request_text (data : json) k (device : json) :
  Py.get data "license_key" (JStr (Text "")) = Returned (JStr (Text k)) ->
  Py.get data "device_id" JNull = Returned device ->
  read_request data = Returned (Text (PyStr.upper k), device).
Proof. intros Hk Hd. unfold read_request. now rewrite Hk, Hd. Qed.

(** [deactivate_license] on a request that can be read and bound. *)
Lemma deactivate_license_served db data addr key device dev :
  read_request data = Returned (Text key, device) ->
  Sql.bind device = Returned dev ->
  deactivate_license db data addr =
  (Sql.insert_log (Sql.update_deactivate db key dev) key dev act_deactivate addr,
   Returned {| status := 200; body := deactivate_success |}).
Proof. intros Hreq Hdev. unfold deactivate_license. now rewrite Hreq, Hdev. Qed.

End Api.

(** C6.  [verify_license] never writes to [licenses]: after one call, and
    after any sequence of calls, every record is what it was, column for
    column; so the validity predicate of any key and the answer of any
    further [verify] are the same after any two sequences of [verify]
    calls, in particular after two orderings of the same calls. *)
Theorem verify_is_pure :
  (forall db data addr now,
      licenses (fst (verify_license db data addr now)) = licenses db) /\
  (forall db calls, licenses (run_verifies db calls) = licenses db) /\
  (forall db calls1 calls2 key device now,
      (fun r => valid_for_use r device now) <$> licenses (run_verifies db calls1) !! key =
      (fun r => valid_for_use r device now) <$> licenses (run_verifies db calls2) !! key) /\
  (forall db calls1 calls2 data addr now,
      snd (verify_license (run_verifies db calls1) data addr now) =
      snd (verify_license (run_verifies db calls2) data addr now)).
Proof.
  split; [exact verify_frame|]. split; [exact run_verifies_frame|]. split.
  - intros. now rewrite !run_verifies_frame.
  - intros. apply verify_response_store. now rewrite !run_verifies_frame.
Qed.

(** C9 (as amended).  [deactivate_license] answers success (status 200)
    and appends one deactivate log row for every request it can read and
    bind: a body that is an object, a [license_key] that is a string (or
    is missing, which counts as the empty string) and a [device_id] that
    SQLite can bind.  This holds for a key that does not exist and for a
    device that differs from the stored one alike.  A record is either
    left as it was or released, and it is released only when its stored
    device is the text of the requesting one; no record is created.  For a
    key in ASCII, the row logged carries the key in upper case, and the
    record released, if any, is the one under that key.  Every other
    request ends in an exception before anything is written, log row
    included: [AttributeError] for a body that is not an object and for a
    [license_key] that is not a string (JSON [null] included),
    [UnicodeEncodeError] for a string with a lone surrogate, and the
    exception of the binding for a [device_id] that is a list, an object or
    an integer outside 64 bits. *)
Theorem deactivate_license_answers :
  forall (db : DB) (data : json) (addr : string),
    let res := deactivate_license db data addr in
    let db' := fst res in
    (forall key device dev,
       read_request data = Returned (Text key, device) ->
       Sql.bind device = Returned dev ->
       snd res = Returned {| status := 200; body := deactivate_success |} /\
       (exists logged,
          activation_logs db'
          = (activation_logs db ++ [log_entry logged dev act_deactivate addr])%list) /\
       (forall k r, licenses db !! k = Some r ->
          licenses db' !! k = Some r \/
          (exists d, device_id r = Some d /\ dev = Some d /\
                     licenses db' !! k = Some (released r))) /\
       (forall k, licenses db !! k = None -> licenses db' !! k = None)) /\
    (forall k device dev,
       Py.get data "license_key" (JStr (Text "")) = Returned (JStr (Text k)) ->
       PyStr.isascii k = true ->
       Py.get data "device_id" JNull = Returned device ->
       Sql.bind device = Returned dev ->
       let key := PyStr.upper k in
       activation_logs db'
         = (activation_logs db ++ [log_entry key dev act_deactivate addr])%list /\
       (forall k' r, licenses db !! k' = Some r ->
          ((k' = key /\ exists d, device_id r = Some d /\ dev = Some d) ->
           licenses db' !! k' = Some (released r) /\
           device_id (released r) = None /\ is_used (released r) = false) /\
          (~ (k' = key /\ exists d, device_id r = Some d /\ dev = Some d) ->
           licenses db' !! k' = Some r))) /\
    (forall e, read_request data = Raised e ->
       e = AttributeError /\ res = (db, Raised AttributeError)) /\
    ((forall members, data <> JObject members) -> res = (db, Raised AttributeError)) /\
    (forall members v,
       data = JObject members -> Py.member members "license_key" = Some v ->
       (forall s, v <> JStr s) -> res = (db, Raised AttributeError)) /\
    (forall device,
       read_request data = Returned (Unencodable, device) ->
       res = (db, Raised UnicodeEncodeError)) /\
    (forall key device e,
       read_request data = Returned (Text key, device) ->
       Sql.bind device = Raised e -> res = (db, Raised e)) /\
    (forall key device,
       read_request data = Returned (Text key, device) ->
       (device = JStr Unencodable -> res = (db, Raised UnicodeEncodeError)) /\
       (forall items, device = JArray items -> res = (db, Raised ProgrammingError)) /\
       (forall members, device = JObject members -> res = (db, Raised ProgrammingError)) /\
       (forall n, device = JInt n -> n < - 2 ^ 63 \/ 2 ^ 63 <= n ->
          res = (db, Raised OverflowError))).
Proof.
  intros db data addr res db'. subst db' res.
  assert (forall key device dev,
            read_request data = Returned (Text key, device) ->
            Sql.bind device = Returned dev ->
            forall k r, licenses db !! k = Some r ->
              ((k = key /\ exists d, device_id r = Some d /\ dev = Some d) ->
               licenses (fst (deactivate_license db data addr)) !! k = Some (released r)) /\
              (~ (k = key /\ exists d, device_id r = Some d /\ dev = Some d) ->
               licenses (fst (deactivate_license db data addr)) !! k = Some r)) as Hrows.
  { intros key device dev Hreq Hdev k r Hr.
    rewrite (deactivate_license_served db data addr key device dev Hreq Hdev).
    unfold Sql.insert_log, Sql.update_deactivate, Sql.with_licenses. cbn [fst licenses].
    split.
    - intros [-> (d & Hd & ->)]. rewrite lookup_alter_eq, Hr. cbn [fmap option_fmap option_map].
      rewrite Hd. cbn [Sql.eq_text]. now rewrite String.eqb_refl.
    - intros Hno. destruct (decide (key = k)) as [<-|Hne].
      + rewrite lookup_alter_eq, Hr. cbn [fmap option_fmap option_map].
        destruct (device_id r) as [d|] eqn:Hd; [|reflexivity].
        destruct dev as [d'|]; [|reflexivity].
        cbn [Sql.eq_text]. destruct (String.eqb_spec d d') as [->|]; [|reflexivity].
        exfalso. apply Hno. eauto.
      + now rewrite lookup_alter_ne. }
  split; [|split; [|split; [|split; [|split; [|split; [|split]]]]]].
  - intros key device dev Hreq Hdev.
    split; [now rewrite (deactivate_license_served db data addr key device dev Hreq Hdev)|].
    split.
    { exists key.
      now rewrite (deactivate_license_served db data addr key device dev Hreq Hdev). }
    split.
    + intros k r Hr. destruct (Hrows key device dev Hreq Hdev k r Hr) as [Hyes Hno].
      destruct (decide (k = key)) as [->|Hne]; [|left; apply Hno; tauto].
      destruct (device_id r) as [d|] eqn:Hd; [|left; apply Hno; intros [_ (d & ? & _)]; discriminate].
      destruct (decide (dev = Some d)) as [->|Hdd].
      * right. exists d. repeat split. apply Hyes. eauto.
      * left. apply Hno. intros [_ (d' & [= <-] & ->)]. now apply Hdd.
    + intros k Hk.
      rewrite (deactivate_license_served db data addr key device dev Hreq Hdev).
      unfold Sql.insert_log, Sql.update_deactivate, Sql.with_licenses. cbn [fst licenses].
      destruct (decide (key = k)) as [<-|Hne].
      * now rewrite lookup_alter_eq, Hk.
      * now rewrite lookup_alter_ne.
  - intros k device dev Hk _ Hd Hdev key.
    pose proof (read_request_text data k device Hk Hd) as Hreq. fold key in Hreq.
    split; [now rewrite (deactivate_license_served db data addr key device dev Hreq Hdev)|].
    intros k' r Hr. destruct (Hrows key device dev Hreq Hdev k' r Hr) as [Hyes Hno].
    split; [|exact Hno]. intros H. split; [now apply Hyes | split; reflexivity].
  - intros e He. pose proof (read_request_cases data) as H. rewrite He in H.
    destruct H as [-> _]. split; [reflexivity|]. unfold deactivate_license. now rewrite He.
  - intros Hno. unfold deactivate_license, read_request.
    destruct data; try reflexivity. now elim (Hno members).
  - intros members v -> Hv Hs. unfold deactivate_license, read_request. cbn [Py.get].
    rewrite Hv. destruct v as [| | | |s| |]; try reflexivity. now elim (Hs s).
  - intros device Hreq. unfold deactivate_license. now rewrite Hreq.
  - intros key device e Hreq He. unfold deactivate_license. rewrite Hreq. cbn [Sql.bind_str].
    now rewrite He.
  - intros key device Hreq. unfold deactivate_license. rewrite Hreq. cbn [Sql.bind_str].
    split; [now intros ->|]. split; [now intros items ->|]. split; [now intros ms ->|].
    intros n -> Hn. cbn [Sql.bind].
    destruct (Z.leb_spec (- 2 ^ 63) n), (Z.ltb_spec n (2 ^ 63)); cbn [andb];
      try reflexivity; lia.
Qed.

Lemma deactivate_license_answers_witness :
  let data := request "gnp-abcd-efgh-jklm" "device-A" in
  snd (deactivate_license db_bound data "10.0.0.1")
  = Returned {| status := 200; body := deactivate_success |} /\
  (device_id <$> licenses (fst (deactivate_license db_bound data "10.0.0.1")) !! key0)
  = Some None /\
  (is_used <$> licenses (fst (deactivate_license db_bound data "10.0.0.1")) !! key0)
  = Some false.
Proof.
  intros data.
  destruct (deactivate_license_answers db_bound data "10.0.0.1")
    as (Hserved & Hascii & _).
  destruct (Hserved key0 (JStr (Text "device-A")) (Some "device-A") eq_refl eq_refl)
    as (Hresp & _).
  destruct (Hascii "gnp-abcd-efgh-jklm" (JStr (Text "device-A")) (Some "device-A")
              eq_refl eq_refl eq_refl eq_refl) as (_ & Hrec).
  split; [exact Hresp|].
  destruct (licenses db_bound !! key0) as [row|] eqn:Hrow;
    [|vm_compute in Hrow; discriminate].
  destruct (Hrec key0 row Hrow) as [Hclear _].
  destruct Hclear as (Hnew & Hdev & Hused).
  { split; [reflexivity|]. exists "device-A".
    vm_compute in Hrow. injection Hrow as <-. split; reflexivity. }
  rewrite Hnew. simpl. split; reflexivity.
Defined.

(** C9 (as stated) fails: not every request is answered and logged.  A
    request whose [license_key] is JSON [null] raises [AttributeError],
    and one whose [device_id] is a list raises [ProgrammingError]; the
    client gets status 500, and neither request leaves a log row. *)
Lemma deactivate_unreadable_request_raises :
  let null_key := JObject [("license_key", JNull);
                           ("device_id", JStr (Text "device-A"))] in
  let list_device := JObject [("license_key", JStr (Text key0));
                              ("device_id", JArray [JStr (Text "device-A")])] in
  deactivate_license db_bound null_key "10.0.0.1" = (db_bound, Raised AttributeError) /\
  http_status (snd (deactivate_license db_bound null_key "10.0.0.1")) = 500 /\
  deactivate_license db_bound list_device "10.0.0.1"
  = (db_bound, Raised ProgrammingError) /\
  activation_logs (fst (deactivate_license db_bound null_key "10.0.0.1"))
  = activation_logs db_bound.
Proof. repeat split. Qed.


Section Activation.

Implicit Types (db : DB) (row r : LicenseRow) (k d key addr : string).

(** A request that lacks the key or the device (or carries an empty one)
    is answered 400 before the store is read. *)
Lemma activate_missing_fields db data addr t1 t2 license_key device :
  read_request data = Returned (license_key, device) ->
  Py.str_truthy license_key = false \/ Py.truthy device = false ->
  activate_license db data addr t1 t2 =
  (db, Returned {| status := 400; body := activate_failure msg_missing_data |}).
Proof.
  unfold activate_license, activate_check. intros -> [-> | ->]; [reflexivity|].
  now rewrite orb_true_r.
Qed.

(** [verify_license] has no error status of its own: a request it can
    read is answered with status 200 whatever the answer says. *)
Lemma verify_status db data addr now key device :
  read_request data = Returned (Text key, device) ->
  http_status (snd (verify_license db data addr now)) = 200.
Proof.
  intros Hreq. unfold verify_license. rewrite Hreq. cbn [Sql.bind_str].
  destruct (Sql.select_license db _) as [row|]; [|reflexivity].
  destruct (Py.ne (device_id row) device) eqn:Hne; [reflexivity|].
  repeat (match goal with |- context [if ?b then _ else _] => destruct b end);
    try reflexivity.
  apply py_ne_false in Hne as [[_ ->] | (d & _ & ->)]; reflexivity.
Qed.

(** A request that names a device other than the stored one, or names one
    for a key that has none, is refused as a foreign device. *)
Lemma verify_device_mismatch db data addr now key device row :
  read_request data = Returned (Text key, device) ->
  licenses db !! key = Some row ->
  Py.ne (device_id row) device = true ->
  verify_license db data addr now =
  (db, Returned {| status := 200; body := verify_inactive msg_device_not_allowed |}).
Proof.
  intros Hreq Hrow Hne. unfold verify_license, Sql.select_license.
  rewrite Hreq. cbn [Sql.bind_str]. now rewrite Hrow, Hne.
Qed.

(** A request without [device_id] passes the device test of a key that
    was never activated. *)
Lemma verify_unbound_without_device db k addr now row :
  licenses db !! PyStr.upper k = Some row ->
  device_id row = None -> is_active row = true -> now <= expires_at row ->
  snd (verify_license db (JObject [("license_key", JStr (Text k))]) addr now)
  = Returned {| status := 200;
                body := verify_active (expires_at row) (plan row) |}.
Proof.
  intros Hrow Hdev Hact Hexp. unfold verify_license, Sql.select_license.
  change (read_request (JObject [("license_key", JStr (Text k))]))
    with (Returned (A := pystr * json) (Text (PyStr.upper k), JNull)).
  cbn [Sql.bind_str]. rewrite Hrow, Hdev. cbn [Py.ne]. rewrite Hact. cbn [negb].
  destruct (Z.gtb_spec now (expires_at row)); [lia | reflexivity].
Qed.

End Activation.

(** The outcomes of [activate_license] for a request that carries a key
    and a device, case by case. *)
Lemma activate_license_outcomes :
  forall (db : DB) (k d addr : string) (t1 t2 : Z),
    k <> "" -> d <> "" ->
    let key := PyStr.upper k in
    let res := activate_license db (request k d) addr t1 t2 in
    (licenses db !! key = None ->
     res = (db, Returned {| status := 400; body := activate_failure msg_invalid_code |})) /\
    (forall row, licenses db !! key = Some row ->
       (is_active row = false ->
        res = (db, Returned {| status := 423; body := activate_failure msg_suspended |})) /\
       (is_active row = true -> expires_at row < t1 ->
        res = (db, Returned {| status := 410; body := activate_failure msg_expired |})) /\
       (is_active row = true -> t1 <= expires_at row ->
        is_used row = true -> device_id row <> Some d ->
        res = (db, Returned {| status := 403; body := activate_failure msg_other_device |})) /\
       (is_active row = true -> t1 <= expires_at row ->
        is_used row = false \/ device_id row = Some d ->
        res = ({| licenses := <[key := bound_to d t2 row]> (licenses db);
                  activation_logs :=
                    (activation_logs db ++ [log_entry key (Some d) act_activate addr])%list |},
               Returned {| status := 200;
                           body := activate_success msg_activated (expires_at row)
                                     (plan row) (user_name row) |}))).
Proof.
  intros db k d addr t1 t2 Hk Hd key res. subst res.
  unfold activate_license. rewrite (activate_check_request db k d t1 Hk Hd). fold key.
  split.
  - now intros ->.
  - intros row Hrow. rewrite Hrow. repeat split.
    + intros ->. reflexivity.
    + intros -> Hlt. simpl. destruct (Z.gtb_spec t1 (expires_at row)); [reflexivity | lia].
    + intros -> Hle -> Hne. simpl.
      destruct (Z.gtb_spec t1 (expires_at row)); [lia|].
      now rewrite py_ne_other.
    + intros -> Hle Hfree. simpl.
      destruct (Z.gtb_spec t1 (expires_at row)); [lia|].
      assert (is_used row && Py.ne (device_id row) (JStr (Text d)) = false) as ->.
      { destruct Hfree as [-> | ->]; [reflexivity|].
        rewrite py_ne_same. apply andb_false_r. }
      unfold activate_commit, Sql.insert_log, Sql.update_activate, Sql.with_licenses.
      simpl. unfold jsonify, log_entry, bound_to. f_equal. f_equal.
      now apply alter_present.
Qed.

(** C3 (as amended).  For a request that carries a key and a device,
    [activate_license] answers, in this order of precedence: 400 (no such
    key) when the key is absent; 423 when the key is stopped; 410 when the
    clock is strictly past [expires_at]; 403 when the key is used and bound
    to another device; and in each of these cases the store is unchanged.
    Only otherwise it binds the device, sets [is_used] and [activated_at],
    appends an activate log row and answers 200. *)
Theorem activate_precedence :
  forall (db : DB) (k d addr : string) (t1 t2 : Z),
    k <> "" -> d <> "" ->
    let key := PyStr.upper k in
    let res := activate_license db (request k d) addr t1 t2 in
    (licenses db !! key = None ->
     res = (db, Returned {| status := 400; body := activate_failure msg_invalid_code |})) /\
    (forall row, licenses db !! key = Some row ->
       (is_active row = false ->
        res = (db, Returned {| status := 423; body := activate_failure msg_suspended |})) /\
       (is_active row = true -> expires_at row < t1 ->
        res = (db, Returned {| status := 410; body := activate_failure msg_expired |})) /\
       (is_active row = true -> t1 <= expires_at row ->
        is_used row = true -> device_id row <> Some d ->
        res = (db, Returned {| status := 403; body := activate_failure msg_other_device |})) /\
       (is_active row = true -> t1 <= expires_at row ->
        is_used row = false \/ device_id row = Some d ->
        res = ({| licenses := <[key := bound_to d t2 row]> (licenses db);
                  activation_logs :=
                    (activation_logs db ++ [log_entry key (Some d) act_activate addr])%list |},
               Returned {| status := 200;
                           body := activate_success msg_activated (expires_at row)
                                     (plan row) (user_name row) |}))).
Proof. exact activate_license_outcomes. Qed.

Lemma activate_precedence_witness :
  snd (activate_license db_bound (request key0 "device-B") "10.0.0.2"
         (t0 + day) (t0 + day))
  = Returned {| status := 403; body := activate_failure msg_other_device |}.
Proof.
  pose proof (activate_precedence db_bound key0 "device-B" "10.0.0.2" (t0 + day) (t0 + day))
    as H.
  destruct H as [_ H]; [discriminate | discriminate |].
  destruct (licenses db_bound !! PyStr.upper key0) as [row|] eqn:Hrow;
    [|vm_compute in Hrow; discriminate].
  destruct (H row eq_refl) as (_ & _ & H403 & _).
  vm_compute in Hrow. injection Hrow as <-.
  rewrite H403; [reflexivity | reflexivity | vm_compute; discriminate
                | reflexivity | discriminate].
Defined.

(** C3 (as stated) fails at the instant of expiry: the claim has the key
    expired when [now >= expires_at], the code only when [now > expires_at].
    Activating the fresh key exactly at its [expires_at] succeeds and binds
    the device. *)
Lemma activate_at_expiry_instant :
  let now := t0 + 30 * day in
  (expires_at <$> licenses db_fresh !! key0) = Some now /\
  snd (activate_license db_fresh (request key0 "device-A") "10.0.0.1" now now)
  = Returned {| status := 200;
                body := activate_success msg_activated now "monthly" None |} /\
  (device_id <$> licenses
     (fst (activate_license db_fresh (request key0 "device-A") "10.0.0.1" now now))
     !! key0) = Some (Some "device-A").
Proof. vm_compute. repeat split. Qed.

(** C7 (as amended).  For a key that is active, not expired and bound to
    device [d], a further [activate] by [d] succeeds; it leaves every column
    of the record as it was except [activated_at], which takes the time of
    this latest activation, and appends an activate log row. *)
Theorem reactivation_same_device :
  forall (db : DB) (k d addr : string) (row : LicenseRow) (t1 t2 : Z),
    k <> "" -> d <> "" ->
    licenses db !! PyStr.upper k = Some row ->
    is_active row = true -> t1 <= expires_at row ->
    is_used row = true -> device_id row = Some d ->
    activate_license db (request k d) addr t1 t2 =
      ({| licenses := <[PyStr.upper k := bound_to d t2 row]> (licenses db);
          activation_logs :=
            (activation_logs db ++ [log_entry (PyStr.upper k) (Some d) act_activate addr])%list |},
       Returned {| status := 200;
                   body := activate_success msg_activated (expires_at row)
                             (plan row) (user_name row) |}) /\
    bound_to d t2 row =
      {| device_id := device_id row; user_name := user_name row;
         telegram_user_id := telegram_user_id row; plan := plan row;
         activated_at := Some t2; expires_at := expires_at row;
         is_active := is_active row; is_used := is_used row; notes := notes row |}.
Proof.
  intros db k d addr row t1 t2 Hk Hd Hrow Hact Hexp Hused Hdev. split.
  - destruct (activate_license_outcomes db k d addr t1 t2 Hk Hd) as [_ H].
    destruct (H row Hrow) as (_ & _ & _ & Hok). apply Hok; auto.
  - unfold bound_to, Sql.set_binding. now rewrite Hused, Hdev.
Qed.

Lemma reactivation_same_device_witness :
  (activated_at <$> licenses
     (fst (activate_license db_bound (request key0 "device-A") "10.0.0.1"
             (t0 + day) (t0 + day))) !! key0) = Some (Some (t0 + day)).
Proof.
  destruct (licenses db_bound !! PyStr.upper key0) as [row|] eqn:Hrow;
    [|vm_compute in Hrow; discriminate].
  assert (Hrow' := Hrow). vm_compute in Hrow'. injection Hrow' as Hrow'.
  destruct (reactivation_same_device db_bound key0 "device-A" "10.0.0.1" row
              (t0 + day) (t0 + day)) as [-> _];
    [discriminate | discriminate | exact Hrow | now subst row
    | subst row; vm_compute; discriminate | now subst row | now subst row |].
  cbn [fst licenses]. change (PyStr.upper key0) with key0.
  now rewrite lookup_insert_eq.
Defined.

(** C7 (as stated) fails: the second activation by the bound device
    overwrites [activated_at], so the record is not left as it was. *)
Lemma reactivation_overwrites_activated_at :
  let db' := fst (activate_license db_bound (request key0 "device-A") "10.0.0.1"
                    (t0 + day) (t0 + day)) in
  (device_id <$> licenses db_bound !! key0) = Some (Some "device-A") /\
  (activated_at <$> licenses db_bound !! key0) = Some (Some (t0 + second)) /\
  (activated_at <$> licenses db' !! key0) = Some (Some (t0 + day)) /\
  licenses db' !! key0 <> licenses db_bound !! key0.
Proof. vm_compute. repeat split. discriminate. Qed.

(** C4, the case the code misses: a [verify] request that carries no
    [device_id], or carries [null] for it, for a key that was never
    activated, is answered [is_active: true]. *)
Theorem verify_without_device_on_fresh_key :
  (device_id <$> licenses db_fresh !! key0) = Some None /\
  (is_used <$> licenses db_fresh !! key0) = Some false /\
  verify_license db_fresh (JObject [("license_key", JStr (Text key0))])
    "10.0.0.9" (t0 + second)
  = (Sql.insert_log db_fresh key0 None act_verify "10.0.0.9",
     Returned {| status := 200; body := verify_active (t0 + 30 * day) "monthly" |}) /\
  verify_license db_fresh
    (JObject [("license_key", JStr (Text key0)); ("device_id", JNull)])
    "10.0.0.9" (t0 + second)
  = (Sql.insert_log db_fresh key0 None act_verify "10.0.0.9",
     Returned {| status := 200; body := verify_active (t0 + 30 * day) "monthly" |}).
Proof. vm_compute. repeat split. Qed.

(** ** Creation *)

Section Creation.

Implicit Types (db : DB) (g : Rng).

Lemma generate_license_code_rng g :
  draw (snd (generate_license_code g)) = draw g /\
  pos (snd (generate_license_code g)) = (pos g + 12)%nat.
Proof.
  unfold generate_license_code.
  pose proof (random_segments_rng (list_ascii_of_string chars) 3 g) as H.
  destruct (random_segments _ 3 g) as [segs g']. exact H.
Qed.

Lemma create_license_cases db g plan_ days user tg notes_ now :
  create_license db g plan_ days user tg notes_ now =
  let key := fst (generate_license_code g) in
  let g' := snd (generate_license_code g) in
  match DateTime.add_days now days with
  | None => (db, g', Raised OverflowError)
  | Some expires =>
      match licenses db !! key with
      | Some _ => (db, g', Raised IntegrityError)
      | None =>
          ({| licenses :=
                <[key := {| device_id := None; user_name := user;
                            telegram_user_id := tg; plan := plan_;
                            activated_at := None; expires_at := expires;
                            is_active := true; is_used := false;
                            notes := notes_ |}]> (licenses db);
              activation_logs := activation_logs db |},
           g',
           Returned {| c_license_key := key; c_plan := plan_;
                       c_expires_at := expires; c_days := days |})
      end
  end.
Proof.
  unfold create_license, Sql.insert_license, Sql.with_licenses.
  destruct (generate_license_code g) as [key g']. simpl.
  destruct (DateTime.add_days now days); [|reflexivity].
  destruct (licenses db !! key); reflexivity.
Qed.

End Creation.

(** C5 (as amended).  [create_license] draws exactly one candidate key,
    twelve characters of the random source, without looking at the store.
    When the candidate is the key of an existing record, the insertion
    fails at once with the duplicate-key fault ([IntegrityError]) and the
    store is left as it was; there is no second attempt.  When it is new,
    the record is inserted, unused, unbound and active. *)
Theorem create_license_single_attempt :
  forall (db : DB) (g : Rng) (plan_ : string) (days : Z) (user : option string)
         (tg : option Z) (notes_ : option string) (now : Z),
    let key := fst (generate_license_code g) in
    let res := create_license db g plan_ days user tg notes_ now in
    snd (fst res) = snd (generate_license_code g) /\
    pos (snd (fst res)) = (pos g + 12)%nat /\
    (forall expires, DateTime.add_days now days = Some expires ->
       (is_Some (licenses db !! key) ->
        fst (fst res) = db /\ snd res = Raised IntegrityError) /\
       (licenses db !! key = None ->
        snd res = Returned {| c_license_key := key; c_plan := plan_;
                              c_expires_at := expires; c_days := days |} /\
        activation_logs (fst (fst res)) = activation_logs db /\
        licenses (fst (fst res)) =
          <[key := {| device_id := None; user_name := user;
                      telegram_user_id := tg; plan := plan_;
                      activated_at := None; expires_at := expires;
                      is_active := true; is_used := false;
                      notes := notes_ |}]> (licenses db))).
Proof.
  intros db g plan_ days user tg notes_ now key res. subst res.
  rewrite create_license_cases. cbv zeta. fold key.
  destruct (generate_license_code_rng g) as [_ Hpos].
  destruct (DateTime.add_days now days) as [e|];
    [destruct (licenses db !! key) as [r|] eqn:Hr|]; simpl;
    (split; [reflexivity|]); (split; [exact Hpos|]);
    intros expires [= <-] || intros expires [=].
  - split; [auto | discriminate].
  - split; [intros [? [=]] | auto].
Qed.

Lemma create_license_single_attempt_witness :
  snd (create_license db_fresh (rng_from 0) "trial" 7 None None None (t0 + day))
  = Raised IntegrityError.
Proof.
  destruct (create_license_single_attempt db_fresh (rng_from 0) "trial" 7 None None None
              (t0 + day)) as (_ & _ & H).
  destruct (H (t0 + 8 * day) eq_refl) as [Hdup _].
  apply Hdup. vm_compute. eauto.
Defined.

(** C5 (as stated) fails: there is no check-and-retry loop.  With a random
    source that repeats the key of an existing record, [create_license]
    stops at the first candidate: twelve draws were made, the duplicate-key
    fault is raised, nothing is inserted. *)
Lemma create_license_collision_not_retried :
  let res := create_license db_fresh (rng_from 0) "monthly" 30 None None None
               (t0 + day) in
  fst (generate_license_code (rng_from 0)) = key0 /\
  is_Some (licenses db_fresh !! key0) /\
  snd res = Raised IntegrityError /\
  pos (snd (fst res)) = 12%nat /\
  fst (fst res) = db_fresh.
Proof. vm_compute. repeat split. eauto. Qed.

(** ** Extension *)

Section Extension.

Implicit Types (db : DB) (row : LicenseRow).

Lemma add_days_in_range t d :
  Z.abs d <= DateTime.max_delta_days ->
  DateTime.dt_min <= t + d * DateTime.usec_per_day <= DateTime.dt_max ->
  DateTime.add_days t d = Some (t + d * DateTime.usec_per_day).
Proof.
  intros Hd Hr. unfold DateTime.add_days, DateTime.timedelta_days, DateTime.add.
  destruct (Z.leb_spec (Z.abs d) DateTime.max_delta_days); [|lia].
  destruct (Z.leb_spec DateTime.dt_min (t + d * DateTime.usec_per_day)); [|lia].
  destruct (Z.leb_spec (t + d * DateTime.usec_per_day) DateTime.dt_max); [|lia].
  reflexivity.
Qed.

Lemma add_days_value t d e :
  DateTime.add_days t d = Some e -> e = t + d * DateTime.usec_per_day.
Proof.
  unfold DateTime.add_days, DateTime.timedelta_days, DateTime.add.
  destruct (Z.abs d <=? _); [|discriminate].
  destruct (_ && _); [|discriminate]. now intros [= <-].
Qed.

(** The instant from which the added days count: the stored expiry, or,
    when that lies before the first clock reading, the second reading. *)
Lemma extension_base_is_max (current t1 t2 : Z) :
  t1 <= t2 ->
  (if current <? t1 then t2 else current)
  = Z.max (if current <? t1 then t2 else t1) current.
Proof. intros H. destruct (Z.ltb_spec current t1); lia. Qed.

Lemma admin_is_admin : bool_decide (admin ∉ ADMIN_IDS) = false.
Proof. reflexivity. Qed.

Lemma extend_command_cases db k a1 rest days t1 t2 :
  PyStr.int a1 = Some days ->
  extend_command admin (k :: a1 :: rest) t1 t2 db =
  match licenses db !! PyStr.upper k with
  | None => (db, Returned (Some reply_not_found))
  | Some row =>
      match DateTime.add_days
              (if expires_at row <? t1 then t2 else expires_at row) days with
      | None => (db, Raised OverflowError)
      | Some e =>
          (Sql.update_expires_at db e (PyStr.upper k),
           Returned (Some (reply_extended (PyStr.upper k) e)))
      end
  end.
Proof.
  intros Hint. unfold extend_command, admin_only. rewrite admin_is_admin.
  now rewrite Hint.
Qed.

Lemma prefix_cons a s1 b s2 :
  String.prefix (String a s1) (String b s2) = true ->
  a = b /\ String.prefix s1 s2 = true.
Proof.
  cbn [String.prefix]. destruct (ascii_dec a b); [auto | discriminate].
Qed.

Lemma prefix_ext data :
  PyStr.startswith "ext" data = true -> exists rest, data = "ext" ++ rest.
Proof.
  unfold PyStr.startswith. intros H.
  destruct data as [|c1 data]; [discriminate|].
  apply prefix_cons in H as [<- H].
  destruct data as [|c2 data]; [discriminate|].
  apply prefix_cons in H as [<- H].
  destruct data as [|c3 data]; [discriminate|].
  apply prefix_cons in H as [<- H].
  exists data. reflexivity.
Qed.

(** The branch of [button_callback] taken by the data [ext<days>_<key>]. *)
Lemma button_callback_ext db g data days key t1 t2 :
  PyStr.startswith "ext" data = true ->
  PyStr.startswith "extend_" data = false ->
  PyStr.int (PyStr.remove_all "ext" (nth 0 (PyStr.split "_" data) "")) = Some days ->
  PyStr.split "_" data !! 1%nat = Some key ->
  button_callback admin data t1 t2 (db, g) =
  match licenses db !! key with
  | None => ((db, g), Returned None)
  | Some row =>
      match DateTime.add_days
              (if expires_at row <? t1 then t2 else expires_at row) days with
      | None => ((db, g), Raised OverflowError)
      | Some e =>
          ((Sql.update_expires_at db e key, g),
           Returned (Some (edit_extended days e)))
      end
  end.
Proof.
  intros Hext Hnot Hint Hkey. unfold button_callback. rewrite admin_is_admin.
  rewrite Hnot, Hext, Hint, Hkey.
  apply prefix_ext in Hext as [rest ->]. reflexivity.
Qed.

Lemma update_expires_at_present db e key row :
  licenses db !! key = Some row ->
  Sql.update_expires_at db e key =
  {| licenses := <[key := Sql.set_expires_at e row]> (licenses db);
     activation_logs := activation_logs db |}.
Proof.
  intros H. unfold Sql.update_expires_at, Sql.with_licenses.
  now rewrite (alter_present _ _ _ _ H).
Qed.

End Extension.

(** C2 (as amended).  For an existing key and any number of days [days]
    for which the new date is one [datetime] can hold, [extend] sets
    [expires_at] to [max(now, expires_at) + days], where [now] is the last
    clock reading of the call; this holds for the command and for the
    button alike, and no other column or record changes.  The result lies
    between [max(t1, expires_at) + days] and [max(t2, expires_at) + days]
    for the first and last readings [t1 <= t2]; when the key had expired and
    [days] is at least one, it lies strictly after both.  The command
    answers that the key was not found, and changes nothing, when the key is
    absent. *)
Theorem extend_sets_expiry :
  forall (db : DB) (days t1 t2 : Z),
    t1 <= t2 ->
    (forall k a1 rest,
       PyStr.int a1 = Some days ->
       let key := PyStr.upper k in
       let res := extend_command admin (k :: a1 :: rest) t1 t2 db in
       (licenses db !! key = None -> res = (db, Returned (Some reply_not_found))) /\
       (forall row, licenses db !! key = Some row ->
          let e := spec_extended_expiry
                     (extension_clock (expires_at row) t1 t2) (expires_at row) days in
          Z.abs days <= DateTime.max_delta_days ->
          DateTime.dt_min <= e <= DateTime.dt_max ->
          res = ({| licenses := <[key := Sql.set_expires_at e row]> (licenses db);
                    activation_logs := activation_logs db |},
                 Returned (Some (reply_extended key e))))) /\
    (forall g data key,
       PyStr.startswith "ext" data = true ->
       PyStr.startswith "extend_" data = false ->
       PyStr.int (PyStr.remove_all "ext" (nth 0 (PyStr.split "_" data) "")) = Some days ->
       PyStr.split "_" data !! 1%nat = Some key ->
       forall row, licenses db !! key = Some row ->
          let e := spec_extended_expiry
                     (extension_clock (expires_at row) t1 t2) (expires_at row) days in
          Z.abs days <= DateTime.max_delta_days ->
          DateTime.dt_min <= e <= DateTime.dt_max ->
          button_callback admin data t1 t2 (db, g) =
            (({| licenses := <[key := Sql.set_expires_at e row]> (licenses db);
                 activation_logs := activation_logs db |}, g),
             Returned (Some (edit_extended days e)))) /\
    (forall current,
       let e := spec_extended_expiry (extension_clock current t1 t2) current days in
       spec_extended_expiry t1 current days <= e <= spec_extended_expiry t2 current days /\
       (current < t1 -> 1 <= days -> t1 < e /\ t2 < e)).
Proof.
  intros db days t1 t2 Hle. split; [|split].
  - intros k a1 rest Hint key res. subst res.
    rewrite (extend_command_cases db k a1 rest days t1 t2 Hint). fold key. split.
    + now intros ->.
    + intros row Hrow e Hdays Hrange. rewrite Hrow.
      rewrite (extension_base_is_max (expires_at row) t1 t2 Hle).
      fold (extension_clock (expires_at row) t1 t2).
      rewrite (add_days_in_range _ days Hdays) by exact Hrange.
      fold (spec_extended_expiry (extension_clock (expires_at row) t1 t2)
              (expires_at row) days). fold e.
      now rewrite (update_expires_at_present db e key row Hrow).
  - intros g data key Hext Hnot Hint Hkey row Hrow e Hdays Hrange.
    rewrite (button_callback_ext db g data days key t1 t2 Hext Hnot Hint Hkey), Hrow.
    rewrite (extension_base_is_max (expires_at row) t1 t2 Hle).
    fold (extension_clock (expires_at row) t1 t2).
    rewrite (add_days_in_range _ days Hdays) by exact Hrange.
    fold (spec_extended_expiry (extension_clock (expires_at row) t1 t2)
            (expires_at row) days). fold e.
    now rewrite (update_expires_at_present db e key row Hrow).
  - intros current e. subst e. unfold spec_extended_expiry, extension_clock.
    assert (0 < DateTime.usec_per_day) by reflexivity.
    destruct (Z.ltb_spec current t1); split; try nia.
Qed.

Lemma extend_sets_expiry_witness :
  let now := t0 + 40 * day in
  let extended :=
    {| licenses :=
         <[key0 := {| device_id := None; user_name := None;
                      telegram_user_id := None; plan := "monthly";
                      activated_at := None; expires_at := t0 + 70 * day;
                      is_active := true; is_used := false; notes := None |}]>
           (licenses db_fresh);
       activation_logs := [] |} in
  extend_command admin ["gnp-abcd-efgh-jklm"; "30"] now now db_fresh
  = (extended, Returned (Some (reply_extended key0 (t0 + 70 * day)))) /\
  button_callback admin "ext30_GNP-ABCD-EFGH-JKLM" now now (db_fresh, rng_from 0)
  = ((extended, rng_from 0), Returned (Some (edit_extended 30 (t0 + 70 * day)))).
Proof.
  intros now extended.
  destruct (extend_sets_expiry db_fresh 30 now now (Z.le_refl now)) as (Hcmd & Hbtn & _).
  destruct (Hcmd "gnp-abcd-efgh-jklm" "30" [] eq_refl) as [_ Hrow].
  specialize (Hbtn (rng_from 0) "ext30_GNP-ABCD-EFGH-JKLM" key0
                eq_refl eq_refl eq_refl eq_refl).
  destruct (licenses db_fresh !! key0) as [row|] eqn:Hr;
    [|vm_compute in Hr; discriminate].
  specialize (Hrow row Hr). specialize (Hbtn row eq_refl).
  vm_compute in Hr. injection Hr as <-.
  split.
  - rewrite Hrow; [reflexivity | vm_compute; discriminate
                  | split; vm_compute; discriminate].
  - rewrite Hbtn; [reflexivity | vm_compute; discriminate
                  | split; vm_compute; discriminate].
Defined.

(** C2 (as stated) fails for amounts the command accepts.  Extending the
    key, expired for ten days, by 0 days leaves its expiry at [now], not
    strictly after it; and extending it by 4000000 days raises
    [OverflowError] (the date would lie beyond year 9999) and changes
    nothing. *)
Lemma extend_by_zero_days_not_after_now :
  let now := t0 + 40 * day in
  let db' := fst (extend_command admin ["gnp-abcd-efgh-jklm"; "0"] now now db_fresh) in
  (expires_at <$> licenses db_fresh !! key0) = Some (t0 + 30 * day) /\
  (expires_at <$> licenses db' !! key0) = Some now /\
  ~ (exists e, (expires_at <$> licenses db' !! key0) = Some e /\ now < e) /\
  extend_command admin ["gnp-abcd-efgh-jklm"; "4000000"] now now db_fresh
  = (db_fresh, Raised OverflowError).
Proof.
  vm_compute. repeat split.
  intros (e & [= <-] & H). discriminate H.
Qed.

(** The button's branch says nothing, and changes nothing, when the key is
    absent. *)
Lemma button_callback_ext_absent_key db g data days key t1 t2 :
  PyStr.startswith "ext" data = true ->
  PyStr.startswith "extend_" data = false ->
  PyStr.int (PyStr.remove_all "ext" (nth 0 (PyStr.split "_" data) "")) = Some days ->
  PyStr.split "_" data !! 1%nat = Some key ->
  licenses db !! key = None ->
  button_callback admin data t1 t2 (db, g) = ((db, g), Returned None).
Proof.
  intros Hext Hnot Hint Hkey Hrow.
  now rewrite (button_callback_ext db g data days key t1 t2 Hext Hnot Hint Hkey), Hrow.
Qed.

(** ** The record invariant *)

Section Invariant.

(** A property [Q] of the two columns [device_id] and [is_used] that the
    unbound state has and that binding a device establishes, for the
    devices [okv] admits. *)
Variables (Q : option string -> bool -> Prop) (okv : json -> Prop).

Hypothesis Q_unbound : Q None false.
Hypothesis Q_bound :
  forall (v : json) (dev : option string),
    Py.truthy v = true -> okv v -> Sql.bind v = Returned dev -> Q dev true.

Implicit Types (db : DB) (r : LicenseRow).

Lemma alter_keeps (f : LicenseRow -> LicenseRow) key (m : gmap string LicenseRow) :
  (forall r, Q (device_id r) (is_used r) -> Q (device_id (f r)) (is_used (f r))) ->
  map_Forall (fun _ r => Q (device_id r) (is_used r)) m ->
  map_Forall (fun _ r => Q (device_id r) (is_used r)) (alter f key m).
Proof.
  intros Hf Hm j r. rewrite lookup_alter. case_decide as Hj.
  - subst j. destruct (m !! key) as [r0|] eqn:Hr0; simpl; [|discriminate].
    intros [= <-]. apply Hf. exact (Hm key r0 Hr0).
  - apply Hm.
Qed.

Lemma init_keeps : columns_hold Q init_database.
Proof. intros k r Hr. unfold init_database in Hr. simpl in Hr. now rewrite lookup_empty in Hr. Qed.

Lemma create_license_keeps db g plan_ days user tg notes_ now :
  columns_hold Q db -> columns_hold Q (fst (fst (create_license db g plan_ days user tg notes_ now))).
Proof.
  intros Hdb. rewrite create_license_cases. cbv zeta.
  destruct (DateTime.add_days now days); [|exact Hdb].
  destruct (licenses db !! _) eqn:Hk; [exact Hdb|].
  unfold columns_hold. simpl. apply map_Forall_insert_2; [|exact Hdb]. exact Q_unbound.
Qed.

Lemma activate_commit_keeps db key v row addr now :
  Py.truthy v = true -> okv v ->
  columns_hold Q db -> columns_hold Q (fst (activate_commit db key v row addr now)).
Proof.
  intros Hv Hok Hdb. destruct (Sql.bind v) as [dev|e] eqn:Hbind.
  - rewrite (activate_commit_bound db key v dev row addr now Hbind).
    unfold columns_hold. cbn [fst licenses]. apply alter_keeps; [|exact Hdb].
    intros r _. exact (Q_bound v dev Hv Hok Hbind).
  - now rewrite (activate_commit_raised db key v e row addr now Hbind).
Qed.

Lemma activate_license_keeps db data addr t1 t2 :
  (forall v, Py.get data "device_id" JNull = Returned v -> okv v) ->
  columns_hold Q db -> columns_hold Q (fst (activate_license db data addr t1 t2)).
Proof.
  intros Hok Hdb. unfold activate_license.
  destruct (activate_check db data t1) as [o|key dev row] eqn:Hc; [exact Hdb|].
  apply activate_check_accept in Hc as (Hreq & Hv & _).
  apply activate_commit_keeps; [exact Hv | | exact Hdb].
  apply Hok. exact (read_request_device data _ _ Hreq).
Qed.

Lemma verify_license_keeps db data addr now :
  columns_hold Q db -> columns_hold Q (fst (verify_license db data addr now)).
Proof. unfold columns_hold. now rewrite verify_frame. Qed.

Lemma deactivate_license_keeps db data addr :
  columns_hold Q db -> columns_hold Q (fst (deactivate_license db data addr)).
Proof.
  intros Hdb. unfold deactivate_license.
  destruct (read_request data) as [[lk v]|e]; [|exact Hdb].
  destruct (Sql.bind_str lk); [|exact Hdb].
  destruct (Sql.bind v) as [dev|e]; [|exact Hdb].
  unfold columns_hold, Sql.update_deactivate. cbn [fst licenses Sql.insert_log Sql.with_licenses].
  apply alter_keeps; [|exact Hdb].
  intros r Hr. destruct (Sql.eq_text _ _); [exact Q_unbound | exact Hr].
Qed.

Lemma update_is_active_keeps db b key :
  columns_hold Q db -> columns_hold Q (fst (Sql.update_is_active db b key)).
Proof.
  intros Hdb. unfold columns_hold, Sql.update_is_active. simpl.
  apply alter_keeps; [|exact Hdb]. intros r. exact id.
Qed.

Lemma update_expires_at_keeps db t key :
  columns_hold Q db -> columns_hold Q (Sql.update_expires_at db t key).
Proof.
  intros Hdb. unfold columns_hold, Sql.update_expires_at. simpl.
  apply alter_keeps; [|exact Hdb]. intros r. exact id.
Qed.

Lemma generate_command_keeps db g user_id args now :
  columns_hold Q db -> columns_hold Q (fst (fst (generate_command user_id args now (db, g)))).
Proof.
  intros Hdb. unfold generate_command, admin_only.
  destruct (bool_decide _); [exact Hdb|].
  match goal with
  | |- context [create_license db g ?p ?d ?u ?t ?n now] =>
      pose proof (create_license_keeps db g p d u t n now Hdb) as H;
      destruct (create_license db g p d u t n now) as [[db' g'] [res|e]]
  end; exact H.
Qed.

Lemma stop_command_keeps db user_id args :
  columns_hold Q db -> columns_hold Q (fst (stop_command user_id args db)).
Proof.
  intros Hdb. unfold stop_command, admin_only.
  destruct (bool_decide _); [exact Hdb|]. destruct args as [|a0 args]; [exact Hdb|].
  pose proof (update_is_active_keeps db false (PyStr.upper a0) Hdb) as H.
  destruct (Sql.update_is_active db false (PyStr.upper a0)) as [db' n].
  destruct (0 <? n)%nat; [exact H | exact Hdb].
Qed.

Lemma activate_command_keeps db user_id args :
  columns_hold Q db -> columns_hold Q (fst (activate_command user_id args db)).
Proof.
  intros Hdb. unfold activate_command, admin_only.
  destruct (bool_decide _); [exact Hdb|]. destruct args as [|a0 args]; [exact Hdb|].
  pose proof (update_is_active_keeps db true (PyStr.upper a0) Hdb) as H.
  destruct (Sql.update_is_active db true (PyStr.upper a0)) as [db' n].
  destruct (0 <? n)%nat; [exact H | exact Hdb].
Qed.

Lemma extend_command_keeps db user_id args t1 t2 :
  columns_hold Q db -> columns_hold Q (fst (extend_command user_id args t1 t2 db)).
Proof.
  intros Hdb. unfold extend_command, admin_only.
  destruct (bool_decide _); [exact Hdb|].
  destruct args as [|a0 [|a1 args]]; try exact Hdb.
  destruct (PyStr.int a1); [|exact Hdb].
  destruct (Sql.select_license db _); [|exact Hdb].
  destruct (DateTime.add_days _ _); [|exact Hdb].
  now apply update_expires_at_keeps.
Qed.

Lemma button_callback_keeps db g user_id data t1 t2 :
  columns_hold Q db -> columns_hold Q (fst (fst (button_callback user_id data t1 t2 (db, g)))).
Proof.
  intros Hdb. unfold button_callback.
  destruct (bool_decide _); [exact Hdb|].
  destruct (String.eqb data "gen_monthly").
  { pose proof (create_license_keeps db g "monthly" 30 None None None t1 Hdb) as H.
    destruct (create_license db g "monthly" 30 None None None t1) as [[db' g'] [res|e]];
      exact H. }
  destruct (String.eqb data "list_codes"); [exact Hdb|].
  destruct (String.eqb data "stats"); [exact Hdb|].
  destruct (PyStr.startswith "toggle_" data).
  { destruct (Sql.select_license db _); [|exact Hdb].
    now apply update_is_active_keeps. }
  destruct (PyStr.startswith "extend_" data); [exact Hdb|].
  destruct (PyStr.startswith "ext" data); [|exact Hdb].
  destruct (PyStr.int _); [|exact Hdb].
  destruct (_ !! 1%nat); [|exact Hdb].
  destruct (Sql.select_license db _); [|exact Hdb].
  destruct (DateTime.add_days _ _); [|exact Hdb].
  now apply update_expires_at_keeps.
Qed.

Lemma apply_op_keeps db o : devices_admitted okv o -> columns_hold Q db -> columns_hold Q (apply_op db o).
Proof.
  intros Ho Hdb. destruct o; cbn [apply_op];
    first [ now apply create_license_keeps
          | now apply activate_license_keeps
          | now apply verify_license_keeps
          | now apply deactivate_license_keeps
          | now apply generate_command_keeps
          | now apply stop_command_keeps
          | now apply activate_command_keeps
          | now apply extend_command_keeps
          | now apply button_callback_keeps ].
Qed.

Lemma run_ops_keeps ops db :
  Forall (devices_admitted okv) ops -> columns_hold Q db -> columns_hold Q (run_ops db ops).
Proof.
  revert db. induction ops as [|o ops IH]; intros db Hops Hdb; [exact Hdb|].
  apply Forall_cons in Hops as [Ho Hops].
  unfold run_ops in *. simpl. apply IH; [exact Hops|]. now apply apply_op_keeps.
Qed.

End Invariant.

Section Consistency.

Implicit Types (db : DB) (r : LicenseRow).

Lemma consistent_bound (v : json) (dev : option string) :
  Py.truthy v = true -> v <> JFloat FNaN -> Sql.bind v = Returned dev ->
  (true = true <-> dev <> None).
Proof. intros Hv Hnan Hbind. split; [intros _; exact (bind_truthy v dev Hv Hnan Hbind) | reflexivity]. Qed.

Lemma consistent_unbound : false = true <-> @None string <> None.
Proof. split; [discriminate | congruence]. Qed.

(** Every operation whose device is not [nan] keeps the record invariant. *)
Lemma apply_op_consistent db o :
  device_not_nan o -> store_consistent db -> store_consistent (apply_op db o).
Proof.
  intros Ho.
  apply (apply_op_keeps (fun dev used => used = true <-> dev <> None) (fun v => v <> JFloat FNaN)
           consistent_unbound consistent_bound).
  exact Ho.
Qed.

Lemma run_ops_consistent ops db :
  Forall device_not_nan ops -> store_consistent db -> store_consistent (run_ops db ops).
Proof.
  intros Hops.
  apply (run_ops_keeps (fun dev used => used = true <-> dev <> None) (fun v => v <> JFloat FNaN)
           consistent_unbound consistent_bound).
  exact Hops.
Qed.

Lemma init_consistent : store_consistent init_database.
Proof. exact (init_keeps (fun dev used => used = true <-> dev <> None)). Qed.

(** Whatever the devices, a record with a device is marked used. *)
Lemma run_ops_bound_used ops (key : string) r :
  licenses (run_ops init_database ops) !! key = Some r ->
  device_id r <> None -> is_used r = true.
Proof.
  intros Hr.
  refine (run_ops_keeps (fun dev used => dev <> None -> used = true) (fun _ => True)
            _ _ ops init_database _ _ key r Hr).
  - congruence.
  - reflexivity.
  - apply Forall_forall. intros o _. destruct o; cbn; auto.
  - exact (init_keeps (fun dev used => dev <> None -> used = true)).
Qed.

Lemma activate_commit_consistent db key v row addr now :
  Py.truthy v = true -> v <> JFloat FNaN ->
  store_consistent db ->
  store_consistent (fst (activate_commit db key v row addr now)).
Proof.
  exact (activate_commit_keeps (fun dev used => used = true <-> dev <> None) (fun v => v <> JFloat FNaN)
           consistent_bound db key v row addr now).
Qed.

(** The invariant also holds at every point of a run in which requests
    overlap: whatever the schedule, a thread that has passed the checks
    carries a device, and its write sets the device and the flag at once. *)
Lemma sched_step_consistent s ev :
  store_consistent (Threads.store s) /\ Forall Threads.carries_device (Threads.pool s) ->
  store_consistent (Threads.store (Threads.sched_step s ev)) /\
  Forall Threads.carries_device (Threads.pool (Threads.sched_step s ev)).
Proof.
  intros [Hdb Hpool]. unfold Threads.sched_step.
  destruct (Threads.pool s !! fst ev) as [th|] eqn:Hth; [|auto].
  assert (Threads.carries_device th) as Hok.
  { rewrite Forall_lookup in Hpool. exact (Hpool _ _ Hth). }
  destruct th as [data addr|key dev row addr|o]; cbn [Threads.step].
  - destruct (activate_check (Threads.store s) data (snd ev)) as [o|k dv r] eqn:Hc;
      simpl; (split; [exact Hdb|]); (apply Forall_insert; [exact Hpool|]); simpl.
    + exact I.
    + apply activate_check_accept in Hc as (Hreq & Hv & _). split; [exact Hv|].
      intros ->. apply Hok. exact (read_request_device data _ _ Hreq).
  - destruct Hok as [Hv Hnan].
    pose proof (activate_commit_consistent _ key dev row addr (snd ev) Hv Hnan Hdb) as H.
    destruct (activate_commit (Threads.store s) key dev row addr (snd ev))
      as [db' o]. simpl in *. split; [exact H|].
    apply Forall_insert; [exact Hpool | exact I].
  - simpl. split; [exact Hdb|]. apply Forall_insert; [exact Hpool | exact I].
Qed.

Lemma run_threads_consistent sched s :
  store_consistent (Threads.store s) -> Forall Threads.carries_device (Threads.pool s) ->
  store_consistent (Threads.store (Threads.run s sched)).
Proof.
  intros Hdb Hpool. assert (H := conj Hdb Hpool). clear Hdb Hpool.
  revert s H. induction sched as [|ev sched IH]; intros s H; [apply H|].
  unfold Threads.run in *. simpl. apply IH. now apply sched_step_consistent.
Qed.

End Consistency.

Section BindingColumns.

Implicit Types (db : DB) (row r : LicenseRow) (k d key addr : string).

(** Of the values that count as true, [nan] is the only one SQLite stores
    as [NULL]. *)
Lemma bind_null (v : json) (dev : option string) :
  Py.truthy v = true -> Sql.bind v = Returned dev ->
  (dev = None <-> v = JFloat FNaN).
Proof.
  intros Hv Hbind. split.
  - intros ->. destruct v as [|b|n|[|nz t]|[s|]|l|l]; cbn in Hv, Hbind;
      try discriminate; try reflexivity.
    destruct (_ && _); discriminate.
  - intros ->. cbn in Hbind. congruence.
Qed.

(** No refusal of [activate_check] carries the status 200. *)
Lemma activate_check_reject db data now o :
  activate_check db data now = Reject o -> http_status o <> 200.
Proof.
  unfold activate_check.
  destruct (read_request data) as [[lk v]|e]; [|intros [= <-]; discriminate].
  destruct (negb (Py.str_truthy lk) || negb (Py.truthy v)); [intros [= <-]; discriminate|].
  destruct (Sql.bind_str lk) as [key|e]; [|intros [= <-]; discriminate].
  destruct (Sql.select_license db key) as [row|]; [|intros [= <-]; discriminate].
  repeat (match goal with |- context [if ?b then _ else _] => destruct b end;
          try (intros [= <-]; discriminate)).
Qed.

(** An activation answered 200 has written the device and the flag. *)
Lemma activate_license_binds db data addr t1 t2 db' resp :
  activate_license db data addr t1 t2 = (db', Returned resp) ->
  status resp = 200 ->
  exists key v dev row0,
    read_request data = Returned (Text key, v) /\ Py.truthy v = true /\
    Sql.bind v = Returned dev /\ licenses db !! key = Some row0 /\
    licenses db' !! key = Some (Sql.set_binding dev true (Some t2) row0).
Proof.
  unfold activate_license. intros Hrun Hstatus.
  destruct (activate_check db data t1) as [o|key v row0] eqn:Hc.
  - injection Hrun as _ ->. apply activate_check_reject in Hc. now elim Hc.
  - apply activate_check_accept in Hc as (Hreq & Hv & Hrow).
    destruct (Sql.bind v) as [dev|e] eqn:Hbind.
    + rewrite (activate_commit_bound db key v dev row0 addr t2 Hbind) in Hrun.
      injection Hrun as <- _. exists key, v, dev, row0.
      repeat (split; [assumption|]). cbn [licenses]. now rewrite lookup_alter_eq, Hrow.
    + rewrite (activate_commit_raised db key v e row0 addr t2 Hbind) in Hrun.
      discriminate Hrun.
Qed.

(** [deactivate_license] writes the two columns only to clear them. *)
Lemma deactivate_license_rows db data addr key r :
  licenses db !! key = Some r ->
  exists r', licenses (fst (deactivate_license db data addr)) !! key = Some r' /\
             ((device_id r' = None /\ is_used r' = false) \/ r' = r).
Proof.
  intros Hr. unfold deactivate_license.
  destruct (read_request data) as [[lk v]|e]; [|eauto].
  destruct (Sql.bind_str lk) as [k|e]; [|eauto].
  destruct (Sql.bind v) as [dev|e]; [|eauto].
  cbn [fst licenses Sql.insert_log Sql.update_deactivate Sql.with_licenses].
  destruct (decide (k = key)) as [->|Hne].
  - rewrite lookup_alter_eq, Hr. cbn [fmap option_fmap option_map].
    destruct (Sql.eq_text _ _); eauto.
  - rewrite lookup_alter_ne by exact Hne. eauto.
Qed.

(** The device that is bound releases the key. *)
Lemma deactivate_license_clears db k d addr r :
  licenses db !! PyStr.upper k = Some r -> device_id r = Some d ->
  exists r', licenses (fst (deactivate_license db (request k d) addr)) !! PyStr.upper k
             = Some r' /\ device_id r' = None /\ is_used r' = false.
Proof.
  intros Hr Hd.
  rewrite (deactivate_license_served db (request k d) addr (PyStr.upper k)
             (JStr (Text d)) (Some d) (read_request_request k d) eq_refl).
  cbn [fst licenses Sql.insert_log Sql.update_deactivate Sql.with_licenses].
  rewrite lookup_alter_eq, Hr. cbn [fmap option_fmap option_map].
  rewrite Hd. cbn [Sql.eq_text]. rewrite String.eqb_refl. eauto.
Qed.

Lemma create_license_unbound db g plan_ days user tg notes_ now db' g' c :
  create_license db g plan_ days user tg notes_ now = (db', g', Returned c) ->
  exists row, licenses db' !! c_license_key c = Some row /\
              device_id row = None /\ is_used row = false.
Proof.
  rewrite create_license_cases. cbv zeta.
  destruct (DateTime.add_days now days); [|discriminate].
  destruct (licenses db !! _); [discriminate|].
  intros [= <- _ <-]. cbn [licenses c_license_key]. rewrite lookup_insert_eq. eauto.
Qed.

End BindingColumns.

(** C10 (as amended).  Creation leaves [device_id] and [is_used] unset.
    An activation that is answered 200 sets [is_used] and stores in
    [device_id] what SQLite makes of the device of the request: a text,
    unless the device is the number [nan], which is stored as [NULL].  A
    deactivation clears both columns of the record it matches and writes
    neither column of any other record.  So every operation other than an
    activation with the device [nan] preserves the record invariant that
    [is_used] is set exactly when a device is bound, and the invariant
    holds in every store reached from the empty database without such an
    activation; and in every reachable store whatever, no record has a
    device while it is not marked used. *)
Theorem used_iff_device_bound :
  (forall (db : DB) (g : Rng) (plan_ : string) (days : Z) (user : option string)
          (tg : option Z) (notes_ : option string) (now : Z)
          (db' : DB) (g' : Rng) (c : created),
      create_license db g plan_ days user tg notes_ now = (db', g', Returned c) ->
      exists row, licenses db' !! c_license_key c = Some row /\
                  device_id row = None /\ is_used row = false) /\
  (forall (db : DB) (data : json) (addr : string) (t1 t2 : Z)
          (db' : DB) (resp : response),
      activate_license db data addr t1 t2 = (db', Returned resp) ->
      status resp = 200 ->
      exists (key : string) (v : json) (row : LicenseRow),
        read_request data = Returned (Text key, v) /\
        licenses db' !! key = Some row /\
        is_used row = true /\
        Sql.bind v = Returned (device_id row) /\
        (device_id row = None <-> v = JFloat FNaN)) /\
  (forall (db : DB) (data : json) (addr : string) (key : string) (r : LicenseRow),
      licenses db !! key = Some r ->
      exists r', licenses (fst (deactivate_license db data addr)) !! key = Some r' /\
                 ((device_id r' = None /\ is_used r' = false) \/ r' = r)) /\
  (forall (db : DB) (k d addr : string) (r : LicenseRow),
      licenses db !! PyStr.upper k = Some r -> device_id r = Some d ->
      exists r', licenses (fst (deactivate_license db (request k d) addr)) !! PyStr.upper k
                 = Some r' /\ device_id r' = None /\ is_used r' = false) /\
  (forall (db : DB) (o : op),
      device_not_nan o -> store_consistent db -> store_consistent (apply_op db o)) /\
  (forall (ops : list op), Forall device_not_nan ops ->
     forall (key : string) (row : LicenseRow),
       licenses (run_ops init_database ops) !! key = Some row ->
       (is_used row = true <-> device_id row <> None)) /\
  (forall (db : DB), reachable db ->
     forall (key : string) (row : LicenseRow),
       licenses db !! key = Some row ->
       device_id row <> None -> is_used row = true).
Proof.
  split; [exact create_license_unbound|]. split.
  { intros db data addr t1 t2 db' resp Hrun Hstatus.
    destruct (activate_license_binds db data addr t1 t2 db' resp Hrun Hstatus)
      as (key & v & dev & row0 & Hreq & Hv & Hbind & _ & Hrow).
    exists key, v, (Sql.set_binding dev true (Some t2) row0).
    split; [exact Hreq|]. split; [exact Hrow|]. split; [reflexivity|].
    split; [exact Hbind|]. exact (bind_null v dev Hv Hbind). }
  split; [exact deactivate_license_rows|].
  split; [exact deactivate_license_clears|].
  split; [exact apply_op_consistent|]. split.
  - intros ops Hops key row Hrow.
    exact (run_ops_consistent ops init_database Hops init_consistent key row Hrow).
  - intros db [ops ->] key row Hrow. exact (run_ops_bound_used ops key row Hrow).
Qed.

Lemma used_iff_device_bound_witness :
  exists row, licenses db_bound !! key0 = Some row /\
              (is_used row = true <-> device_id row <> None).
Proof.
  destruct (licenses db_bound !! key0) as [row|] eqn:Hrow;
    [|vm_compute in Hrow; discriminate].
  exists row. split; [reflexivity|].
  destruct used_iff_device_bound as (_ & _ & _ & _ & _ & Hreach & _).
  apply (Hreach
           [op_create (rng_from 0) "monthly" 30 None None None t0;
            op_activate (request key0 "device-A") "10.0.0.1" (t0 + second) (t0 + second)])
    with (key := key0); [|exact Hrow].
  repeat constructor. intros v Hv. cbn in Hv. injection Hv as <-. discriminate.
Defined.

(** C10 (as stated) fails: the number [nan] is a device [activate] lets
    through ([not nan] is false) and SQLite stores as [NULL].  Activating
    the fresh key with it is answered 200 and leaves the record marked
    used with no device. *)
Lemma nan_device_marks_used_without_device :
  let data := JObject [("license_key", JStr (Text key0)); ("device_id", JFloat FNaN)] in
  let res := activate_license db_fresh data "10.0.0.1" (t0 + second) (t0 + second) in
  http_status (snd res) = 200 /\
  (is_used <$> licenses (fst res) !! key0) = Some true /\
  (device_id <$> licenses (fst res) !! key0) = Some None /\
  reachable (fst res) /\
  ~ store_consistent (fst res).
Proof.
  intros data res.
  assert ((is_used <$> licenses (fst res) !! key0) = Some true) as Hused
    by (vm_compute; reflexivity).
  assert ((device_id <$> licenses (fst res) !! key0) = Some None) as Hdev
    by (vm_compute; reflexivity).
  split; [vm_compute; reflexivity|]. split; [exact Hused|]. split; [exact Hdev|]. split.
  - exists [op_create (rng_from 0) "monthly" 30 None None None t0;
            op_activate data "10.0.0.1" (t0 + second) (t0 + second)].
    reflexivity.
  - intros Hcons. destruct (licenses (fst res) !! key0) as [row|] eqn:Hrow;
      [|discriminate Hused].
    injection Hused as Hused. injection Hdev as Hdev.
    destruct (Hcons key0 row Hrow) as [Hbound _]. now apply Hbound.
Qed.

(** ** Overlapping activations *)

Section Overlap.

Import Threads.

Implicit Types (db : DB) (row r : LicenseRow) (s : system).

Lemma complete_shapes sched :
  complete sched ->
  exists t1 t2 t3 t4 a b c d,
    sched = [(a, t1); (b, t2); (c, t3); (d, t4)] /\
    ([a; b; c; d] = [0; 0; 1; 1] \/ [a; b; c; d] = [0; 1; 0; 1] \/
     [a; b; c; d] = [0; 1; 1; 0] \/ [a; b; c; d] = [1; 0; 0; 1] \/
     [a; b; c; d] = [1; 0; 1; 0] \/ [a; b; c; d] = [1; 1; 0; 0])%nat.
Proof.
  unfold complete. intros Hp.
  pose proof (Permutation_length Hp) as Hlen.
  destruct sched as [|[a t1] [|[b t2] [|[c t3] [|[d t4] [|? ?]]]]]; try discriminate.
  exists t1, t2, t3, t4, a, b, c, d. split; [reflexivity|].
  simpl in Hp.
  assert (forall x, In x [a; b; c; d] -> x = 0 \/ x = 1)%nat as Hin.
  { intros x Hx. apply (Permutation_in _ Hp) in Hx. simpl in Hx. lia. }
  assert (a + (b + (c + (d + 0))) = 2)%nat as Hsum.
  { change (sum_list [a; b; c; d] = sum_list [0; 0; 1; 1])%nat. now rewrite Hp. }
  destruct (Hin a) as [-> | ->]; [simpl; auto|..];
    (destruct (Hin b) as [-> | ->]; [simpl; auto|..]);
    (destruct (Hin c) as [-> | ->]; [simpl; auto|..]);
    (destruct (Hin d) as [-> | ->]; [simpl; auto|..]);
    simpl in Hsum; try discriminate Hsum; tauto.
Qed.

(** The check of a request against a key whose record is active and not
    expired: refused exactly when the key is used by another device. *)
Lemma activate_check_live db k d now r :
  k <> "" -> d <> "" ->
  licenses db !! PyStr.upper k = Some r ->
  is_active r = true -> now <= expires_at r ->
  activate_check db (request k d) now =
  if is_used r && Py.ne (device_id r) (JStr (Text d))
  then Reject (jsonify_status (activate_failure msg_other_device) 403)
  else Accept (PyStr.upper k) (JStr (Text d)) r.
Proof.
  intros Hk Hd Hr Hact Hexp. rewrite (activate_check_request db k d now Hk Hd), Hr, Hact.
  simpl. destruct (Z.gtb_spec now (expires_at r)); [lia | reflexivity].
Qed.

Lemma activate_commit_lookup db key (d : string) row addr now r :
  licenses db !! key = Some r ->
  licenses (fst (activate_commit db key (JStr (Text d)) row addr now)) !! key
  = Some (Sql.set_binding (Some d) true (Some now) r).
Proof. intros Hr. rewrite activate_commit_store. simpl. now rewrite lookup_alter_eq, Hr. Qed.

Lemma sched_step_check s i data addr now :
  pool s !! i = Some (Waiting data addr) ->
  sched_step s (i, now) =
  {| store := store s;
     pool := <[i := match activate_check (store s) data now with
                    | Reject o => Finished o
                    | Accept key dev row => Checked key dev row addr
                    end]> (pool s) |}.
Proof.
  intros H. unfold sched_step. simpl. rewrite H. simpl.
  now destruct (activate_check (store s) data now).
Qed.

Lemma sched_step_commit s i key dev row addr now :
  pool s !! i = Some (Checked key dev row addr) ->
  sched_step s (i, now) =
  {| store := fst (activate_commit (store s) key dev row addr now);
     pool := <[i := Finished (snd (activate_commit (store s) key dev row addr now))]>
               (pool s) |}.
Proof.
  intros H. unfold sched_step. cbn [fst snd]. rewrite H. cbn [step].
  now destruct (activate_commit (store s) key dev row addr now).
Qed.

Lemma sched_step_finished s i o now :
  pool s !! i = Some (Finished o) ->
  sched_step s (i, now) =
  {| store := store s; pool := <[i := Finished o]> (pool s) |}.
Proof. intros H. unfold sched_step. simpl. now rewrite H. Qed.

Lemma activate_commit_response db key (d : string) row addr now :
  snd (activate_commit db key (JStr (Text d)) row addr now) =
  Returned {| status := 200;
              body := activate_success msg_activated (expires_at row)
                        (plan row) (user_name row) |}.
Proof. reflexivity. Qed.

End Overlap.

(** One access of the innermost pending step of a run. *)
Ltac sys_step :=
  match goal with
  | |- context [Threads.sched_step {| Threads.store := ?X; Threads.pool := ?P |} (?i, ?t)] =>
      first
        [ rewrite (sched_step_check {| Threads.store := X; Threads.pool := P |}
                     i _ _ t eq_refl)
        | rewrite (sched_step_commit {| Threads.store := X; Threads.pool := P |}
                     i _ _ _ _ t eq_refl)
        | rewrite (sched_step_finished {| Threads.store := X; Threads.pool := P |}
                     i _ t eq_refl) ];
      cbn [Threads.store Threads.pool insert list_insert]
  end.

(** The record of the key in the store reached so far. *)
Ltac sys_lookup Hrow :=
  repeat first [exact Hrow | apply activate_commit_lookup].

(** The check of a pending request against that record. *)
Ltac sys_check Hrow :=
  match goal with
  | |- context [activate_check ?X (request ?k ?d) ?t] =>
      erewrite (activate_check_live X k d t);
      [ | assumption | assumption | sys_lookup Hrow
        | cbn [is_active Sql.set_binding]; assumption
        | cbn [expires_at Sql.set_binding]; assumption ];
      cbn [is_used device_id Sql.set_binding]
  end.


(** The handler is the thread that nothing interrupts. *)
Lemma activate_license_as_thread (db : DB) (data : json) (addr : string)
  (t1 t2 : Z) :
  Threads.run {| Threads.store := db; Threads.pool := [Threads.Waiting data addr] |}
    [(0%nat, t1); (0%nat, t2)]
  = {| Threads.store := fst (activate_license db data addr t1 t2);
       Threads.pool := [Threads.Finished (snd (activate_license db data addr t1 t2))] |}.
Proof.
  unfold Threads.run, activate_license. cbn [foldl]. sys_step.
  destruct (activate_check db data t1) as [o|key dev row]; sys_step; reflexivity.
Qed.

(** The outcomes of the six schedules of two activations of one key. *)
Lemma two_activations_outcomes :
  forall (db : DB) (k dA dB addrA addrB : string) (row : LicenseRow)
         (sched : list (nat * Z)),
    k <> "" -> dA <> "" -> dB <> "" -> dA <> dB ->
    licenses db !! PyStr.upper k = Some row ->
    is_active row = true -> is_used row = false ->
    Threads.complete sched ->
    Forall (fun ev => snd ev <= expires_at row) sched ->
    let s := Threads.run
               (Threads.two_requests db (request k dA) addrA (request k dB) addrB)
               sched in
    let ok := Returned {| status := 200;
                          body := activate_success msg_activated (expires_at row)
                                    (plan row) (user_name row) |} in
    let refused := Returned {| status := 403;
                               body := activate_failure msg_other_device |} in
    let bound := device_id <$> licenses (Threads.store s) !! PyStr.upper k in
    (Threads.result_of s 0 = Some ok \/ Threads.result_of s 1 = Some ok) /\
    (map fst sched = [0; 0; 1; 1]%nat ->
     Threads.result_of s 0 = Some ok /\ Threads.result_of s 1 = Some refused /\
     bound = Some (Some dA)) /\
    (map fst sched = [1; 1; 0; 0]%nat ->
     Threads.result_of s 1 = Some ok /\ Threads.result_of s 0 = Some refused /\
     bound = Some (Some dB)) /\
    (~ Threads.serial sched ->
     Threads.result_of s 0 = Some ok /\ Threads.result_of s 1 = Some ok /\
     (last (map fst sched) = Some 0%nat -> bound = Some (Some dA)) /\
     (last (map fst sched) = Some 1%nat -> bound = Some (Some dB))) /\
    (bound = Some (Some dA) \/ bound = Some (Some dB)) /\
    (is_used <$> licenses (Threads.store s) !! PyStr.upper k) = Some true.
Proof.
  intros db k dA dB addrA addrB row sched Hk HdA HdB Hne Hrow Hact Hused Hc Htimes
         s ok refused bound.
  destruct (complete_shapes sched Hc) as (t1 & t2 & t3 & t4 & a & b & c & d & -> & Hshape).
  apply Forall_cons in Htimes as [Ht1 Htimes].
  apply Forall_cons in Htimes as [Ht2 Htimes].
  apply Forall_cons in Htimes as [Ht3 Htimes].
  apply Forall_cons in Htimes as [Ht4 _].
  cbn [snd] in Ht1, Ht2, Ht3, Ht4.
  assert (Py.ne (Some dA) (JStr (Text dB)) = true) as HAB
    by (apply py_ne_other; congruence).
  assert (Py.ne (Some dB) (JStr (Text dA)) = true) as HBA
    by (apply py_ne_other; congruence).
  subst s bound. unfold Threads.serial.
  destruct Hshape as [H|[H|[H|[H|[H|H]]]]]; injection H as -> -> -> ->;
    unfold Threads.run, Threads.two_requests; cbn [foldl map fst last];
    repeat (sys_step;
            try (sys_check Hrow;
                 rewrite ?Hused, ?HAB, ?HBA, ?py_ne_same; cbn [andb]));
    unfold Threads.result_of; cbn [Threads.pool Threads.store lookup list_lookup];
    rewrite ?activate_commit_response;
    repeat (erewrite activate_commit_lookup; [|sys_lookup Hrow]);
    cbn [fmap option_fmap option_map device_id is_used Sql.set_binding];
    subst ok refused; unfold jsonify_status.
  all: repeat split; auto; try discriminate;
    solve [exfalso; match goal with H : ~ (_ \/ _) |- _ => apply H; auto end].
Qed.

(** C1 (as amended).  Two activations of the same active, unexpired and
    unused key by two distinct devices, each making its two database
    accesses (read, then write) at times not past the expiry, in any
    order.  At least one of them succeeds.  When they do not overlap, the
    first succeeds and binds its device, and the second is refused with
    403 (used on another device), the first device staying bound.  When
    they overlap (the second reads before the first has written), both
    succeed, and the device of the one that wrote last stays bound.  In
    every case the final record is bound to one of the two devices with
    [is_used] set, and after every step of the run a store that satisfied
    the record invariant still satisfies it. *)
Theorem two_activations_one_key :
  forall (db : DB) (k dA dB addrA addrB : string) (row : LicenseRow)
         (sched : list (nat * Z)),
    k <> "" -> dA <> "" -> dB <> "" -> dA <> dB ->
    licenses db !! PyStr.upper k = Some row ->
    is_active row = true -> is_used row = false ->
    Threads.complete sched ->
    Forall (fun ev => snd ev <= expires_at row) sched ->
    let s := Threads.run
               (Threads.two_requests db (request k dA) addrA (request k dB) addrB)
               sched in
    let ok := Returned {| status := 200;
                          body := activate_success msg_activated (expires_at row)
                                    (plan row) (user_name row) |} in
    let refused := Returned {| status := 403;
                               body := activate_failure msg_other_device |} in
    let bound := device_id <$> licenses (Threads.store s) !! PyStr.upper k in
    (Threads.result_of s 0 = Some ok \/ Threads.result_of s 1 = Some ok) /\
    (map fst sched = [0; 0; 1; 1]%nat ->
     Threads.result_of s 0 = Some ok /\ Threads.result_of s 1 = Some refused /\
     bound = Some (Some dA)) /\
    (map fst sched = [1; 1; 0; 0]%nat ->
     Threads.result_of s 1 = Some ok /\ Threads.result_of s 0 = Some refused /\
     bound = Some (Some dB)) /\
    (~ Threads.serial sched ->
     Threads.result_of s 0 = Some ok /\ Threads.result_of s 1 = Some ok /\
     (last (map fst sched) = Some 0%nat -> bound = Some (Some dA)) /\
     (last (map fst sched) = Some 1%nat -> bound = Some (Some dB))) /\
    (bound = Some (Some dA) \/ bound = Some (Some dB)) /\
    (is_used <$> licenses (Threads.store s) !! PyStr.upper k) = Some true /\
    (store_consistent db ->
     forall n, store_consistent
       (Threads.store
          (Threads.run
             (Threads.two_requests db (request k dA) addrA (request k dB) addrB)
             (take n sched)))).
Proof.
  intros db k dA dB addrA addrB row sched Hk HdA HdB Hne Hrow Hact Hused Hc Htimes
         s ok refused bound.
  destruct (two_activations_outcomes db k dA dB addrA addrB row sched
              Hk HdA HdB Hne Hrow Hact Hused Hc Htimes)
    as (H1 & H2 & H3 & H4 & H5 & H6).
  repeat (split; [assumption|]).
  intros Hdb n. apply run_threads_consistent; [exact Hdb|].
  constructor; [cbn; discriminate|]. constructor; [cbn; discriminate|]. constructor.
Qed.

Lemma two_activations_one_key_witness :
  let row0 := {| device_id := None; user_name := None; telegram_user_id := None;
                 plan := "monthly"; activated_at := None;
                 expires_at := t0 + 30 * day; is_active := true;
                 is_used := false; notes := None |} in
  let s := Threads.run
             (Threads.two_requests db_fresh (request key0 "device-A") "10.0.0.1"
                (request key0 "device-B") "10.0.0.2")
             [(0%nat, t0 + second); (0%nat, t0 + second);
              (1%nat, t0 + 2 * second); (1%nat, t0 + 2 * second)] in
  licenses db_fresh !! key0 = Some row0 /\
  Threads.result_of s 1
  = Some (Returned {| status := 403; body := activate_failure msg_other_device |}) /\
  (device_id <$> licenses (Threads.store s) !! key0) = Some (Some "device-A").
Proof.
  intros row0 s.
  assert (licenses db_fresh !! PyStr.upper key0 = Some row0) as Hrow
    by (vm_compute; reflexivity).
  split; [exact Hrow|].
  destruct (two_activations_one_key db_fresh key0 "device-A" "device-B"
              "10.0.0.1" "10.0.0.2" row0
              [(0%nat, t0 + second); (0%nat, t0 + second);
               (1%nat, t0 + 2 * second); (1%nat, t0 + 2 * second)])
    as (_ & Hserial & _);
    [discriminate | discriminate | discriminate | discriminate | exact Hrow
    | reflexivity | reflexivity | unfold Threads.complete; simpl; reflexivity
    | repeat constructor; vm_compute; discriminate |].
  destruct (Hserial eq_refl) as (_ & H403 & Hdev). split; [exact H403 | exact Hdev].
Defined.

(** C1 (as stated) fails: when both requests read the record before either
    writes, both succeed; the log has two activations and the device of the
    later writer replaces the other. *)
Lemma overlapping_activations_both_succeed :
  let s := Threads.run
             (Threads.two_requests db_fresh (request key0 "device-A") "10.0.0.1"
                (request key0 "device-B") "10.0.0.2")
             [(0%nat, t0 + second); (1%nat, t0 + second);
              (0%nat, t0 + 2 * second); (1%nat, t0 + 2 * second)] in
  (is_used <$> licenses db_fresh !! key0) = Some false /\
  (http_status <$> Threads.result_of s 0) = Some 200 /\
  (http_status <$> Threads.result_of s 1) = Some 200 /\
  (device_id <$> licenses (Threads.store s) !! key0) = Some (Some "device-B") /\
  map log_device_id (activation_logs (Threads.store s))
  = [Some "device-A"; Some "device-B"].
Proof. vm_compute. repeat split. Qed.

(** * Further properties of the code *)

(** ** The administrator check *)

(** X1.  A user who is not in [ADMIN_IDS] is turned away by every command
    and by every button, whatever the arguments: the store and the random
    source are left as they were, and the only answer is the refusal. *)
Theorem non_admin_is_rejected :
  forall (user_id : Z) (args : list string) (data : string) (t1 t2 : Z)
         (db : DB) (g : Rng),
    user_id <> admin ->
    generate_command user_id args t1 (db, g)
      = ((db, g), Returned (Some reply_unauthorized)) /\
    stop_command user_id args db = (db, Returned (Some reply_unauthorized)) /\
    activate_command user_id args db = (db, Returned (Some reply_unauthorized)) /\
    extend_command user_id args t1 t2 db = (db, Returned (Some reply_unauthorized)) /\
    button_callback user_id data t1 t2 (db, g)
      = ((db, g), Returned (Some edit_unauthorized)).
Proof.
  intros user_id args data t1 t2 db g Hne.
  assert (bool_decide (user_id ∉ ADMIN_IDS) = true) as Hadm.
  { apply bool_decide_eq_true_2. unfold ADMIN_IDS. intros Hin.
    apply list_elem_of_singleton in Hin. now apply Hne. }
  unfold generate_command, stop_command, activate_command, extend_command,
    button_callback, admin_only.
  rewrite Hadm. repeat split.
Qed.

Lemma non_admin_is_rejected_witness :
  stop_command 42 ["GNP-ABCD-EFGH-JKLM"] db_bound
  = (db_bound, Returned (Some reply_unauthorized)).
Proof.
  destruct (non_admin_is_rejected 42 ["GNP-ABCD-EFGH-JKLM"] "" 0 0 db_bound (rng_from 0))
    as (_ & H & _); [discriminate | exact H].
Defined.

(** ** What each handler may write *)

Section Shapes.

Implicit Types (db : DB) (g : Rng).

Lemma activate_license_change db data addr t1 t2 :
  client_change (licenses db) (licenses (fst (activate_license db data addr t1 t2))).
Proof.
  unfold activate_license.
  destruct (activate_check db data t1) as [o|key v row]; [now left|].
  destruct (Sql.bind v) as [dev|e] eqn:Hbind.
  - rewrite (activate_commit_bound db key v dev row addr t2 Hbind).
    right. exists (Sql.set_binding dev true (Some t2)), key. split; [reflexivity|].
    intros r. right. eauto.
  - rewrite (activate_commit_raised db key v e row addr t2 Hbind). now left.
Qed.

Lemma verify_license_change db data addr now :
  client_change (licenses db) (licenses (fst (verify_license db data addr now))).
Proof. left. apply verify_frame. Qed.

Lemma deactivate_license_change db data addr :
  client_change (licenses db) (licenses (fst (deactivate_license db data addr))).
Proof.
  unfold deactivate_license.
  destruct (read_request data) as [[lk v]|e]; [|now left].
  destruct (Sql.bind_str lk) as [key|e]; [|now left].
  destruct (Sql.bind v) as [dev|e]; [|now left].
  right. eexists _, _. split; [reflexivity|].
  intros r. cbv beta. destruct (Sql.eq_text _ _); [right; eauto | now left].
Qed.

Lemma create_license_change db g plan_ days user tg notes_ now :
  admin_change (licenses db)
    (licenses (fst (fst (create_license db g plan_ days user tg notes_ now)))).
Proof.
  rewrite create_license_cases. cbv zeta.
  destruct (DateTime.add_days now days); [|now left].
  destruct (licenses db !! _) eqn:Hk; [now left|].
  right. right. eexists g, _. split; [exact Hk | reflexivity].
Qed.

Lemma update_is_active_change db b key :
  admin_change (licenses db) (licenses (fst (Sql.update_is_active db b key))).
Proof.
  right. left. exists (Sql.set_is_active b), key. split; [reflexivity|].
  intros r. left. eauto.
Qed.

Lemma update_expires_at_change db t key :
  admin_change (licenses db) (licenses (Sql.update_expires_at db t key)).
Proof.
  right. left. exists (Sql.set_expires_at t), key. split; [reflexivity|].
  intros r. right. eauto.
Qed.

Lemma generate_command_change db g user_id args now :
  admin_change (licenses db)
    (licenses (fst (fst (generate_command user_id args now (db, g))))).
Proof.
  unfold generate_command, admin_only.
  destruct (bool_decide _); [now left|].
  match goal with
  | |- context [create_license db g ?p ?d ?u ?t ?n now] =>
      pose proof (create_license_change db g p d u t n now) as H;
      destruct (create_license db g p d u t n now) as [[db' g'] [res|e]]
  end; exact H.
Qed.

Lemma stop_command_change db user_id args :
  admin_change (licenses db) (licenses (fst (stop_command user_id args db))).
Proof.
  unfold stop_command, admin_only.
  destruct (bool_decide _); [now left|]. destruct args as [|a0 args]; [now left|].
  pose proof (update_is_active_change db false (PyStr.upper a0)) as H.
  destruct (Sql.update_is_active db false (PyStr.upper a0)) as [db' n].
  destruct (0 <? n)%nat; [exact H | now left].
Qed.

Lemma activate_command_change db user_id args :
  admin_change (licenses db) (licenses (fst (activate_command user_id args db))).
Proof.
  unfold activate_command, admin_only.
  destruct (bool_decide _); [now left|]. destruct args as [|a0 args]; [now left|].
  pose proof (update_is_active_change db true (PyStr.upper a0)) as H.
  destruct (Sql.update_is_active db true (PyStr.upper a0)) as [db' n].
  destruct (0 <? n)%nat; [exact H | now left].
Qed.

Lemma extend_command_change db user_id args t1 t2 :
  admin_change (licenses db) (licenses (fst (extend_command user_id args t1 t2 db))).
Proof.
  unfold extend_command, admin_only.
  destruct (bool_decide _); [now left|].
  destruct args as [|a0 [|a1 args]]; try now left.
  destruct (PyStr.int a1); [|now left].
  destruct (Sql.select_license db _); [|now left].
  destruct (DateTime.add_days _ _); [|now left].
  apply update_expires_at_change.
Qed.

Lemma button_callback_change db g user_id data t1 t2 :
  admin_change (licenses db)
    (licenses (fst (fst (button_callback user_id data t1 t2 (db, g))))).
Proof.
  unfold button_callback.
  destruct (bool_decide _); [now left|].
  destruct (String.eqb data "gen_monthly").
  { pose proof (create_license_change db g "monthly" 30 None None None t1) as H.
    destruct (create_license db g "monthly" 30 None None None t1) as [[db' g'] [res|e]];
      exact H. }
  destruct (String.eqb data "list_codes"); [now left|].
  destruct (String.eqb data "stats"); [now left|].
  destruct (PyStr.startswith "toggle_" data).
  { destruct (Sql.select_license db _); [|now left].
    apply update_is_active_change. }
  destruct (PyStr.startswith "extend_" data); [now left|].
  destruct (PyStr.startswith "ext" data); [|now left].
  destruct (PyStr.int _); [|now left].
  destruct (_ !! 1%nat); [|now left].
  destruct (Sql.select_license db _); [|now left].
  destruct (DateTime.add_days _ _); [|now left].
  apply update_expires_at_change.
Qed.

(** Every operation is a change of one of the two kinds. *)
Lemma apply_op_change db o :
  client_change (licenses db) (licenses (apply_op db o)) \/
  admin_change (licenses db) (licenses (apply_op db o)).
Proof.
  destruct o; cbn [apply_op];
    first [ left; first [ apply activate_license_change
                        | apply verify_license_change
                        | apply deactivate_license_change ]
          | right; first [ apply create_license_change
                         | apply generate_command_change
                         | apply stop_command_change
                         | apply activate_command_change
                         | apply extend_command_change
                         | apply button_callback_change ] ].
Qed.

(** A relation between the old and the new state of a record that each
    rewriting of the kind respects holds across the change, and no record
    disappears. *)
Lemma client_change_rowwise (R : LicenseRow -> LicenseRow -> Prop) m m' :
  (forall r, R r r) ->
  (forall r d u a, R r (Sql.set_binding d u a r)) ->
  client_change m m' ->
  forall key row, m !! key = Some row ->
    exists row', m' !! key = Some row' /\ R row row'.
Proof.
  intros Hrefl Hbind [->|(f & k & -> & Hf)] key row Hrow; [eauto|].
  rewrite lookup_alter. case_decide as Hk; [|eauto].
  subst k. rewrite Hrow. simpl. eexists; split; [reflexivity|].
  destruct (Hf row) as [->|(d & u & a & ->)]; auto.
Qed.

Lemma admin_change_rowwise (R : LicenseRow -> LicenseRow -> Prop) m m' :
  (forall r, R r r) ->
  (forall r b, R r (Sql.set_is_active b r)) ->
  (forall r t, R r (Sql.set_expires_at t r)) ->
  admin_change m m' ->
  forall key row, m !! key = Some row ->
    exists row', m' !! key = Some row' /\ R row row'.
Proof.
  intros Hrefl Hact Hexp [->|[(f & k & -> & Hf)|(g & r0 & Hnew & ->)]] key row Hrow;
    [eauto| |].
  - rewrite lookup_alter. case_decide as Hk; [|eauto].
    subst k. rewrite Hrow. simpl. eexists; split; [reflexivity|].
    destruct (Hf row) as [(b & ->)|(t & ->)]; auto.
  - rewrite lookup_insert_ne; [eauto|]. intros Heq. congruence.
Qed.

End Shapes.

(** ** Records persist; who may write which column *)

Section Columns.

Implicit Types (db : DB) (r : LicenseRow).

Lemma same_label_refl r : same_label r r.
Proof. repeat split. Qed.

Lemma same_label_trans r1 r2 r3 :
  same_label r1 r2 -> same_label r2 r3 -> same_label r1 r3.
Proof. unfold same_label. intros (-> & -> & -> & ->) (-> & -> & -> & ->). repeat split. Qed.

Lemma apply_op_label db o key row :
  licenses db !! key = Some row ->
  exists row', licenses (apply_op db o) !! key = Some row' /\ same_label row row'.
Proof.
  intros Hrow. destruct (apply_op_change db o) as [H|H].
  - apply (client_change_rowwise same_label _ _ same_label_refl) with (key := key) (row := row)
      in H; [exact H | intros; repeat split | exact Hrow].
  - apply (admin_change_rowwise same_label _ _ same_label_refl) with (key := key) (row := row)
      in H; [exact H | intros; repeat split | intros; repeat split | exact Hrow].
Qed.

End Columns.

(** X2.  No operation of the service deletes a record or rewrites the
    columns set at creation: a key that is in the store stays in it through
    any sequence of operations, with its plan, owner name, creator id and
    notes unchanged. *)
Theorem records_persist_with_their_labels :
  forall (ops : list op) (db : DB) (key : string) (row : LicenseRow),
    licenses db !! key = Some row ->
    exists row', licenses (run_ops db ops) !! key = Some row' /\ same_label row row'.
Proof.
  induction ops as [|o ops IH]; intros db key row Hrow.
  - exists row. split; [exact Hrow | apply same_label_refl].
  - destruct (apply_op_label db o key row Hrow) as (r1 & Hr1 & Hl1).
    destruct (IH (apply_op db o) key r1 Hr1) as (r2 & Hr2 & Hl2).
    exists r2. split; [exact Hr2 | eapply same_label_trans; eauto].
Qed.

Lemma records_persist_with_their_labels_witness :
  exists row',
    licenses (run_ops db_fresh
                [op_activate (request key0 "device-A") "10.0.0.1" (t0 + second) (t0 + second);
                 op_stop_command admin [key0];
                 op_extend_command admin [key0; "30"] (t0 + day) (t0 + day)])
      !! key0 = Some row' /\
    plan row' = "monthly".
Proof.
  destruct (licenses db_fresh !! key0) as [row|] eqn:Hrow;
    [|vm_compute in Hrow; discriminate].
  destruct (records_persist_with_their_labels
              [op_activate (request key0 "device-A") "10.0.0.1" (t0 + second) (t0 + second);
               op_stop_command admin [key0];
               op_extend_command admin [key0; "30"] (t0 + day) (t0 + day)]
              db_fresh key0 row Hrow) as (row' & Hrow' & Hplan & _).
  exists row'. split; [exact Hrow'|].
  rewrite Hplan. vm_compute in Hrow. now injection Hrow as <-.
Defined.

(** X3.  The client API cannot change what the administrator controls:
    [activate], [verify] and [deactivate] leave [is_active] and
    [expires_at] of every record as they were. *)
Theorem client_api_keeps_terms :
  forall (db : DB) (data : json) (addr : string) (t1 t2 : Z)
         (key : string) (row : LicenseRow),
    licenses db !! key = Some row ->
    (exists row', licenses (fst (activate_license db data addr t1 t2)) !! key = Some row'
                  /\ same_terms row row') /\
    (exists row', licenses (fst (verify_license db data addr t1)) !! key = Some row'
                  /\ same_terms row row') /\
    (exists row', licenses (fst (deactivate_license db data addr)) !! key = Some row'
                  /\ same_terms row row').
Proof.
  intros db data addr t1 t2 key row Hrow.
  assert (forall m', client_change (licenses db) m' ->
            exists row', m' !! key = Some row' /\ same_terms row row') as H.
  { intros m' Hc.
    apply (client_change_rowwise same_terms (licenses db) m'); auto;
      intros; repeat split. }
  repeat split; apply H;
    [apply activate_license_change | apply verify_license_change
    | apply deactivate_license_change].
Qed.

Lemma client_api_keeps_terms_witness :
  exists row',
    licenses (fst (deactivate_license db_bound (request key0 "device-A") "10.0.0.1"))
      !! key0 = Some row' /\
    expires_at row' = t0 + 30 * day.
Proof.
  destruct (licenses db_bound !! key0) as [row|] eqn:Hrow;
    [|vm_compute in Hrow; discriminate].
  destruct (client_api_keeps_terms db_bound (request key0 "device-A") "10.0.0.1" 0 0
              key0 row Hrow) as (_ & _ & row' & Hrow' & _ & Hexp).
  exists row'. split; [exact Hrow'|].
  rewrite Hexp. vm_compute in Hrow. now injection Hrow as <-.
Defined.

(** X4.  The bot cannot change the binding of a key: whoever calls them
    and with whatever arguments, the commands and the buttons leave
    [device_id], [is_used] and [activated_at] of every record as they
    were. *)
Theorem bot_keeps_binding :
  forall (db : DB) (g : Rng) (user_id : Z) (args : list string) (data : string)
         (t1 t2 : Z) (key : string) (row : LicenseRow),
    licenses db !! key = Some row ->
    (exists row', licenses (fst (fst (generate_command user_id args t1 (db, g)))) !! key
                  = Some row' /\ same_binding row row') /\
    (exists row', licenses (fst (stop_command user_id args db)) !! key = Some row'
                  /\ same_binding row row') /\
    (exists row', licenses (fst (activate_command user_id args db)) !! key = Some row'
                  /\ same_binding row row') /\
    (exists row', licenses (fst (extend_command user_id args t1 t2 db)) !! key = Some row'
                  /\ same_binding row row') /\
    (exists row', licenses (fst (fst (button_callback user_id data t1 t2 (db, g)))) !! key
                  = Some row' /\ same_binding row row').
Proof.
  intros db g user_id args data t1 t2 key row Hrow.
  assert (forall m', admin_change (licenses db) m' ->
            exists row', m' !! key = Some row' /\ same_binding row row') as H.
  { intros m' Hc.
    apply (admin_change_rowwise same_binding (licenses db) m'); auto;
      intros; repeat split. }
  repeat split; apply H;
    [apply generate_command_change | apply stop_command_change
    | apply activate_command_change | apply extend_command_change
    | apply button_callback_change].
Qed.

Lemma bot_keeps_binding_witness :
  exists row',
    licenses (fst (stop_command admin [key0] db_bound)) !! key0 = Some row' /\
    device_id row' = Some "device-A".
Proof.
  destruct (licenses db_bound !! key0) as [row|] eqn:Hrow;
    [|vm_compute in Hrow; discriminate].
  destruct (bot_keeps_binding db_bound (rng_from 0) admin [key0] "" 0 0 key0 row Hrow)
    as (_ & (row' & Hrow' & Hdev & _) & _).
  exists row'. split; [exact Hrow'|].
  rewrite Hdev. vm_compute in Hrow. now injection Hrow as <-.
Defined.

(** ** The activation log *)

Section Log.

Implicit Types (db : DB) (g : Rng).

Lemma activate_license_log db data addr t1 t2 :
  exists l, activation_logs (fst (activate_license db data addr t1 t2))
            = (activation_logs db ++ l)%list /\ (length l <= 1)%nat.
Proof.
  unfold activate_license, activate_commit.
  destruct (activate_check db data t1) as [o|key v row];
    [|destruct (Sql.bind v) as [dev|e]];
    first [ exists []; split; [now rewrite app_nil_r | simpl; lia]
          | eexists [_]; split; [reflexivity | simpl; lia] ].
Qed.

Lemma verify_license_log db data addr now :
  exists l, activation_logs (fst (verify_license db data addr now))
            = (activation_logs db ++ l)%list /\ (length l <= 1)%nat.
Proof.
  unfold verify_license.
  destruct (read_request data) as [[lk v]|e];
    [|exists []; split; [now rewrite app_nil_r | simpl; lia]].
  destruct (Sql.bind_str lk);
    [|exists []; split; [now rewrite app_nil_r | simpl; lia]].
  destruct (Sql.select_license db _);
    [|exists []; split; [now rewrite app_nil_r | simpl; lia]].
  repeat (match goal with |- context [if ?b then _ else _] => destruct b end);
    try destruct (Sql.bind v);
    first [ exists []; split; [now rewrite app_nil_r | simpl; lia]
          | eexists [_]; split; [reflexivity | simpl; lia] ].
Qed.

Lemma deactivate_license_log db data addr :
  exists l, activation_logs (fst (deactivate_license db data addr))
            = (activation_logs db ++ l)%list /\ (length l <= 1)%nat.
Proof.
  unfold deactivate_license.
  destruct (read_request data) as [[lk v]|e];
    [destruct (Sql.bind_str lk); [destruct (Sql.bind v)|]|];
    first [ exists []; split; [now rewrite app_nil_r | simpl; lia]
          | eexists [_]; split; [reflexivity | simpl; lia] ].
Qed.

Lemma create_license_log db g plan_ days user tg notes_ now :
  activation_logs (fst (fst (create_license db g plan_ days user tg notes_ now)))
  = activation_logs db.
Proof.
  rewrite create_license_cases. cbv zeta.
  destruct (DateTime.add_days now days); [|reflexivity].
  destruct (licenses db !! _); reflexivity.
Qed.

Lemma generate_command_log db g user_id args now :
  activation_logs (fst (fst (generate_command user_id args now (db, g))))
  = activation_logs db.
Proof.
  unfold generate_command, admin_only.
  destruct (bool_decide _); [reflexivity|].
  match goal with
  | |- context [create_license db g ?p ?d ?u ?t ?n now] =>
      pose proof (create_license_log db g p d u t n now) as H;
      destruct (create_license db g p d u t n now) as [[db' g'] [res|e]]
  end; exact H.
Qed.

Lemma stop_command_log db user_id args :
  activation_logs (fst (stop_command user_id args db)) = activation_logs db.
Proof.
  unfold stop_command, admin_only.
  destruct (bool_decide _); [reflexivity|]. destruct args as [|a0 args]; [reflexivity|].
  unfold Sql.update_is_active. destruct (licenses db !! _); reflexivity.
Qed.

Lemma activate_command_log db user_id args :
  activation_logs (fst (activate_command user_id args db)) = activation_logs db.
Proof.
  unfold activate_command, admin_only.
  destruct (bool_decide _); [reflexivity|]. destruct args as [|a0 args]; [reflexivity|].
  unfold Sql.update_is_active. destruct (licenses db !! _); reflexivity.
Qed.

Lemma extend_command_log db user_id args t1 t2 :
  activation_logs (fst (extend_command user_id args t1 t2 db)) = activation_logs db.
Proof.
  unfold extend_command, admin_only.
  destruct (bool_decide _); [reflexivity|].
  destruct args as [|a0 [|a1 args]]; try reflexivity.
  destruct (PyStr.int a1); [|reflexivity].
  destruct (Sql.select_license db _); [|reflexivity].
  destruct (DateTime.add_days _ _); reflexivity.
Qed.

Lemma button_callback_log db g user_id data t1 t2 :
  activation_logs (fst (fst (button_callback user_id data t1 t2 (db, g))))
  = activation_logs db.
Proof.
  unfold button_callback.
  destruct (bool_decide _); [reflexivity|].
  destruct (String.eqb data "gen_monthly").
  { pose proof (create_license_log db g "monthly" 30 None None None t1) as H.
    destruct (create_license db g "monthly" 30 None None None t1) as [[db' g'] [res|e]];
      exact H. }
  destruct (String.eqb data "list_codes"); [reflexivity|].
  destruct (String.eqb data "stats"); [reflexivity|].
  destruct (PyStr.startswith "toggle_" data).
  { destruct (Sql.select_license db _); reflexivity. }
  destruct (PyStr.startswith "extend_" data); [reflexivity|].
  destruct (PyStr.startswith "ext" data); [|reflexivity].
  destruct (PyStr.int _); [|reflexivity].
  destruct (_ !! 1%nat); [|reflexivity].
  destruct (Sql.select_license db _); [|reflexivity].
  destruct (DateTime.add_days _ _); reflexivity.
Qed.

Lemma apply_op_log db o :
  exists l, activation_logs (apply_op db o) = (activation_logs db ++ l)%list /\
            (length l <= 1)%nat.
Proof.
  destruct o; cbn [apply_op];
    first [ apply activate_license_log | apply verify_license_log
          | apply deactivate_license_log
          | exists []; split; [rewrite app_nil_r | simpl; lia];
            first [ apply create_license_log | apply generate_command_log
                  | apply stop_command_log | apply activate_command_log
                  | apply extend_command_log | apply button_callback_log ] ].
Qed.

End Log.

(** X5.  The activation log is append-only, and only the client API
    writes it.  Through any sequence of operations the rows already logged
    stay in place, in order, and at most one row is added per operation;
    the commands and buttons of the bot add none. *)
Theorem log_is_append_only :
  (forall (ops : list op) (db : DB),
      exists l, activation_logs (run_ops db ops) = (activation_logs db ++ l)%list /\
                (length l <= length ops)%nat) /\
  (forall (db : DB) (g : Rng) (user_id : Z) (args : list string) (data : string)
          (t1 t2 : Z),
      activation_logs (fst (fst (generate_command user_id args t1 (db, g))))
        = activation_logs db /\
      activation_logs (fst (stop_command user_id args db)) = activation_logs db /\
      activation_logs (fst (activate_command user_id args db)) = activation_logs db /\
      activation_logs (fst (extend_command user_id args t1 t2 db)) = activation_logs db /\
      activation_logs (fst (fst (button_callback user_id data t1 t2 (db, g))))
        = activation_logs db).
Proof.
  split.
  - induction ops as [|o ops IH]; intros db.
    + exists []. split; [now rewrite app_nil_r | simpl; lia].
    + destruct (apply_op_log db o) as (l1 & H1 & Hl1).
      destruct (IH (apply_op db o)) as (l2 & H2 & Hl2).
      exists (l1 ++ l2)%list. split.
      * unfold run_ops in *. simpl. rewrite H2, H1. now rewrite app_assoc.
      * rewrite length_app. simpl. lia.
  - intros. repeat split;
      [apply generate_command_log | apply stop_command_log | apply activate_command_log
      | apply extend_command_log | apply button_callback_log].
Qed.

(** ** The keys of the store *)

Section Keys.

Implicit Types (db : DB) (g : Rng).

Lemma change_keys (m m' : gmap string LicenseRow) key :
  client_change m m' \/ admin_change m m' ->
  is_Some (m' !! key) ->
  is_Some (m !! key) \/ exists g, key = fst (generate_license_code g).
Proof.
  intros [[->|(f & k & -> & _)]|[->|[(f & k & -> & _)|(g & r & _ & ->)]]] Hkey; auto.
  - left. rewrite lookup_alter in Hkey. case_decide; [subst k|]; auto.
    destruct (m !! key); [eauto | now destruct Hkey].
  - left. rewrite lookup_alter in Hkey. case_decide; [subst k|]; auto.
    destruct (m !! key); [eauto | now destruct Hkey].
  - destruct (decide (fst (generate_license_code g) = key)) as [<-|Hne]; [eauto|].
    left. now rewrite lookup_insert_ne in Hkey.
Qed.

Lemma run_ops_keys ops db key :
  is_Some (licenses (run_ops db ops) !! key) ->
  is_Some (licenses db !! key) \/ exists g, key = fst (generate_license_code g).
Proof.
  revert db. induction ops as [|o ops IH]; intros db Hkey; [now left|].
  unfold run_ops in *. simpl in Hkey.
  destruct (IH _ Hkey) as [H|H]; [|now right].
  exact (change_keys _ _ key (apply_op_change db o) H).
Qed.

Lemma upper_char_fixed c :
  (is_upper_alnum c || Ascii.eqb c "-")%bool = true -> PyStr.upper_char c = c.
Proof.
  destruct c as [[] [] [] [] [] [] [] []]; intros H;
    solve [reflexivity | discriminate H].
Qed.

Lemma upper_app s1 s2 : PyStr.upper (s1 ++ s2) = PyStr.upper s1 ++ PyStr.upper s2.
Proof. induction s1 as [|c s1 IH]; simpl; [reflexivity | now rewrite IH]. Qed.

Lemma upper_segment ok s :
  (forall c, ok c = true -> is_upper_alnum c = true) ->
  is_segment ok s -> PyStr.upper s = s.
Proof.
  intros Hok [_ Hs]. induction s as [|c s IH]; [reflexivity|].
  simpl in Hs. inversion Hs as [|? ? Hc Hs']; subst.
  simpl. rewrite IH by exact Hs'. rewrite upper_char_fixed; [reflexivity|].
  now rewrite (Hok c Hc).
Qed.

Lemma upper_formatted ok key :
  (forall c, ok c = true -> is_upper_alnum c = true) ->
  key_format ok 3 key -> PyStr.upper key = key.
Proof.
  intros Hok H. apply key_format_3 in H as (a & b & c & -> & Ha & Hb & Hc).
  rewrite !upper_app.
  rewrite (upper_segment ok a Hok Ha), (upper_segment ok b Hok Hb),
    (upper_segment ok c Hok Hc). reflexivity.
Qed.

Lemma generate_license_code_format g :
  key_format unambiguous 3 (fst (generate_license_code g)).
Proof.
  unfold generate_license_code.
  pose proof (prefixed_key_format unambiguous (list_ascii_of_string chars) 3 g) as H.
  destruct (random_segments _ 3 g) as [segs g']. apply H; [discriminate|].
  vm_compute. reflexivity.
Qed.

Lemma unambiguous_upper_alnum c : unambiguous c = true -> is_upper_alnum c = true.
Proof. unfold unambiguous. now intros [H _]%andb_true_iff. Qed.

Lemma upper_char_idempotent c :
  PyStr.upper_char (PyStr.upper_char c) = PyStr.upper_char c.
Proof. destruct c as [[] [] [] [] [] [] [] []]; reflexivity. Qed.

Lemma upper_idempotent s : PyStr.upper (PyStr.upper s) = PyStr.upper s.
Proof.
  induction s as [|c s IH]; simpl; [reflexivity|].
  now rewrite upper_char_idempotent, IH.
Qed.

End Keys.

(** X6.  Every key of a store the service can reach came out of
    [generate_license_code]: it has the format GNP-XXXX-XXXX-XXXX over the
    alphabet without 0, O, 1 and I, and it is its own upper-case form, so
    the upper-casing of the client API and of the commands finds it. *)
Theorem stored_keys_are_well_formed :
  forall (db : DB), reachable db ->
    forall (key : string) (row : LicenseRow),
      licenses db !! key = Some row ->
      key_format unambiguous 3 key /\ PyStr.upper key = key.
Proof.
  intros db [ops ->] key row Hrow.
  destruct (run_ops_keys ops init_database key) as [H|[g ->]].
  - rewrite Hrow. eauto.
  - unfold init_database in H. simpl in H. rewrite lookup_empty in H. now destruct H.
  - pose proof (generate_license_code_format g) as Hf. split; [exact Hf|].
    exact (upper_formatted unambiguous _ unambiguous_upper_alnum Hf).
Qed.

Lemma stored_keys_are_well_formed_witness :
  key_format unambiguous 3 key0 /\ PyStr.upper key0 = key0.
Proof.
  destruct (licenses db_bound !! key0) as [row|] eqn:Hrow;
    [|vm_compute in Hrow; discriminate].
  apply (stored_keys_are_well_formed db_bound) with (row := row); [|exact Hrow].
  exists [op_create (rng_from 0) "monthly" 30 None None None t0;
          op_activate (request key0 "device-A") "10.0.0.1" (t0 + second) (t0 + second)].
  reflexivity.
Defined.

(** X7.  The client API does not tell the letter case of a key: a request
    that spells the key in any mix of cases is handled exactly as the one
    that spells it in upper case and carries the same [device_id] (of any
    type, or none), by [activate], [verify] and [deactivate] alike. *)
Theorem client_api_ignores_key_case :
  forall (db : DB) (k : string) (as_sent in_upper : list (string * json))
         (addr : string) (t1 t2 : Z),
    Py.member as_sent "license_key" = Some (JStr (Text k)) ->
    Py.member in_upper "license_key" = Some (JStr (Text (PyStr.upper k))) ->
    Py.member in_upper "device_id" = Py.member as_sent "device_id" ->
    activate_license db (JObject as_sent) addr t1 t2
      = activate_license db (JObject in_upper) addr t1 t2 /\
    verify_license db (JObject as_sent) addr t1
      = verify_license db (JObject in_upper) addr t1 /\
    deactivate_license db (JObject as_sent) addr
      = deactivate_license db (JObject in_upper) addr.
Proof.
  intros db k as_sent in_upper addr t1 t2 Hk Hku Hdev.
  assert (read_request (JObject in_upper) = read_request (JObject as_sent)) as Hreq.
  { unfold read_request. cbn [Py.get]. rewrite Hk, Hku, Hdev. cbn [Py.upper].
    now rewrite upper_idempotent. }
  unfold activate_license, activate_check, verify_license, deactivate_license.
  rewrite Hreq. repeat split.
Qed.

Lemma client_api_ignores_key_case_witness :
  verify_license db_bound (request "gnp-abcd-EFGH-jklm" "device-A") "10.0.0.1" (t0 + day)
  = verify_license db_bound (request key0 "device-A") "10.0.0.1" (t0 + day).
Proof.
  destruct (client_api_ignores_key_case db_bound "gnp-abcd-EFGH-jklm"
              [("license_key", JStr (Text "gnp-abcd-EFGH-jklm"));
               ("device_id", JStr (Text "device-A"))]
              [("license_key", JStr (Text key0)); ("device_id", JStr (Text "device-A"))]
              "10.0.0.1" (t0 + day) (t0 + day)) as (_ & H & _);
    [reflexivity | reflexivity | reflexivity | exact H].
Defined.

(** ** Releasing, rebinding, verifying *)

Section Binding.

Implicit Types (db : DB) (row r : LicenseRow) (k d key addr : string).

Lemma deactivate_license_bound db k d addr row :
  licenses db !! PyStr.upper k = Some row -> device_id row = Some d ->
  fst (deactivate_license db (request k d) addr) =
  {| licenses := <[PyStr.upper k := released row]> (licenses db);
     activation_logs :=
       (activation_logs db ++ [log_entry (PyStr.upper k) (Some d) act_deactivate addr])%list |}.
Proof.
  intros Hrow Hdev.
  rewrite (deactivate_license_served db (request k d) addr (PyStr.upper k)
             (JStr (Text d)) (Some d) (read_request_request k d) eq_refl).
  unfold Sql.insert_log, Sql.update_deactivate, Sql.with_licenses, log_entry.
  cbn [fst licenses activation_logs]. f_equal.
  rewrite (alter_present _ _ _ _ Hrow). rewrite Hdev. cbn [Sql.eq_text].
  now rewrite String.eqb_refl.
Qed.

Lemma deactivate_license_other db k d addr row :
  licenses db !! PyStr.upper k = Some row -> device_id row <> Some d ->
  licenses (fst (deactivate_license db (request k d) addr)) = licenses db.
Proof.
  intros Hrow Hdev.
  rewrite (deactivate_license_served db (request k d) addr (PyStr.upper k)
             (JStr (Text d)) (Some d) (read_request_request k d) eq_refl).
  unfold Sql.insert_log, Sql.update_deactivate, Sql.with_licenses.
  cbn [fst licenses].
  rewrite (alter_present _ _ _ _ Hrow).
  assert (Sql.eq_text (device_id row) (Some d) = false) as ->.
  { destruct (device_id row) as [d'|]; [|reflexivity]. cbn [Sql.eq_text].
    destruct (String.eqb_spec d' d); [congruence | reflexivity]. }
  now apply insert_id.
Qed.

Lemma verify_license_cases db data key v addr now :
  read_request data = Returned (Text key, v) ->
  verify_license db data addr now =
  match licenses db !! key with
  | None => (db, Returned {| status := 200; body := verify_inactive msg_not_found |})
  | Some row =>
      if Py.ne (device_id row) v then
        (db, Returned {| status := 200; body := verify_inactive msg_device_not_allowed |})
      else if negb (is_active row) then
        (db, Returned {| status := 200; body := verify_inactive msg_stopped |})
      else if now >? expires_at row then
        (db, Returned {| status := 200; body := verify_inactive msg_validity_ended |})
      else
        match Sql.bind v with
        | Raised e => (db, Raised e)
        | Returned dev =>
            (Sql.insert_log db key dev act_verify addr,
             Returned {| status := 200;
                         body := verify_active (expires_at row) (plan row) |})
        end
  end.
Proof. intros H. unfold verify_license. now rewrite H. Qed.

(** Only the text of the bound device equals it. *)
Lemma py_ne_value d (v : json) : v <> JStr (Text d) -> Py.ne (Some d) v = true.
Proof.
  destruct v as [| | | |[s|]| |]; cbn; try reflexivity. intros H.
  destruct (String.eqb_spec d s) as [->|]; [congruence | reflexivity].
Qed.

End Binding.

(** X8.  A license can be moved to another device: once the bound device
    has deactivated an active, unexpired key, an activation by any other
    device succeeds and binds that device; the log shows the release and
    the new activation. *)
Theorem rebind_after_deactivate :
  forall (db : DB) (k dA dB addrA addrB : string) (row : LicenseRow) (t1 t2 : Z),
    k <> "" -> dB <> "" ->
    licenses db !! PyStr.upper k = Some row ->
    device_id row = Some dA ->
    is_active row = true -> t1 <= expires_at row ->
    activate_license (fst (deactivate_license db (request k dA) addrA))
      (request k dB) addrB t1 t2
    = ({| licenses := <[PyStr.upper k := bound_to dB t2 (released row)]> (licenses db);
          activation_logs :=
            (activation_logs db ++
               [log_entry (PyStr.upper k) (Some dA) act_deactivate addrA;
                log_entry (PyStr.upper k) (Some dB) act_activate addrB])%list |},
       Returned {| status := 200;
                   body := activate_success msg_activated (expires_at row)
                             (plan row) (user_name row) |}).
Proof.
  intros db k dA dB addrA addrB row t1 t2 Hk HdB Hrow Hdev Hact Hexp.
  rewrite (deactivate_license_bound db k dA addrA row Hrow Hdev).
  match goal with |- activate_license ?db1 _ _ _ _ = _ => set (db1' := db1) end.
  destruct (activate_license_outcomes db1' k dB addrB t1 t2 Hk HdB) as [_ H].
  destruct (H (released row)) as (_ & _ & _ & Hok).
  { subst db1'. cbn [licenses]. apply lookup_insert_eq. }
  rewrite Hok; [|exact Hact|exact Hexp|now left].
  subst db1'. cbn [licenses activation_logs]. rewrite insert_insert_eq.
  now rewrite <- app_assoc.
Qed.

Lemma rebind_after_deactivate_witness :
  (device_id <$> licenses
     (fst (activate_license
             (fst (deactivate_license db_bound (request key0 "device-A") "10.0.0.1"))
             (request key0 "device-B") "10.0.0.2" (t0 + day) (t0 + day))) !! key0)
  = Some (Some "device-B").
Proof.
  destruct (licenses db_bound !! PyStr.upper key0) as [row|] eqn:Hrow;
    [|vm_compute in Hrow; discriminate].
  assert (Hrow' := Hrow). vm_compute in Hrow'. injection Hrow' as Hrow'.
  rewrite (rebind_after_deactivate db_bound key0 "device-A" "device-B"
             "10.0.0.1" "10.0.0.2" row (t0 + day) (t0 + day));
    [ | discriminate | discriminate | exact Hrow | now subst row | now subst row
      | subst row; vm_compute; discriminate ].
  cbn [fst licenses]. change (PyStr.upper key0) with key0.
  now rewrite lookup_insert_eq.
Defined.

(** X9.  A device cannot release or take over a key bound to another
    device: its [deactivate] leaves the table as it was, and its [activate]
    afterwards is still refused with 403, the first device staying bound. *)
Theorem other_device_cannot_take_over :
  forall (db : DB) (k dA dB addrB : string) (row : LicenseRow) (t1 t2 : Z),
    k <> "" -> dB <> "" -> dA <> dB ->
    licenses db !! PyStr.upper k = Some row ->
    device_id row = Some dA -> is_used row = true ->
    is_active row = true -> t1 <= expires_at row ->
    let db1 := fst (deactivate_license db (request k dB) addrB) in
    licenses db1 = licenses db /\
    activate_license db1 (request k dB) addrB t1 t2
    = (db1, Returned {| status := 403; body := activate_failure msg_other_device |}).
Proof.
  intros db k dA dB addrB row t1 t2 Hk HdB Hne Hrow Hdev Hused Hact Hexp db1.
  assert (licenses db1 = licenses db) as Hsame.
  { apply (deactivate_license_other db k dB addrB row Hrow). congruence. }
  split; [exact Hsame|].
  destruct (activate_license_outcomes db1 k dB addrB t1 t2 Hk HdB) as [_ H].
  destruct (H row) as (_ & _ & H403 & _); [now rewrite Hsame|].
  apply H403; auto. congruence.
Qed.

Lemma other_device_cannot_take_over_witness :
  snd (activate_license
         (fst (deactivate_license db_bound (request key0 "device-B") "10.0.0.2"))
         (request key0 "device-B") "10.0.0.2" (t0 + day) (t0 + day))
  = Returned {| status := 403; body := activate_failure msg_other_device |}.
Proof.
  destruct (licenses db_bound !! PyStr.upper key0) as [row|] eqn:Hrow;
    [|vm_compute in Hrow; discriminate].
  assert (Hrow' := Hrow). vm_compute in Hrow'. injection Hrow' as Hrow'.
  destruct (other_device_cannot_take_over db_bound key0 "device-A" "device-B"
              "10.0.0.2" row (t0 + day) (t0 + day)) as [_ ->];
    [ discriminate | discriminate | discriminate | exact Hrow | now subst row
    | now subst row | now subst row | subst row; vm_compute; discriminate | reflexivity ].
Defined.

(** X10.  After a successful activation, [verify] recognises the device
    that activated and no other: until [expires_at] it answers the
    activating device with [is_active: true], the plan and the expiry and
    logs the check; it answers any other device, and a request without
    one or with a value that is not this text, with the refusal of the
    device; and past [expires_at] it answers the activating device that the
    validity has ended. *)
Theorem verify_after_activate :
  forall (db : DB) (k d addr : string) (t1 t2 : Z),
    k <> "" -> d <> "" ->
    http_status (snd (activate_license db (request k d) addr t1 t2)) = 200 ->
    let db' := fst (activate_license db (request k d) addr t1 t2) in
    exists row,
      licenses db !! PyStr.upper k = Some row /\
      (forall addr' t, t <= expires_at row ->
         verify_license db' (request k d) addr' t
         = (Sql.insert_log db' (PyStr.upper k) (Some d) act_verify addr',
            Returned {| status := 200;
                        body := verify_active (expires_at row) (plan row) |})) /\
      (forall data v addr' t,
         read_request data = Returned (Text (PyStr.upper k), v) ->
         v <> JStr (Text d) ->
         verify_license db' data addr' t
         = (db', Returned {| status := 200;
                             body := verify_inactive msg_device_not_allowed |})) /\
      (forall addr' t, expires_at row < t ->
         verify_license db' (request k d) addr' t
         = (db', Returned {| status := 200;
                             body := verify_inactive msg_validity_ended |})).
Proof.
  intros db k d addr t1 t2 Hk Hd Hok db'.
  destruct (activate_license_outcomes db k d addr t1 t2 Hk Hd) as [Hnone Hsome].
  destruct (licenses db !! PyStr.upper k) as [row|] eqn:Hrow;
    [|rewrite (Hnone eq_refl) in Hok; discriminate Hok].
  destruct (Hsome row eq_refl) as (H423 & H410 & H403 & H200).
  destruct (is_active row) eqn:Hact;
    [|rewrite (H423 eq_refl) in Hok; discriminate Hok].
  destruct (Z.lt_ge_cases (expires_at row) t1) as [Hlt|Hge];
    [rewrite (H410 eq_refl Hlt) in Hok; discriminate Hok|].
  assert (is_used row = false \/ device_id row = Some d) as Hfree.
  { destruct (is_used row) eqn:Hu; [|now left].
    destruct (decide (device_id row = Some d)) as [He|Hn]; [now right|].
    rewrite (H403 eq_refl Hge eq_refl Hn) in Hok. discriminate Hok. }
  exists row. split; [reflexivity|].
  assert (licenses db' !! PyStr.upper k = Some (bound_to d t2 row)) as Hnew.
  { subst db'. rewrite (H200 eq_refl Hge Hfree). cbn [fst licenses].
    apply lookup_insert_eq. }
  repeat split.
  - intros addr' t Ht.
    rewrite (verify_license_cases db' _ _ _ addr' t (read_request_request k d)), Hnew.
    cbn [device_id is_active expires_at plan bound_to Sql.set_binding Sql.bind].
    rewrite py_ne_same, Hact. cbn [negb].
    destruct (Z.gtb_spec t (expires_at row)); [lia | reflexivity].
  - intros data v addr' t Hreq Hdev.
    rewrite (verify_license_cases db' data _ v addr' t Hreq), Hnew.
    cbn [device_id bound_to Sql.set_binding].
    now rewrite (py_ne_value d v Hdev).
  - intros addr' t Ht.
    rewrite (verify_license_cases db' _ _ _ addr' t (read_request_request k d)), Hnew.
    cbn [device_id is_active expires_at plan bound_to Sql.set_binding].
    rewrite py_ne_same, Hact. cbn [negb].
    destruct (Z.gtb_spec t (expires_at row)); [reflexivity | lia].
Qed.

Lemma verify_after_activate_witness :
  snd (verify_license db_bound (request key0 "device-A") "10.0.0.1" (t0 + day))
  = Returned {| status := 200; body := verify_active (t0 + 30 * day) "monthly" |}.
Proof.
  destruct (verify_after_activate db_fresh key0 "device-A" "10.0.0.1"
              (t0 + second) (t0 + second)) as (row & Hrow & Hsame & _);
    [discriminate | discriminate | reflexivity |].
  vm_compute in Hrow. injection Hrow as <-.
  unfold db_bound. rewrite Hsame; [reflexivity | vm_compute; discriminate].
Defined.

(** ** Suspension *)

Section Suspension.

Implicit Types (db : DB) (row r : LicenseRow).

Lemma stop_command_cases db k rest :
  stop_command admin (k :: rest) db =
  match licenses db !! PyStr.upper k with
  | Some row =>
      ({| licenses := <[PyStr.upper k := Sql.set_is_active false row]> (licenses db);
          activation_logs := activation_logs db |},
       Returned (Some (reply_stopped (PyStr.upper k))))
  | None => (db, Returned (Some reply_not_found))
  end.
Proof.
  unfold stop_command, admin_only. rewrite admin_is_admin.
  unfold Sql.update_is_active, Sql.with_licenses.
  destruct (licenses db !! PyStr.upper k) as [row|] eqn:Hrow; cbn [Nat.ltb Nat.leb].
  - now rewrite (alter_present _ _ _ _ Hrow).
  - reflexivity.
Qed.

Lemma activate_command_cases db k rest :
  activate_command admin (k :: rest) db =
  match licenses db !! PyStr.upper k with
  | Some row =>
      ({| licenses := <[PyStr.upper k := Sql.set_is_active true row]> (licenses db);
          activation_logs := activation_logs db |},
       Returned (Some (reply_resumed (PyStr.upper k))))
  | None => (db, Returned (Some reply_not_found))
  end.
Proof.
  unfold activate_command, admin_only. rewrite admin_is_admin.
  unfold Sql.update_is_active, Sql.with_licenses.
  destruct (licenses db !! PyStr.upper k) as [row|] eqn:Hrow; cbn [Nat.ltb Nat.leb].
  - now rewrite (alter_present _ _ _ _ Hrow).
  - reflexivity.
Qed.

Lemma set_is_active_same r : Sql.set_is_active (is_active r) r = r.
Proof. now destruct r. Qed.

Lemma db_eta db : {| licenses := licenses db; activation_logs := activation_logs db |} = db.
Proof. now destruct db. Qed.

End Suspension.

(** X11.  A stopped key is refused before anything else is looked at:
    after [/stop], every activation of the key is answered 423, whatever
    the device and even past the expiry, and a [verify] by the bound device
    (any request that passes the comparison with the stored device) is
    answered that the key is stopped; neither changes the store. *)
Theorem stop_blocks_the_key :
  forall (db : DB) (k : string) (rest : list string) (row : LicenseRow),
    licenses db !! PyStr.upper k = Some row ->
    let db1 := fst (stop_command admin (k :: rest) db) in
    (forall d addr t1 t2, k <> "" -> d <> "" ->
       activate_license db1 (request k d) addr t1 t2
       = (db1, Returned {| status := 423; body := activate_failure msg_suspended |})) /\
    (forall data v addr t,
       read_request data = Returned (Text (PyStr.upper k), v) ->
       Py.ne (device_id row) v = false ->
       verify_license db1 data addr t
       = (db1, Returned {| status := 200; body := verify_inactive msg_stopped |})).
Proof.
  intros db k rest row Hrow db1.
  assert (licenses db1 !! PyStr.upper k = Some (Sql.set_is_active false row)) as Hnew.
  { subst db1. rewrite stop_command_cases, Hrow. cbn [fst licenses].
    apply lookup_insert_eq. }
  split.
  - intros d addr t1 t2 Hk Hd.
    destruct (activate_license_outcomes db1 k d addr t1 t2 Hk Hd) as [_ H].
    destruct (H _ Hnew) as (H423 & _). now apply H423.
  - intros data v addr t Hreq Hdev.
    rewrite (verify_license_cases db1 data _ v addr t Hreq), Hnew.
    cbn [device_id is_active Sql.set_is_active]. now rewrite Hdev.
Qed.

Lemma stop_blocks_the_key_witness :
  snd (activate_license (fst (stop_command admin [key0] db_bound))
         (request key0 "device-A") "10.0.0.1" (t0 + day) (t0 + day))
  = Returned {| status := 423; body := activate_failure msg_suspended |}.
Proof.
  destruct (licenses db_bound !! PyStr.upper key0) as [row|] eqn:Hrow;
    [|vm_compute in Hrow; discriminate].
  destruct (stop_blocks_the_key db_bound key0 [] row Hrow) as [H _].
  rewrite H; [reflexivity | discriminate | discriminate].
Defined.

(** X12.  Suspension is undone without loss: [/activate] after [/stop] on
    a key that was active gives back exactly the store before the two
    commands, expiry and binding included; both commands answer that the
    key was not found, and change nothing, when the key is absent. *)
Theorem resume_restores_the_store :
  forall (db : DB) (k k' : string) (rest rest' : list string),
    PyStr.upper k' = PyStr.upper k ->
    (forall row, licenses db !! PyStr.upper k = Some row -> is_active row = true ->
       fst (activate_command admin (k' :: rest')
              (fst (stop_command admin (k :: rest) db))) = db) /\
    (licenses db !! PyStr.upper k = None ->
     stop_command admin (k :: rest) db = (db, Returned (Some reply_not_found)) /\
     activate_command admin (k' :: rest') db = (db, Returned (Some reply_not_found))).
Proof.
  intros db k k' rest rest' Hkk'. split.
  - intros row Hrow Hact.
    rewrite stop_command_cases, Hrow. cbn [fst].
    rewrite activate_command_cases, Hkk'. cbn [licenses].
    rewrite lookup_insert_eq. cbn [fst activation_logs].
    rewrite insert_insert_eq.
    replace (Sql.set_is_active true (Sql.set_is_active false row)) with row
      by (destruct row; cbn in *; now subst).
    rewrite (insert_id _ _ _ Hrow). apply db_eta.
  - intros Hnone.
    now rewrite stop_command_cases, activate_command_cases, Hkk', Hnone.
Qed.

Lemma resume_restores_the_store_witness :
  fst (activate_command admin ["gnp-abcd-efgh-jklm"]
         (fst (stop_command admin [key0] db_bound))) = db_bound.
Proof.
  destruct (resume_restores_the_store db_bound key0 "gnp-abcd-efgh-jklm" [] [] eq_refl)
    as [H _].
  destruct (licenses db_bound !! PyStr.upper key0) as [row|] eqn:Hrow;
    [|vm_compute in Hrow; discriminate].
  apply (H row eq_refl). vm_compute in Hrow. now injection Hrow as <-.
Defined.

(** ** The buttons *)

Section Buttons.

Implicit Types (db : DB) (g : Rng) (row : LicenseRow).

Lemma string_app_nil_r (s : string) : s ++ "" = s.
Proof.
  induction s as [|c s IH]; [reflexivity|].
  change (String c (s ++ "") = String c s). now rewrite IH.
Qed.

Lemma string_app_assoc (s1 s2 s3 : string) : (s1 ++ s2) ++ s3 = s1 ++ (s2 ++ s3).
Proof.
  induction s1 as [|c s1 IH]; [reflexivity|].
  change (String c ((s1 ++ s2) ++ s3) = String c (s1 ++ (s2 ++ s3))). now rewrite IH.
Qed.

Lemma prefix_split p s :
  String.prefix p s = true -> exists rest, s = p ++ rest.
Proof.
  revert s. induction p as [|a p IH]; intros s H.
  - exists s. reflexivity.
  - destruct s as [|b s]; [discriminate|].
    apply prefix_cons in H as [<- H]. destruct (IH s H) as [rest ->].
    exists rest. reflexivity.
Qed.

Lemma prefix_app p s : String.prefix p (p ++ s) = true.
Proof.
  induction p as [|a p IH]; [now destruct s|].
  change (String.prefix (String a p) (String a (p ++ s)) = true).
  cbn [String.prefix]. destruct (ascii_dec a a); [exact IH | congruence].
Qed.

Lemma prefix_other a p b s : a <> b -> String.prefix (String a p) (String b s) = false.
Proof. intros H. cbn [String.prefix]. destruct (ascii_dec a b); [congruence | reflexivity]. Qed.

Lemma in_app_string c p s :
  In c (list_ascii_of_string p) -> In c (list_ascii_of_string (p ++ s)).
Proof.
  induction p as [|a p IH]; [intros []|].
  change (In c (a :: list_ascii_of_string p) ->
          In c (a :: list_ascii_of_string (p ++ s))).
  intros [->|H]; [now left | right; auto].
Qed.

Lemma split_aux_free sep cur s :
  ~ In sep (list_ascii_of_string s) -> PyStr.split_aux sep cur s = [cur ++ s].
Proof.
  revert cur. induction s as [|c s IH]; intros cur Hfree; cbn [PyStr.split_aux].
  - now rewrite string_app_nil_r.
  - simpl in Hfree. destruct (Ascii.eqb_spec c sep) as [->|Hne]; [tauto|].
    rewrite IH by tauto. rewrite string_app_assoc. reflexivity.
Qed.

Lemma split_aux_app sep cur p s :
  ~ In sep (list_ascii_of_string p) ->
  PyStr.split_aux sep cur (p ++ String sep s) = (cur ++ p) :: PyStr.split_aux sep "" s.
Proof.
  revert cur. induction p as [|c p IH]; intros cur Hfree.
  - change ("" ++ String sep s) with (String sep s). cbn [PyStr.split_aux].
    now rewrite Ascii.eqb_refl, string_app_nil_r.
  - change (String c p ++ String sep s) with (String c (p ++ String sep s)).
    cbn [PyStr.split_aux]. simpl in Hfree.
    destruct (Ascii.eqb_spec c sep) as [->|Hne]; [tauto|].
    rewrite IH by tauto. rewrite string_app_assoc. reflexivity.
Qed.

(** The data [<word>_<key>] of a button split into the word and the key. *)
Lemma split_button word key :
  ~ In "_"%char (list_ascii_of_string word) ->
  ~ In "_"%char (list_ascii_of_string key) ->
  PyStr.split "_" (word ++ String "_" key) = [word; key].
Proof.
  intros Hw Hk. unfold PyStr.split.
  rewrite (split_aux_app "_" "" word key Hw), (split_aux_free "_" "" key Hk).
  reflexivity.
Qed.

(** Removing a word that holds the character [c] from a text without [c]
    removes nothing. *)
Lemma remove_all_free c old s :
  In c (list_ascii_of_string old) -> ~ In c (list_ascii_of_string s) ->
  PyStr.remove_all_aux old 0 s = s.
Proof.
  intros Hold. induction s as [|a s IH]; intros Hfree; [reflexivity|].
  cbn [PyStr.remove_all_aux].
  destruct (String.prefix old (String a s)) eqn:Hp.
  - apply prefix_split in Hp as [rest Hp]. exfalso. apply Hfree.
    rewrite Hp. now apply in_app_string.
  - rewrite IH; [reflexivity|]. simpl in Hfree. tauto.
Qed.

Lemma remove_all_skip old p s :
  PyStr.remove_all_aux old (String.length p) (p ++ s) = PyStr.remove_all_aux old 0 s.
Proof. induction p as [|a p IH]; [reflexivity | exact IH]. Qed.

Lemma remove_all_leading c old s :
  old <> "" ->
  In c (list_ascii_of_string old) -> ~ In c (list_ascii_of_string s) ->
  PyStr.remove_all old (old ++ s) = s.
Proof.
  intros Hne Hold Hfree. unfold PyStr.remove_all.
  destruct old as [|a old]; [congruence|].
  change (String a old ++ s) with (String a (old ++ s)).
  cbn [PyStr.remove_all_aux].
  change (String a (old ++ s)) with (String a old ++ s). rewrite prefix_app.
  cbn [String.length]. rewrite Nat.sub_1_r. cbn [Nat.pred].
  rewrite remove_all_skip. now apply (remove_all_free c).
Qed.

(** The branch of [button_callback] taken by data that begin with
    [toggle_]. *)
Lemma button_callback_toggle db g data t1 t2 :
  PyStr.startswith "toggle_" data = true ->
  button_callback admin data t1 t2 (db, g) =
  let license_key := PyStr.remove_all "toggle_" data in
  match licenses db !! license_key with
  | Some row =>
      (({| licenses :=
             <[license_key := Sql.set_is_active (negb (is_active row)) row]> (licenses db);
           activation_logs := activation_logs db |}, g),
       Returned (Some (edit_toggled (negb (is_active row)))))
  | None => ((db, g), Returned None)
  end.
Proof.
  intros Hp. unfold button_callback. rewrite admin_is_admin, Hp.
  apply prefix_split in Hp as [rest ->].
  change (String.eqb ("toggle_" ++ rest) "gen_monthly") with false.
  change (String.eqb ("toggle_" ++ rest) "list_codes") with false.
  change (String.eqb ("toggle_" ++ rest) "stats") with false.
  cbv zeta. unfold Sql.select_license.
  destruct (licenses db !! _) as [row|] eqn:Hrow; [|reflexivity].
  unfold Sql.update_is_active, Sql.with_licenses. cbn [fst].
  rewrite (alter_present _ _ _ _ Hrow). now destruct (is_active row).
Qed.

End Buttons.

(** X13.  The toggle button is its own inverse: pressing it twice on the
    same key gives back exactly the store before, and the two answers name
    the two states; on a key that is absent it does nothing and says
    nothing. *)
Theorem toggle_twice_is_identity :
  forall (db : DB) (g : Rng) (data : string) (t1 t2 t3 t4 : Z),
    PyStr.startswith "toggle_" data = true ->
    let once := button_callback admin data t1 t2 (db, g) in
    let twice := button_callback admin data t3 t4 (fst once) in
    fst twice = (db, g) /\
    (forall row, licenses db !! PyStr.remove_all "toggle_" data = Some row ->
       snd once = Returned (Some (edit_toggled (negb (is_active row)))) /\
       snd twice = Returned (Some (edit_toggled (is_active row)))) /\
    (licenses db !! PyStr.remove_all "toggle_" data = None ->
     once = ((db, g), Returned None)).
Proof.
  intros db g data t1 t2 t3 t4 Hp once twice. subst twice once.
  rewrite (button_callback_toggle db g data t1 t2 Hp). cbv zeta.
  destruct (licenses db !! PyStr.remove_all "toggle_" data) as [row|] eqn:Hrow.
  - cbn [fst]. rewrite (button_callback_toggle _ g data t3 t4 Hp). cbv zeta.
    cbn [licenses activation_logs]. rewrite lookup_insert_eq.
    cbn [fst snd is_active Sql.set_is_active]. rewrite negb_involutive, insert_insert_eq.
    replace (Sql.set_is_active (is_active row) (Sql.set_is_active (negb (is_active row)) row))
      with row by now destruct row.
    rewrite (insert_id _ _ _ Hrow), db_eta.
    split; [reflexivity|]. split; [|discriminate].
    intros r [= <-]. split; reflexivity.
  - cbn [fst]. rewrite (button_callback_toggle db g data t3 t4 Hp). cbv zeta.
    rewrite Hrow. split; [reflexivity|]. split; [discriminate | reflexivity].
Qed.

Lemma toggle_twice_is_identity_witness :
  fst (button_callback admin "toggle_GNP-ABCD-EFGH-JKLM" 0 0
         (fst (button_callback admin "toggle_GNP-ABCD-EFGH-JKLM" 0 0
                 (db_bound, rng_from 0))))
  = (db_bound, rng_from 0).
Proof.
  destruct (toggle_twice_is_identity db_bound (rng_from 0) "toggle_GNP-ABCD-EFGH-JKLM"
              0 0 0 0 eq_refl) as [H _].
  exact H.
Defined.

(** X14.  Callback data that no branch of [button_callback] recognises are
    dropped: nothing is written and nothing is answered.  This is what
    happens to the [delete_] button that [info_command] puts under every
    key. *)
Theorem unknown_button_does_nothing :
  (forall (db : DB) (g : Rng) (data : string) (t1 t2 : Z),
      data <> "gen_monthly" -> data <> "list_codes" -> data <> "stats" ->
      PyStr.startswith "toggle_" data = false ->
      PyStr.startswith "ext" data = false ->
      button_callback admin data t1 t2 (db, g) = ((db, g), Returned None)) /\
  (forall (db : DB) (g : Rng) (license_key : string) (t1 t2 : Z),
      In ("delete_" ++ license_key) (concat (info_keyboard license_key)) /\
      button_callback admin ("delete_" ++ license_key) t1 t2 (db, g)
      = ((db, g), Returned None)).
Proof.
  split.
  - intros db g data t1 t2 H1 H2 H3 Htoggle Hext.
    unfold button_callback. rewrite admin_is_admin.
    rewrite (proj2 (String.eqb_neq _ _) H1), (proj2 (String.eqb_neq _ _) H2),
      (proj2 (String.eqb_neq _ _) H3), Htoggle, Hext.
    destruct (PyStr.startswith "extend_" data) eqn:He; [|reflexivity].
    apply prefix_split in He as [rest ->]. discriminate Hext.
  - intros db g license_key t1 t2. split; [simpl; auto|].
    unfold button_callback. rewrite admin_is_admin. reflexivity.
Qed.

Lemma unknown_button_does_nothing_witness :
  button_callback admin "delete_GNP-ABCD-EFGH-JKLM" 0 0 (db_bound, rng_from 0)
  = ((db_bound, rng_from 0), Returned None).
Proof.
  destruct unknown_button_does_nothing as [H _].
  apply H; solve [discriminate | reflexivity].
Defined.

(** X15.  A button acts on the key it was made for.  For a key without an
    underscore (as every generated key is): the [toggle_] button of
    [info_command] flips [is_active] of that key; its [extend_] button
    opens the menu for that key; and each button of the menu extends that
    key by the number of days on its label. *)
Theorem buttons_address_their_key :
  forall (db : DB) (g : Rng) (license_key : string) (t1 t2 : Z),
    ~ In "_"%char (list_ascii_of_string license_key) ->
    button_callback admin ("toggle_" ++ license_key) t1 t2 (db, g)
    = match licenses db !! license_key with
      | Some row =>
          (({| licenses :=
                 <[license_key := Sql.set_is_active (negb (is_active row)) row]>
                   (licenses db);
               activation_logs := activation_logs db |}, g),
           Returned (Some (edit_toggled (negb (is_active row)))))
      | None => ((db, g), Returned None)
      end /\
    button_callback admin ("extend_" ++ license_key) t1 t2 (db, g)
    = ((db, g), Returned (Some (edit_choose_extension license_key))) /\
    (forall days data,
       In (days, data) (concat (extend_keyboard license_key)) ->
       button_callback admin data t1 t2 (db, g)
       = match licenses db !! license_key with
         | None => ((db, g), Returned None)
         | Some row =>
             match DateTime.add_days
                     (if expires_at row <? t1 then t2 else expires_at row) days with
             | None => ((db, g), Raised OverflowError)
             | Some e =>
                 ((Sql.update_expires_at db e license_key, g),
                  Returned (Some (edit_extended days e)))
             end
         end).
Proof.
  intros db g license_key t1 t2 Hfree.
  assert (In "_"%char (list_ascii_of_string "toggle_")) as Htog by (simpl; tauto).
  assert (In "_"%char (list_ascii_of_string "extend_")) as Hext by (simpl; tauto).
  split; [|split].
  - rewrite (button_callback_toggle db g _ t1 t2 (prefix_app "toggle_" license_key)).
    cbv zeta.
    now rewrite (remove_all_leading "_" "toggle_" license_key ltac:(discriminate) Htog Hfree).
  - unfold button_callback. rewrite admin_is_admin.
    change (String.eqb ("extend_" ++ license_key) "gen_monthly") with false.
    change (String.eqb ("extend_" ++ license_key) "list_codes") with false.
    change (String.eqb ("extend_" ++ license_key) "stats") with false.
    change (PyStr.startswith "toggle_" ("extend_" ++ license_key)) with false.
    unfold PyStr.startswith. rewrite prefix_app.
    now rewrite (remove_all_leading "_" "extend_" license_key ltac:(discriminate) Hext Hfree).
  - intros days data Hin. simpl in Hin.
    assert (forall word, ~ In "_"%char (list_ascii_of_string word) ->
              PyStr.split "_" (word ++ String "_" license_key) = [word; license_key]) as Hs.
    { intros word Hw. now apply split_button. }
    destruct Hin as [[= <- <-]|[[= <- <-]|[[= <- <-]|[[= <- <-]|[]]]]];
      match goal with
      | |- context [button_callback _ (String "e" (String "x" (String "t" ?w)) ++ _)] =>
          apply button_callback_ext;
          [ apply (prefix_app "ext") | reflexivity | | ]
      end.
    all: match goal with
         | |- context [PyStr.split "_" (?lit ++ ?k)] =>
             let w := eval vm_compute in (PyStr.remove_all "_" lit) in
             change (lit ++ k) with (w ++ String "_" k);
             rewrite (Hs w) by (vm_compute; intuition discriminate); reflexivity
         end.
Qed.

Lemma buttons_address_their_key_witness :
  button_callback admin "ext90_GNP-ABCD-EFGH-JKLM" (t0 + day) (t0 + day)
    (db_fresh, rng_from 0)
  = ((Sql.update_expires_at db_fresh (t0 + 120 * day) key0, rng_from 0),
     Returned (Some (edit_extended 90 (t0 + 120 * day)))).
Proof.
  destruct (buttons_address_their_key db_fresh (rng_from 0) key0 (t0 + day) (t0 + day))
    as (_ & _ & H).
  { vm_compute. intuition discriminate. }
  rewrite (H 90 "ext90_GNP-ABCD-EFGH-JKLM"); [|simpl; tauto].
  vm_compute. reflexivity.
Defined.

(** ** Extending twice; a new key *)

(** X16.  Extensions of a key that has not expired add up: two [/extend]
    commands, by [d1] and then by [d2] days, each given while the key is
    still valid, leave the key with its first expiry plus [d1 + d2] days
    and nothing else changed, as one command by [d1 + d2] days does. *)
Theorem extensions_add_up :
  forall (db : DB) (k a1 a2 a12 : string) (d1 d2 : Z) (row : LicenseRow)
         (e1 e2 : Z) (t1 t2 t3 t4 : Z),
    PyStr.int a1 = Some d1 -> PyStr.int a2 = Some d2 -> PyStr.int a12 = Some (d1 + d2) ->
    licenses db !! PyStr.upper k = Some row ->
    t1 <= expires_at row ->
    DateTime.add_days (expires_at row) d1 = Some e1 ->
    t3 <= e1 ->
    DateTime.add_days e1 d2 = Some e2 ->
    Z.abs (d1 + d2) <= DateTime.max_delta_days ->
    let twice := extend_command admin [k; a2] t3 t4
                   (fst (extend_command admin [k; a1] t1 t2 db)) in
    e2 = expires_at row + (d1 + d2) * DateTime.usec_per_day /\
    fst twice = {| licenses := <[PyStr.upper k := Sql.set_expires_at e2 row]> (licenses db);
                   activation_logs := activation_logs db |} /\
    twice = extend_command admin [k; a12] t1 t2 db.
Proof.
  intros db k a1 a2 a12 d1 d2 row e1 e2 t1 t2 t3 t4 H1 H2 H12 Hrow Ht1 He1 Ht3 He2 Habs
         twice.
  assert (e2 = expires_at row + (d1 + d2) * DateTime.usec_per_day) as Hsum.
  { apply add_days_value in He1, He2. lia. }
  assert (DateTime.add_days (expires_at row) (d1 + d2) = Some e2) as He12.
  { rewrite Hsum. apply add_days_in_range; [exact Habs|].
    rewrite <- Hsum. clear -He2. unfold DateTime.add_days, DateTime.timedelta_days,
      DateTime.add in He2.
    destruct (Z.abs d2 <=? _); [|discriminate].
    destruct (Z.leb_spec DateTime.dt_min (e1 + d2 * DateTime.usec_per_day));
      [|discriminate].
    destruct (Z.leb_spec (e1 + d2 * DateTime.usec_per_day) DateTime.dt_max);
      [|discriminate].
    injection He2 as <-. lia. }
  assert (forall t e, t <= e -> (e <? t) = false) as Hnot
    by (intros t e Hle; destruct (Z.ltb_spec e t); [lia | reflexivity]).
  subst twice.
  rewrite (extend_command_cases db k a1 [] d1 t1 t2 H1), Hrow, (Hnot _ _ Ht1), He1.
  cbn [fst].
  rewrite (extend_command_cases _ k a2 [] d2 t3 t4 H2).
  rewrite (update_expires_at_present db e1 _ row Hrow). cbn [licenses].
  rewrite lookup_insert_eq. cbn [expires_at Sql.set_expires_at].
  rewrite (Hnot _ _ Ht3), He2.
  rewrite (extend_command_cases db k a12 [] (d1 + d2) t1 t2 H12), Hrow,
    (Hnot _ _ Ht1), He12.
  unfold Sql.update_expires_at, Sql.with_licenses. cbn [licenses activation_logs fst].
  rewrite (alter_present _ _ _ _ (lookup_insert_eq _ _ _)).
  rewrite (alter_present _ _ _ _ Hrow), insert_insert_eq.
  cbn [Sql.set_expires_at device_id user_name telegram_user_id plan activated_at
         is_active is_used notes].
  repeat split; exact Hsum.
Qed.

Lemma extensions_add_up_witness :
  (expires_at <$> licenses
     (fst (extend_command admin [key0; "-10"] (t0 + 2 * day) (t0 + 2 * day)
             (fst (extend_command admin [key0; "30"] (t0 + day) (t0 + day) db_fresh))))
     !! key0)
  = Some (t0 + 50 * day).
Proof.
  destruct (licenses db_fresh !! PyStr.upper key0) as [row|] eqn:Hrow;
    [|vm_compute in Hrow; discriminate].
  assert (Hrow' := Hrow). vm_compute in Hrow'. injection Hrow' as Hrow'.
  destruct (extensions_add_up db_fresh key0 "30" "-10" "20" 30 (-10) row
              (t0 + 60 * day) (t0 + 50 * day)
              (t0 + day) (t0 + day) (t0 + 2 * day) (t0 + 2 * day))
    as (_ & -> & _);
    [ reflexivity | reflexivity | reflexivity | exact Hrow
    | subst row; vm_compute; discriminate
    | now subst row
    | vm_compute; discriminate
    | reflexivity
    | vm_compute; discriminate | ].
  cbn [licenses]. change (PyStr.upper key0) with key0.
  now rewrite lookup_insert_eq.
Defined.

Section Generation.

Implicit Types (db : DB) (g : Rng).

Lemma formatted_nonempty ok n key : key_format ok n key -> key <> "".
Proof. intros (segs & -> & _). discriminate. Qed.

(** A record that [create_license] has just inserted can be activated by
    any device until its expiry, and by none after it. *)
Lemma created_key_is_redeemable db g plan_ days user tg now db' g' c :
  create_license db g plan_ days user tg None now = (db', g', Returned c) ->
  c_plan c = plan_ /\ c_days c = days /\
  licenses db !! c_license_key c = None /\
  c_expires_at c = now + days * DateTime.usec_per_day /\
  licenses db' !! c_license_key c
  = Some {| device_id := None; user_name := user; telegram_user_id := tg;
            plan := plan_; activated_at := None; expires_at := c_expires_at c;
            is_active := true; is_used := false; notes := None |} /\
  (forall d addr t1 t2, d <> "" ->
     (t1 <= c_expires_at c ->
      snd (activate_license db' (request (c_license_key c) d) addr t1 t2)
      = Returned {| status := 200;
                    body := activate_success msg_activated (c_expires_at c) plan_ user |}) /\
     (c_expires_at c < t1 ->
      activate_license db' (request (c_license_key c) d) addr t1 t2
      = (db', Returned {| status := 410; body := activate_failure msg_expired |}))).
Proof.
  intros Hgen. rewrite create_license_cases in Hgen. cbv zeta in Hgen.
  pose proof (generate_license_code_format g) as Hf.
  pose proof (upper_formatted unambiguous _ unambiguous_upper_alnum Hf) as Hup.
  pose proof (formatted_nonempty _ _ _ Hf) as Hne.
  revert Hgen Hf Hup Hne.
  generalize (fst (generate_license_code g)) as key1.
  generalize (snd (generate_license_code g)) as g1.
  intros g1 key1 Hgen Hf Hup Hne.
  destruct (DateTime.add_days now _) as [e'|] eqn:He; [|discriminate Hgen].
  destruct (licenses db !! key1) eqn:Hk; [discriminate Hgen|].
  injection Hgen as <- <- <-. cbn [c_plan c_days c_license_key c_expires_at].
  split; [reflexivity|]. split; [reflexivity|].
  split; [exact Hk|]. split; [now apply add_days_value in He|].
  split; [cbn [licenses]; apply lookup_insert_eq|].
  intros d addr t1 t2 Hd.
  match goal with |- context [activate_license ?s _ _ _ _] => set (db1 := s) end.
  destruct (activate_license_outcomes db1 key1 d addr t1 t2 Hne Hd) as [_ H].
  rewrite Hup in H.
  eassert (licenses db1 !! key1 = Some _) as Hrow
    by (subst db1; cbn [licenses]; apply lookup_insert_eq).
  destruct (H _ Hrow) as (_ & H410 & _ & H200).
  split.
  - intros Hle. rewrite H200; [reflexivity | reflexivity | exact Hle | now left].
  - intros Hlt. now apply H410.
Qed.

End Generation.

(** X17.  The key the bot announces is the key it stored, and it is
    redeemable until the announced expiry.  When [/generate] answers with a
    new key, the number of days is 30 unless the first argument is made of
    decimal digits, which then give it (for an argument in ASCII); the
    user name is the remaining arguments joined by blanks, if there are
    any; the plan is [trial] up to 7 days, [monthly] up to 30, [quarterly]
    up to 90, [yearly] up to 365 and [lifetime] above.  The key was not in
    the store before and is in it now, unused, unbound and active, with
    that plan and user name and the administrator's id, expiring that
    number of days after [now]; and any device that activates it not later
    than the expiry succeeds, any later one gets 410. *)
Theorem generated_key_is_redeemable :
  forall (db db' : DB) (g g' : Rng) (args : list string) (now : Z)
         (key plan_ : string) (days e : Z) (user : option string),
    generate_command admin args now (db, g)
    = ((db', g'), Returned (Some (reply_created key days plan_ e user))) ->
    (args = [] -> days = 30 /\ user = None) /\
    (forall a0 rest, args = a0 :: rest ->
       (PyStr.isdigit a0 = true -> days = PyStr.digits_value 0 a0) /\
       (PyStr.isascii a0 = true -> PyStr.isdigit a0 = false -> days = 30) /\
       (rest = [] -> user = None) /\
       (rest <> [] -> user = Some (PyStr.join " " rest))) /\
    (days <= 7 -> plan_ = "trial") /\
    (7 < days <= 30 -> plan_ = "monthly") /\
    (30 < days <= 90 -> plan_ = "quarterly") /\
    (90 < days <= 365 -> plan_ = "yearly") /\
    (365 < days -> plan_ = "lifetime") /\
    licenses db !! key = None /\
    e = now + days * DateTime.usec_per_day /\
    licenses db' !! key
    = Some {| device_id := None; user_name := user; telegram_user_id := Some admin;
              plan := plan_; activated_at := None; expires_at := e;
              is_active := true; is_used := false; notes := None |} /\
    (forall d addr t1 t2, d <> "" ->
       (t1 <= e ->
        snd (activate_license db' (request key d) addr t1 t2)
        = Returned {| status := 200;
                      body := activate_success msg_activated e plan_ user |}) /\
       (e < t1 ->
        activate_license db' (request key d) addr t1 t2
        = (db', Returned {| status := 410; body := activate_failure msg_expired |}))).
Proof.
  intros db db' g g' args now key plan_ days e user Hgen.
  unfold generate_command, admin_only in Hgen. rewrite admin_is_admin in Hgen.
  cbv zeta in Hgen.
  match type of Hgen with
  | context [create_license db g ?p ?d ?u ?t None now] =>
      destruct (create_license db g p d u t None now) as [[db1 g1] [c|ex]] eqn:Hc;
      [|discriminate Hgen];
      apply created_key_is_redeemable in Hc as (Hplan & Hdays & Hnew & Hexp & Hrow & Hact)
  end.
  injection Hgen as Edb Eg Ekey Edays Eplan Ee Euser.
  rewrite Edays in Hexp, Eplan. rewrite Edays, Euser in Hrow. rewrite Edays, Euser in Hact.
  subst db1 g1 key plan_ e.
  split; [|split; [|split; [|split; [|split; [|split; [|split]]]]]].
  - intros ->. split; [now rewrite <- Edays | now rewrite <- Euser].
  - intros a0 rest ->. cbn [PyStr.join] in Euser. repeat split.
    + intros H. now rewrite H in Edays.
    + intros _ H. now rewrite H in Edays.
    + intros ->. now rewrite <- Euser.
    + destruct rest as [|a1 rest]; [congruence | now rewrite <- Euser].
  - intros H. unfold plan_of_days.
    destruct (Z.leb_spec days 7); [reflexivity | lia].
  - intros H. unfold plan_of_days.
    destruct (Z.leb_spec days 7); [lia|]. destruct (Z.leb_spec days 30); [reflexivity | lia].
  - intros H. unfold plan_of_days.
    destruct (Z.leb_spec days 7); [lia|]. destruct (Z.leb_spec days 30); [lia|].
    destruct (Z.leb_spec days 90); [reflexivity | lia].
  - intros H. unfold plan_of_days.
    destruct (Z.leb_spec days 7); [lia|]. destruct (Z.leb_spec days 30); [lia|].
    destruct (Z.leb_spec days 90); [lia|].
    destruct (Z.leb_spec days 365); [reflexivity | lia].
  - intros H. unfold plan_of_days.
    destruct (Z.leb_spec days 7); [lia|]. destruct (Z.leb_spec days 30); [lia|].
    destruct (Z.leb_spec days 90); [lia|].
    destruct (Z.leb_spec days 365); [lia | reflexivity].
  - split; [exact Hnew|]. split; [exact Hexp|]. split; [exact Hrow | exact Hact].
Qed.

Lemma generated_key_is_redeemable_witness :
  snd (activate_license
         (fst (fst (generate_command admin ["60"; "Bob"; "Lee"] t0
                      (init_database, rng_from 0))))
         (request key0 "device-A") "10.0.0.1" (t0 + 60 * day) (t0 + 60 * day))
  = Returned {| status := 200;
                body := activate_success msg_activated (t0 + 60 * day) "quarterly"
                          (Some "Bob Lee") |}.
Proof.
  destruct (generated_key_is_redeemable init_database
              (fst (fst (generate_command admin ["60"; "Bob"; "Lee"] t0
                           (init_database, rng_from 0))))
              (rng_from 0)
              (snd (fst (generate_command admin ["60"; "Bob"; "Lee"] t0
                           (init_database, rng_from 0))))
              ["60"; "Bob"; "Lee"] t0 key0 "quarterly" 60 (t0 + 60 * day) (Some "Bob Lee"))
    as (_ & _ & _ & _ & _ & _ & _ & _ & _ & _ & H); [vm_compute; reflexivity|].
  destruct (H "device-A" "10.0.0.1" (t0 + 60 * day) (t0 + 60 * day)) as [Hok _];
    [discriminate|].
  apply Hok. apply Z.le_refl.
Defined.

(** ** One key at a time *)

(** X18.  A request or a command about one key touches no other record:
    whatever it does to the record of the key it names, every record under
    another key is afterwards what it was before. *)
Theorem other_records_untouched :
  forall (db : DB) (other : string),
    (forall data addr t1 t2,
       (forall v, read_request data <> Returned (Text other, v)) ->
       licenses (fst (activate_license db data addr t1 t2)) !! other = licenses db !! other /\
       licenses (fst (verify_license db data addr t1)) !! other = licenses db !! other /\
       licenses (fst (deactivate_license db data addr)) !! other = licenses db !! other) /\
    (forall user_id a0 rest t1 t2,
       other <> PyStr.upper a0 ->
       licenses (fst (stop_command user_id (a0 :: rest) db)) !! other
         = licenses db !! other /\
       licenses (fst (activate_command user_id (a0 :: rest) db)) !! other
         = licenses db !! other /\
       licenses (fst (extend_command user_id (a0 :: rest) t1 t2 db)) !! other
         = licenses db !! other).
Proof.
  intros db other. split.
  - intros data addr t1 t2 Hne. repeat split.
    + unfold activate_license.
      destruct (activate_check db data t1) as [o|key v row] eqn:Hc; [reflexivity|].
      apply activate_check_accept in Hc as (Hreq & _ & _).
      assert (key <> other) as Hkey by (intros ->; exact (Hne v Hreq)).
      destruct (Sql.bind v) as [dev|e] eqn:Hbind.
      * rewrite (activate_commit_bound db key v dev row addr t2 Hbind).
        cbn [fst licenses]. now rewrite lookup_alter_ne.
      * now rewrite (activate_commit_raised db key v e row addr t2 Hbind).
    + now rewrite verify_frame.
    + unfold deactivate_license.
      destruct (read_request data) as [[[key|] v]|e] eqn:Hreq; try reflexivity.
      assert (key <> other) as Hkey by (intros ->; exact (Hne v eq_refl)).
      cbn [Sql.bind_str]. destruct (Sql.bind v) as [dev|e]; [|reflexivity].
      unfold Sql.update_deactivate. cbn [fst licenses Sql.insert_log Sql.with_licenses].
      now rewrite lookup_alter_ne.
  - intros user_id a0 rest t1 t2 Hne. repeat split.
    + unfold stop_command, admin_only. destruct (bool_decide _); [reflexivity|].
      unfold Sql.update_is_active.
      destruct (licenses db !! PyStr.upper a0); cbn [Nat.ltb Nat.leb fst licenses
        Sql.with_licenses]; [now rewrite lookup_alter_ne | reflexivity].
    + unfold activate_command, admin_only. destruct (bool_decide _); [reflexivity|].
      unfold Sql.update_is_active.
      destruct (licenses db !! PyStr.upper a0); cbn [Nat.ltb Nat.leb fst licenses
        Sql.with_licenses]; [now rewrite lookup_alter_ne | reflexivity].
    + unfold extend_command, admin_only. destruct (bool_decide _); [reflexivity|].
      destruct rest as [|a1 rest]; [reflexivity|].
      destruct (PyStr.int a1); [|reflexivity].
      destruct (Sql.select_license db _); [|reflexivity].
      destruct (DateTime.add_days _ _); [|reflexivity].
      unfold Sql.update_expires_at. cbn [fst licenses Sql.with_licenses].
      now rewrite lookup_alter_ne.
Qed.

Lemma other_records_untouched_witness :
  licenses (fst (stop_command admin ["GNP-ZZZZ-ZZZZ-ZZZZ"] db_bound)) !! key0
  = licenses db_bound !! key0.
Proof.
  destruct (other_records_untouched db_bound key0) as [_ H].
  destruct (H admin "GNP-ZZZZ-ZZZZ-ZZZZ" [] 0 0) as [Hstop _]; [discriminate|].
  exact Hstop.
Defined.

(** ** The offline utilities *)

Section Batches.

Implicit Types (g : Rng).

Lemma for_range_length {A} n (body : Rng -> A * Rng) g :
  length (fst (for_range n body g)) = n.
Proof.
  revert g. induction n as [|n IH]; intros g; [reflexivity|].
  cbn [for_range]. destruct (body g) as [x g1].
  specialize (IH g1). destruct (for_range n body g1) as [rest g2].
  cbn [fst length] in *. now rewrite IH.
Qed.

Lemma for_range_Forall {A} (P : A -> Prop) n (body : Rng -> A * Rng) g :
  (forall g0, P (fst (body g0))) -> Forall P (fst (for_range n body g)).
Proof.
  intros HP. revert g. induction n as [|n IH]; intros g; [constructor|].
  cbn [for_range]. pose proof (HP g) as Hx. destruct (body g) as [x g1].
  specialize (IH g1). destruct (for_range n body g1) as [rest g2].
  cbn [fst] in *. now constructor.
Qed.

Lemma for_range_pos {A} (c : nat) n (body : Rng -> A * Rng) g :
  (forall g0, pos (snd (body g0)) = (pos g0 + c)%nat) ->
  pos (snd (for_range n body g)) = (pos g + c * n)%nat.
Proof.
  intros Hc. revert g. induction n as [|n IH]; intros g; [cbn; lia|].
  cbn [for_range]. pose proof (Hc g) as Hg. destruct (body g) as [x g1].
  specialize (IH g1). destruct (for_range n body g1) as [rest g2].
  cbn [snd] in *. lia.
Qed.

(** The codes of the utilities: [n] segments over the 36 characters. *)
Lemma bulk_code_format n g :
  key_format is_upper_alnum n
    ("GNP-" ++ PyStr.join "-"
       (fst (random_segments (list_ascii_of_string (ascii_uppercase ++ digits)) n g))).
Proof. apply prefixed_key_format; [discriminate | vm_compute; reflexivity]. Qed.

(** A source stuck on one value yields the same characters at every
    position. *)
Lemma random_choices_stuck pop k g v :
  (forall n, draw g n = v) ->
  fst (random_choices pop k g) = repeat (nth (v mod length pop) pop "?"%char) k /\
  (forall n, draw (snd (random_choices pop k g)) n = v).
Proof.
  revert g. induction k as [|k IH]; intros g Hg; [split; [reflexivity | exact Hg]|].
  cbn [random_choices]. unfold random_index.
  set (g1 := {| draw := draw g; pos := S (pos g) |}).
  destruct (IH g1 Hg) as [IH1 IH2].
  destruct (random_choices pop k g1) as [rest g2]. cbn [fst snd] in *.
  rewrite IH1, Hg. split; [reflexivity | exact IH2].
Qed.

Lemma random_segments_stuck pop n g v :
  (forall i, draw g i = v) ->
  fst (random_segments pop n g)
  = repeat (PyStr.of_chars (repeat (nth (v mod length pop) pop "?"%char) 4)) n /\
  (forall i, draw (snd (random_segments pop n g)) i = v).
Proof.
  revert g. induction n as [|n IH]; intros g Hg; [split; [reflexivity | exact Hg]|].
  cbn [random_segments].
  destruct (random_choices_stuck pop 4 g v Hg) as [H1 H2].
  destruct (random_choices pop 4 g) as [seg g1]. cbn [fst snd] in *.
  destruct (IH g1 H2) as [IH1 IH2].
  destruct (random_segments pop n g1) as [rest g2]. cbn [fst snd] in *.
  rewrite H1, IH1. split; [reflexivity | exact IH2].
Qed.

(** Hence a generator of the shape of the utilities yields one and the
    same code. *)
Lemma bulk_code_stuck n g v :
  (forall i, draw g i = v) ->
  let pop := list_ascii_of_string (ascii_uppercase ++ digits) in
  (let '(parts, g') := random_segments pop n g in ("GNP-" ++ PyStr.join "-" parts, g'))
  = ("GNP-" ++ PyStr.join "-"
       (repeat (PyStr.of_chars (repeat (nth (v mod length pop) pop "?"%char) 4)) n),
     snd (random_segments pop n g)) /\
  (forall i, draw (snd (random_segments pop n g)) i = v).
Proof.
  intros Hg pop. destruct (random_segments_stuck pop n g v Hg) as [H1 H2].
  destruct (random_segments pop n g) as [parts g']. cbn [fst snd] in *.
  now rewrite H1.
Qed.

Lemma for_range_stuck {A} (x : A) n (body : Rng -> A * Rng) g v :
  (forall g0, (forall i, draw g0 i = v) ->
     fst (body g0) = x /\ forall i, draw (snd (body g0)) i = v) ->
  (forall i, draw g i = v) ->
  fst (for_range n body g) = repeat x n.
Proof.
  intros Hbody. revert g. induction n as [|n IH]; intros g Hg; [reflexivity|].
  cbn [for_range]. destruct (Hbody g Hg) as [Hx Hg1]. destruct (body g) as [y g1].
  cbn [fst snd] in *. specialize (IH g1 Hg1).
  destruct (for_range n body g1) as [rest g2]. cbn [fst] in *. now rewrite Hx, IH.
Qed.

End Batches.

(** X19.  The batch loops of [generate_lifetime_codes.py],
    [generate_5days_codes.py] and [generate_all_codes_4parts.py] return
    exactly [count] entries (none for a negative [count]), all with the one
    expiry [now + days] computed before the loop, the same [created_at] and
    the status [active]; the codes of the first two have four segments,
    those of the third three.  When the expiry is not a date [datetime] can
    hold, [OverflowError] is raised before any code is drawn. *)
Theorem batch_loops_return_count_entries :
  forall (count days now : Z) (code_type : string) (g : Rng),
    (forall e, DateTime.add_days now 36500 = Some e ->
       exists codes,
         fst (generate_lifetime_codes_main.generate_lifetime_codes count now g)
           = Returned codes /\
         length codes = Z.to_nat count /\
         Forall (fun c => key_format is_upper_alnum 4 (ce_code c) /\
                          ce_days c = 36500 /\ ce_expiry_date c = e /\
                          ce_status c = "active" /\ ce_created_at c = now /\
                          ce_type c = Some "lifetime") codes) /\
    (forall e, DateTime.add_days now days = Some e ->
       (exists codes,
          fst (generate_5days_codes_main.generate_codes count days now g)
            = Returned codes /\
          length codes = Z.to_nat count /\
          Forall (fun c => key_format is_upper_alnum 4 (ce_code c) /\
                           ce_days c = days /\ ce_expiry_date c = e /\
                           ce_status c = "active" /\ ce_created_at c = now /\
                           ce_type c = None) codes) /\
       (exists codes,
          fst (generate_all_codes_4parts_main.generate_codes count days code_type now g)
            = Returned codes /\
          length codes = Z.to_nat count /\
          Forall (fun c => key_format is_upper_alnum 3 (ce_code c) /\
                           ce_days c = days /\ ce_expiry_date c = e /\
                           ce_status c = "active" /\ ce_created_at c = now /\
                           (ce_type c = Some "lifetime" <-> code_type = "lifetime"))
                 codes)) /\
    (DateTime.add_days now days = None ->
     generate_5days_codes_main.generate_codes count days now g
       = (Raised OverflowError, g) /\
     generate_all_codes_4parts_main.generate_codes count days code_type now g
       = (Raised OverflowError, g)).
Proof.
  intros count days now code_type g. split; [|split].
  - intros e He. unfold generate_lifetime_codes_main.generate_lifetime_codes.
    rewrite He.
    match goal with |- context [for_range ?n ?b g] =>
      pose proof (for_range_length n b g) as Hl;
      pose proof (fun P H => for_range_Forall P n b g H) as Hf;
      destruct (for_range n b g) as [codes g'] end.
    exists codes. split; [reflexivity|]. split; [exact Hl|].
    apply Hf. intros g0. unfold generate_lifetime_codes.generate_code.
    pose proof (bulk_code_format 4 g0) as Hk.
    destruct (random_segments _ 4 g0) as [parts g1]. cbn [fst ce_code ce_days
      ce_expiry_date ce_status ce_created_at ce_type] in *. repeat split; exact Hk.
  - intros e He. split.
    + unfold generate_5days_codes_main.generate_codes. rewrite He.
      match goal with |- context [for_range ?n ?b g] =>
        pose proof (for_range_length n b g) as Hl;
        pose proof (fun P H => for_range_Forall P n b g H) as Hf;
        destruct (for_range n b g) as [codes g'] end.
      exists codes. split; [reflexivity|]. split; [exact Hl|].
      apply Hf. intros g0. unfold generate_5days_codes.generate_code.
      pose proof (bulk_code_format 4 g0) as Hk.
      destruct (random_segments _ 4 g0) as [parts g1]. cbn [fst ce_code ce_days
        ce_expiry_date ce_status ce_created_at ce_type] in *. repeat split; exact Hk.
    + unfold generate_all_codes_4parts_main.generate_codes. rewrite He.
      match goal with |- context [for_range ?n ?b g] =>
        pose proof (for_range_length n b g) as Hl;
        pose proof (fun P H => for_range_Forall P n b g H) as Hf;
        destruct (for_range n b g) as [codes g'] end.
      exists codes. split; [reflexivity|]. split; [exact Hl|].
      apply Hf. intros g0. unfold generate_all_codes_4parts.generate_code_4parts.
      pose proof (bulk_code_format 3 g0) as Hk.
      destruct (random_segments _ 3 g0) as [parts g1]. cbn [fst ce_code ce_days
        ce_expiry_date ce_status ce_created_at ce_type] in *.
      repeat split; try exact Hk.
      * destruct (String.eqb_spec code_type "lifetime"); [auto | discriminate].
      * intros ->. reflexivity.
  - intros He. unfold generate_5days_codes_main.generate_codes,
      generate_all_codes_4parts_main.generate_codes. now rewrite He.
Qed.

Lemma batch_loops_return_count_entries_witness :
  exists codes,
    fst (generate_lifetime_codes_main.generate_lifetime_codes 10 t0 (rng_from 0))
      = Returned codes /\
    length codes = 10%nat.
Proof.
  destruct (batch_loops_return_count_entries 10 5 t0 "standard" (rng_from 0))
    as [H _].
  destruct (H (t0 + 36500 * day) eq_refl) as (codes & Hc & Hl & _).
  exists codes. split; [exact Hc | exact Hl].
Defined.

(** X20.  These three batch loops do not look for duplicates: when the
    random source is stuck on one value, every entry of the batch carries
    the same code, so a batch of two or more holds a code twice. *)
Theorem batch_loops_may_repeat_codes :
  forall (count days now : Z) (code_type : string) (v : nat) (codes : list code_entry),
    (fst (generate_lifetime_codes_main.generate_lifetime_codes count now (rng_stuck v))
       = Returned codes \/
     fst (generate_5days_codes_main.generate_codes count days now (rng_stuck v))
       = Returned codes \/
     fst (generate_all_codes_4parts_main.generate_codes count days code_type now
            (rng_stuck v)) = Returned codes) ->
    (exists c, map ce_code codes = repeat c (Z.to_nat count)) /\
    (2 <= count -> ~ NoDup (map ce_code codes)).
Proof.
  intros count days now code_type v codes H.
  assert (exists c, map ce_code codes = repeat c (Z.to_nat count)) as [c Hc].
  { assert (forall i, draw (rng_stuck v) i = v) as Hv by reflexivity.
    destruct H as [H|[H|H]];
      unfold generate_lifetime_codes_main.generate_lifetime_codes,
        generate_5days_codes_main.generate_codes,
        generate_all_codes_4parts_main.generate_codes in H;
      destruct (DateTime.add_days now _) as [e|]; try discriminate H;
      match type of H with context [for_range ?n ?b ?g] =>
        eassert (fst (for_range n b g) = repeat _ n) as Hr;
        [ apply (for_range_stuck _ n b g v); [|exact Hv];
          intros g0 Hg0; cbv beta;
          unfold generate_lifetime_codes.generate_code,
            generate_5days_codes.generate_code,
            generate_all_codes_4parts.generate_code_4parts;
          match goal with |- context [random_segments ?p ?k g0] =>
            destruct (bulk_code_stuck k g0 v Hg0) as [Hcode Hdraw];
            cbv zeta in Hcode; rewrite Hcode
          end; cbn [fst snd]; split; [reflexivity | exact Hdraw]
        | destruct (for_range n b g) as [cs g']; cbn [fst] in *;
          injection H as <-; rewrite Hr; rewrite map_repeat; eauto ]
      end. }
  split; [eauto|].
  intros Hcount Hnd. rewrite Hc in Hnd.
  destruct (Z.to_nat count) as [|[|n]] eqn:Hn; try lia.
  cbn [repeat] in Hnd. apply NoDup_cons in Hnd as [Hnot _].
  apply Hnot. now left.
Qed.

Lemma batch_loops_may_repeat_codes_witness :
  match fst (generate_lifetime_codes_main.generate_lifetime_codes 10 t0 (rng_stuck 0)) with
  | Returned codes => ~ NoDup (map ce_code codes)
  | Raised _ => False
  end.
Proof.
  destruct (fst (generate_lifetime_codes_main.generate_lifetime_codes 10 t0 (rng_stuck 0)))
    as [codes|ex] eqn:Hrun; [|vm_compute in Hrun; discriminate Hrun].
  refine (proj2 (batch_loops_may_repeat_codes 10 5 t0 "standard" 0 codes _) _);
    [now left | vm_compute; discriminate].
Defined.

Section UniqueLoop.

Variables (gen : Rng -> string * Rng) (days expiry : Z) (clock : nat -> Z) (count : Z).


Lemma unique_codes_loop_spec fuel :
  forall (codes : list code_entry) (used : gset string) (g : Rng) res,
    NoDup (map ce_code codes) ->
    (forall c, c ∈ used <-> In c (map ce_code codes)) ->
    Forall (loop_entry gen days expiry) codes ->
    (forall i x, codes !! i = Some x -> ce_created_at x = clock (S i)) ->
    Z.of_nat (length codes) <= Z.max 0 count ->
    unique_codes_loop gen days expiry clock count fuel codes used g = Some res ->
    NoDup (map ce_code (fst res)) /\
    Forall (loop_entry gen days expiry) (fst res) /\
    (forall i x, fst res !! i = Some x -> ce_created_at x = clock (S i)) /\
    Z.of_nat (length (fst res)) = Z.max 0 count.
Proof.
  induction fuel as [|fuel IH]; intros codes used g res Hnd Hused Hok Hat Hlen Hrun;
    cbn [unique_codes_loop] in Hrun;
    destruct (Z.ltb_spec (Z.of_nat (length codes)) count) as [Hlt|Hge];
    try discriminate Hrun;
    try (injection Hrun as <-; cbn [fst]; repeat split; auto; lia).
  destruct (gen g) as [code g'] eqn:Hgen.
  destruct (bool_decide (code ∈ used)) eqn:Hin.
  - exact (IH codes used g' res Hnd Hused Hok Hat Hlen Hrun).
  - apply bool_decide_eq_false in Hin.
    refine (IH _ _ g' res _ _ _ _ _ Hrun).
    + rewrite map_app. cbn [map ce_code]. apply NoDup_app. split; [exact Hnd|].
      split; [|apply NoDup_singleton].
      intros c Hc Hc'. apply list_elem_of_singleton in Hc'. subst c.
      apply Hin, Hused. now apply list_elem_of_In.
    + intros c. rewrite map_app, in_app_iff. cbn [map ce_code In].
      rewrite elem_of_union, elem_of_singleton, Hused. intuition.
    + apply Forall_app. split; [exact Hok|]. constructor; [|constructor].
      unfold loop_entry. cbn [ce_days ce_expiry_date ce_status ce_type ce_code].
      repeat split. exists g. now rewrite Hgen.
    + intros i x Hx. apply lookup_app_Some in Hx as [Hx|[Hi Hx]]; [now apply Hat|].
      apply list_lookup_singleton_Some in Hx as [Hi0 <-].
      cbn [ce_created_at]. f_equal. lia.
    + rewrite length_app. cbn [length]. lia.
Qed.

(** When the next [n] codes of the generator are new and distinct, [n]
    iterations complete the batch. *)
Lemma unique_codes_loop_returns n :
  forall (fuel : nat) (codes : list code_entry) (used : gset string) (g : Rng),
    (n <= fuel)%nat ->
    NoDup (first_codes gen n g) ->
    (forall c, In c (first_codes gen n g) -> c ∉ used) ->
    count = Z.of_nat (length codes + n) ->
    exists res,
      unique_codes_loop gen days expiry clock count fuel codes used g = Some res /\
      map ce_code (fst res) = (map ce_code codes ++ first_codes gen n g)%list.
Proof.
  induction n as [|n IH]; intros fuel codes used g Hfuel Hnd Hnew Hcount.
  - exists (codes, g). split; [|cbn; now rewrite app_nil_r].
    destruct fuel; cbn [unique_codes_loop];
      (destruct (Z.ltb_spec (Z.of_nat (length codes)) count); [lia | reflexivity]).
  - destruct fuel as [|fuel]; [lia|]. cbn [unique_codes_loop first_codes] in *.
    destruct (Z.ltb_spec (Z.of_nat (length codes)) count); [|lia].
    destruct (gen g) as [code g'] eqn:Hgen.
    apply NoDup_cons in Hnd as [Hfresh Hnd].
    rewrite bool_decide_eq_false_2 by (apply Hnew; now left).
    edestruct (IH fuel) as (res & Hres & Hmap);
      [ | exact Hnd | | | exists res; split; [exact Hres|] ].
    + lia.
    + intros c Hc Hc'. apply elem_of_union in Hc' as [Hc'|Hc'].
      * apply elem_of_singleton in Hc'. subst c. apply Hfresh. now apply list_elem_of_In.
      * apply (Hnew c); [now right | exact Hc'].
    + rewrite length_app. cbn [length]. lia.
    + rewrite Hmap, map_app. cbn [map ce_code]. now rewrite <- app_assoc.
Qed.

(** When the generator keeps yielding a code already used, the loop runs
    out of any number of iterations. *)
Lemma unique_codes_loop_stuck (P : Rng -> Prop) (c : string) fuel :
  (forall g, P g -> fst (gen g) = c /\ P (snd (gen g))) ->
  forall (codes : list code_entry) (used : gset string) (g : Rng),
    P g -> c ∈ used -> Z.of_nat (length codes) < count ->
    unique_codes_loop gen days expiry clock count fuel codes used g = None.
Proof.
  intros Hgen. induction fuel as [|fuel IH]; intros codes used g Hg Hc Hlt;
    cbn [unique_codes_loop];
    (destruct (Z.ltb_spec (Z.of_nat (length codes)) count); [|lia]); [reflexivity|].
  destruct (Hgen g Hg) as [Hcode Hg']. destruct (gen g) as [code g'].
  cbn [fst snd] in *. subst code. rewrite bool_decide_eq_true_2 by exact Hc.
  now apply IH.
Qed.

End UniqueLoop.

(** X21.  The batches of [generate_codes.py] and [generate_3days_codes.py]
    hold no code twice.  Whenever the loop ends, it returns exactly [count]
    entries (none for a negative [count]) whose codes are pairwise
    distinct, each of the format GNP-XXXX-XXXX-XXXX over uppercase letters
    and digits, with 30 (respectively 3) days and the expiry computed
    before the loop. *)
Theorem unique_batches_hold_no_code_twice :
  forall (count : Z) (clock : nat -> Z) (fuel : nat) (g g' : Rng)
         (codes : list code_entry),
    (generate_codes_main.generate_codes count clock fuel g = Returned (Some (codes, g')) ->
     length codes = Z.to_nat count /\
     NoDup (map ce_code codes) /\
     Forall (fun x => key_format is_upper_alnum 3 (ce_code x) /\ ce_days x = 30 /\
                      DateTime.add_days (clock 0%nat) 30 = Some (ce_expiry_date x))
            codes) /\
    (generate_3days_codes_main.generate_3days_codes count clock fuel g
       = Returned (Some (codes, g')) ->
     length codes = Z.to_nat count /\
     NoDup (map ce_code codes) /\
     Forall (fun x => key_format is_upper_alnum 3 (ce_code x) /\ ce_days x = 3 /\
                      DateTime.add_days (clock 0%nat) 3 = Some (ce_expiry_date x))
            codes).
Proof.
  intros count clock fuel g g' codes. split; intros Hrun;
    unfold generate_codes_main.generate_codes,
      generate_3days_codes_main.generate_3days_codes in Hrun;
    destruct (DateTime.add_days (clock 0%nat) _) as [e|] eqn:He; try discriminate Hrun;
    injection Hrun as Hrun;
    match type of Hrun with unique_codes_loop ?gen ?d _ _ _ _ _ _ _ = _ =>
      destruct (unique_codes_loop_spec gen d e clock count fuel [] ∅ g (codes, g'))
        as (Hnd & Hok & _ & Hlen);
      [ constructor | intros c; cbn; rewrite elem_of_empty; tauto | constructor
      | intros i x Hx; discriminate Hx | cbn; lia | exact Hrun | ]
    end; cbn [fst] in *;
    (split; [lia|]); (split; [exact Hnd|]);
    (eapply Forall_impl; [exact Hok|]);
    intros x (Hd & Hexp & _ & _ & g0 & Hcode); rewrite Hcode, Hd, Hexp;
    (split; [|split; reflexivity]);
    unfold generate_codes.generate_code, generate_3days_codes.generate_code; cbv zeta;
    pose proof (bulk_code_format 3 g0) as Hk;
    destruct (random_segments _ 3 g0) as [parts g1]; exact Hk.
Qed.

Lemma unique_batches_hold_no_code_twice_witness :
  exists codes g',
    generate_codes_main.generate_codes 3 (fun _ => t0) 3 (rng_from 0)
      = Returned (Some (codes, g')) /\
    NoDup (map ce_code codes).
Proof.
  destruct (generate_codes_main.generate_codes 3 (fun _ => t0) 3 (rng_from 0))
    as [[[codes g']|]|ex] eqn:Hrun; try (vm_compute in Hrun; discriminate Hrun).
  exists codes, g'. split; [reflexivity|].
  now destruct (unique_batches_hold_no_code_twice 3 (fun _ => t0) 3 (rng_from 0) g' codes)
    as [[_ [H _]] _].
Defined.

(** X22.  The loop ends as soon as enough fresh codes have come: when the
    first [n] codes the generator yields are pairwise distinct, [n]
    iterations give the batch of exactly these codes, in this order. *)
Theorem unique_batch_of_distinct_codes :
  forall (n fuel : nat) (clock : nat -> Z) (g : Rng),
    (n <= fuel)%nat ->
    (forall e, DateTime.add_days (clock 0%nat) 30 = Some e ->
       NoDup (first_codes generate_codes.generate_code n g) ->
       exists codes g',
         generate_codes_main.generate_codes (Z.of_nat n) clock fuel g
           = Returned (Some (codes, g')) /\
         map ce_code codes = first_codes generate_codes.generate_code n g) /\
    (forall e, DateTime.add_days (clock 0%nat) 3 = Some e ->
       NoDup (first_codes generate_3days_codes.generate_code n g) ->
       exists codes g',
         generate_3days_codes_main.generate_3days_codes (Z.of_nat n) clock fuel g
           = Returned (Some (codes, g')) /\
         map ce_code codes = first_codes generate_3days_codes.generate_code n g).
Proof.
  intros n fuel clock g Hfuel. split; intros e He Hnd;
    unfold generate_codes_main.generate_codes,
      generate_3days_codes_main.generate_3days_codes; rewrite He;
    match goal with |- context [unique_codes_loop ?gen ?d _ _ _ _ _ _ _] =>
      destruct (unique_codes_loop_returns gen d e clock (Z.of_nat n) n fuel [] ∅ g)
        as ([codes g'] & Hres & Hmap);
      [ exact Hfuel | exact Hnd | intros c _; apply not_elem_of_empty | reflexivity | ]
    end; exists codes, g'; (split; [now rewrite Hres | exact Hmap]).
Qed.

Lemma unique_batch_of_distinct_codes_witness :
  exists codes g',
    generate_codes_main.generate_codes 3 (fun _ => t0) 5 (rng_from 0)
      = Returned (Some (codes, g')) /\
    map ce_code codes = ["GNP-ABCD-EFGH-IJKL"; "GNP-MNOP-QRST-UVWX"; "GNP-YZ01-2345-6789"].
Proof.
  destruct (unique_batch_of_distinct_codes 3 5 (fun _ => t0) (rng_from 0)) as [H _];
    [lia|].
  destruct (H (t0 + 30 * day) eq_refl) as (codes & g' & Hrun & Hmap).
  { vm_compute. repeat constructor; rewrite ?list_elem_of_In; simpl;
      intuition discriminate. }
  exists codes, g'. split; [exact Hrun | exact Hmap].
Defined.

(** X23.  The loop has no bound on its retries: with a random source stuck
    on one value, a batch of two or more codes is never completed, however
    many iterations are run. *)
Theorem unique_batch_never_ends_on_stuck_source :
  forall (count : Z) (clock : nat -> Z) (fuel v : nat),
    2 <= count ->
    (forall e, DateTime.add_days (clock 0%nat) 30 = Some e ->
       generate_codes_main.generate_codes count clock fuel (rng_stuck v) = Returned None) /\
    (forall e, DateTime.add_days (clock 0%nat) 3 = Some e ->
       generate_3days_codes_main.generate_3days_codes count clock fuel (rng_stuck v)
       = Returned None).
Proof.
  intros count clock fuel v Hcount.
  set (pop := list_ascii_of_string (ascii_uppercase ++ digits)).
  set (c := "GNP-" ++ PyStr.join "-"
              (repeat (PyStr.of_chars (repeat (nth (v mod length pop) pop "?"%char) 4)) 3)).
  assert (forall gen,
            (forall g, gen g = let '(parts, g') := random_segments pop 3 g in
                               ("GNP-" ++ PyStr.join "-" parts, g')) ->
            forall d e, unique_codes_loop gen d e clock count fuel [] ∅ (rng_stuck v) = None)
    as Hloop.
  { intros gen Hgen d e.
    assert (forall g, (forall i, draw g i = v) ->
              fst (gen g) = c /\ forall i, draw (snd (gen g)) i = v) as Hstuck.
    { intros g Hg. rewrite Hgen. destruct (bulk_code_stuck 3 g v Hg) as [Hcode Hdraw].
      fold pop in Hcode, Hdraw. cbv zeta in Hcode. rewrite Hcode. now split. }
    destruct fuel as [|fuel]; cbn [unique_codes_loop length];
      (destruct (Z.ltb_spec (Z.of_nat 0) count); [|lia]); [reflexivity|].
    destruct (Hstuck (rng_stuck v) (fun _ => eq_refl)) as [Hcode Hdraw].
    destruct (gen (rng_stuck v)) as [code g']. cbn [fst snd] in *. subst code.
    rewrite bool_decide_eq_false_2 by apply not_elem_of_empty.
    apply (unique_codes_loop_stuck gen d e clock count (fun g => forall i, draw g i = v) c);
      [exact Hstuck | exact Hdraw | apply elem_of_union_l, elem_of_singleton; reflexivity
      | cbn; lia]. }
  split; intros e He;
    unfold generate_codes_main.generate_codes,
      generate_3days_codes_main.generate_3days_codes; rewrite He; f_equal;
    apply Hloop; intros g; reflexivity.
Qed.

Lemma unique_batch_never_ends_on_stuck_source_witness :
  generate_codes_main.generate_codes 100 (fun _ => t0) 1000 (rng_stuck 7) = Returned None.
Proof.
  destruct (unique_batch_never_ends_on_stuck_source 100 (fun _ => t0) 1000 7) as [H _];
    [lia|].
  exact (H (t0 + 30 * day) eq_refl).
Defined.

(** ** Requests that are not made of text *)

Section Untyped.

Implicit Types (db : DB) (row r : LicenseRow) (k d key addr : string).

(** What the handlers read of an object that carries a key in text and a
    device of any type. *)
Lemma read_request_device_value k (v : json) :
  read_request (JObject [("license_key", JStr (Text k)); ("device_id", v)])
  = Returned (Text (PyStr.upper k), v).
Proof. reflexivity. Qed.

Lemma py_ne_not_text (col : option string) (v : json) :
  v <> JNull -> (forall s, v <> JStr s) -> Py.ne col v = true.
Proof.
  intros Hnull Hstr. destruct col as [a|], v as [| | | |s| |]; cbn; try reflexivity.
  - now elim (Hstr s).
  - now elim Hnull.
Qed.

Lemma truthy_not_null (v : json) : Py.truthy v = true -> v <> JNull.
Proof. now intros H ->. Qed.

End Untyped.

(** X24.  No handler of the client API looks at the type of what it
    reads.  A body that is not a JSON object, and an object whose
    [license_key] is not a string (JSON [null] included), make
    [activate], [verify] and [deactivate] alike raise [AttributeError] on
    their first lines; the client gets status 500, and neither table is
    written. *)
Theorem unreadable_request_is_not_served :
  forall (db : DB) (data : json) (addr : string) (t1 t2 : Z),
    (forall members, data <> JObject members) \/
    (exists members v, data = JObject members /\
       Py.member members "license_key" = Some v /\ forall s, v <> JStr s) ->
    activate_license db data addr t1 t2 = (db, Raised AttributeError) /\
    verify_license db data addr t1 = (db, Raised AttributeError) /\
    deactivate_license db data addr = (db, Raised AttributeError) /\
    http_status (snd (activate_license db data addr t1 t2)) = 500.
Proof.
  intros db data addr t1 t2 Hdata.
  assert (read_request data = Raised AttributeError) as Hreq.
  { unfold read_request. destruct Hdata as [Hno | (members & v & -> & Hv & Hs)].
    - destruct data; try reflexivity. now elim (Hno members).
    - cbn [Py.get]. rewrite Hv. destruct v as [| | | |s| |]; try reflexivity.
      now elim (Hs s). }
  unfold activate_license, activate_check, verify_license, deactivate_license.
  rewrite Hreq. repeat split.
Qed.

Lemma unreadable_request_is_not_served_witness :
  verify_license db_bound (JObject [("license_key", JInt 7)]) "10.0.0.1" (t0 + day)
  = (db_bound, Raised AttributeError).
Proof.
  destruct (unreadable_request_is_not_served db_bound (JObject [("license_key", JInt 7)])
              "10.0.0.1" (t0 + day) (t0 + day)) as (_ & H & _); [|exact H].
  right. exists [("license_key", JInt 7)], (JInt 7).
  split; [reflexivity|]. split; [reflexivity|]. intros s. discriminate.
Defined.

(** X25.  A device that is not a string locks itself out.  [activate]
    accepts as [device_id] a number or [true]; SQLite stores its text in
    the [TEXT] column.  The same request, sent again, is then refused: what
    is read back is a string, which Python does not find equal to the
    number, so [activate] answers 403 and [verify] that the device is not
    allowed.  [deactivate] compares in SQL, where the number is turned
    into text first, and releases the key. *)
Theorem non_text_device_locks_itself_out :
  forall (db : DB) (k text addr : string) (v : json) (row : LicenseRow) (t1 t2 : Z),
    k <> "" ->
    licenses db !! PyStr.upper k = Some row ->
    is_active row = true -> t1 <= expires_at row -> is_used row = false ->
    Py.truthy v = true -> (forall s, v <> JStr s) ->
    Sql.bind v = Returned (Some text) ->
    let data := JObject [("license_key", JStr (Text k)); ("device_id", v)] in
    let db' := fst (activate_license db data addr t1 t2) in
    snd (activate_license db data addr t1 t2)
    = Returned {| status := 200;
                  body := activate_success msg_activated (expires_at row)
                            (plan row) (user_name row) |} /\
    licenses db' !! PyStr.upper k = Some (bound_to text t2 row) /\
    (forall addr' t3 t4, t3 <= expires_at row ->
       activate_license db' data addr' t3 t4
       = (db', Returned {| status := 403; body := activate_failure msg_other_device |})) /\
    (forall addr' t,
       verify_license db' data addr' t
       = (db', Returned {| status := 200;
                           body := verify_inactive msg_device_not_allowed |})) /\
    (forall addr',
       licenses (fst (deactivate_license db' data addr')) !! PyStr.upper k
       = Some (released (bound_to text t2 row))).
Proof.
  intros db k text addr v row t1 t2 Hk Hrow Hact Hexp Hused Hv Hstr Hbind data db'.
  pose proof (read_request_device_value k v) as Hreq. fold data in Hreq.
  pose proof (truthy_nonempty k Hk) as Hkt.
  assert (forall (s : DB) (r : LicenseRow) now,
            licenses s !! PyStr.upper k = Some r -> is_active r = true ->
            now <= expires_at r ->
            activate_check s data now =
            if is_used r && Py.ne (device_id r) v
            then Reject (jsonify_status (activate_failure msg_other_device) 403)
            else Accept (PyStr.upper k) v r) as Hcheck.
  { intros s r now Hr Ha He. unfold activate_check, Sql.select_license. rewrite Hreq.
    cbn [Py.str_truthy Sql.bind_str]. rewrite upper_truthy, Hkt, Hv. cbn [negb orb].
    rewrite Hr, Ha. cbn [negb].
    destruct (Z.gtb_spec now (expires_at r)); [lia | reflexivity]. }
  assert (activate_license db data addr t1 t2 =
          ({| licenses := <[PyStr.upper k := bound_to text t2 row]> (licenses db);
              activation_logs :=
                activation_logs db ++ [log_entry (PyStr.upper k) (Some text) act_activate addr] |},
           Returned {| status := 200;
                       body := activate_success msg_activated (expires_at row)
                                 (plan row) (user_name row) |})) as Hrun.
  { unfold activate_license. rewrite (Hcheck db row t1 Hrow Hact Hexp), Hused.
    cbn [andb]. rewrite (activate_commit_bound db _ v (Some text) row addr t2 Hbind).
    now rewrite (alter_present _ _ _ _ Hrow). }
  assert (licenses db' !! PyStr.upper k = Some (bound_to text t2 row)) as Hnew.
  { subst db'. rewrite Hrun. cbn [fst licenses]. apply lookup_insert_eq. }
  pose proof (py_ne_not_text (Some text) v (truthy_not_null v Hv) Hstr) as Hne.
  split; [now rewrite Hrun|]. split; [exact Hnew|]. split; [|split].
  - intros addr' t3 t4 Ht3. unfold activate_license.
    rewrite (Hcheck db' (bound_to text t2 row) t3 Hnew Hact Ht3).
    cbn [is_used device_id bound_to Sql.set_binding]. now rewrite Hne.
  - intros addr' t. unfold verify_license, Sql.select_license. rewrite Hreq.
    cbn [Sql.bind_str]. rewrite Hnew.
    cbn [device_id bound_to Sql.set_binding]. now rewrite Hne.
  - intros addr'.
    rewrite (deactivate_license_served db' data addr' (PyStr.upper k) v (Some text)
               Hreq Hbind).
    cbn [fst licenses Sql.insert_log Sql.update_deactivate Sql.with_licenses].
    rewrite lookup_alter_eq, Hnew. cbn [fmap option_fmap option_map].
    cbn [device_id bound_to Sql.set_binding Sql.eq_text].
    now rewrite String.eqb_refl.
Qed.

Lemma non_text_device_locks_itself_out_witness :
  let data := JObject [("license_key", JStr (Text key0)); ("device_id", JInt 123)] in
  let db' := fst (activate_license db_fresh data "10.0.0.1" (t0 + second) (t0 + second)) in
  (device_id <$> licenses db' !! key0) = Some (Some "123") /\
  verify_license db' data "10.0.0.1" (t0 + day)
  = (db', Returned {| status := 200; body := verify_inactive msg_device_not_allowed |}).
Proof.
  intros data db'.
  destruct (licenses db_fresh !! PyStr.upper key0) as [row|] eqn:Hrow;
    [|vm_compute in Hrow; discriminate].
  assert (Hrow' := Hrow). vm_compute in Hrow'. injection Hrow' as Hrow'.
  destruct (non_text_device_locks_itself_out db_fresh key0 "123" "10.0.0.1" (JInt 123) row
              (t0 + second) (t0 + second))
    as (_ & Hnew & _ & Hverify & _);
    [ discriminate | exact Hrow | now subst row
    | subst row; vm_compute; discriminate | now subst row | reflexivity
    | intros s; discriminate | reflexivity | ].
  split; [|exact (Hverify "10.0.0.1" (t0 + day))].
  fold data db' in Hnew. change (PyStr.upper key0) with key0 in Hnew.
  now rewrite Hnew.
Defined.
